(** * Coreum: fungible-token transfer validator, fee-model edge prices and
      DEX good-til scheduling

    A shallow embedding of
    - [x/asset/ft/keeper/keeper.go] (package [keeper] of the asset/ft module),
    - the fee-model keeper ([CalculateEdgeGasPriceAfterBlocks]),
    - the good-til scheduling exercised by [x/dex/keeper/good_til_test.go],
    together with the properties the specification states about them.

    Conventions.
    - [sdkmath.Int] is an arbitrary-precision integer: it is [Z] here.
    - [sdkmath.LegacyDec] is a fixed-point decimal with 18 fractional digits:
      it is the underlying integer, a [Z] counting units of 10^-18, so that
      comparison, [LegacyMinDec] and [LegacyMaxDec] are those of [Z].
    - [sdk.AccAddress] is represented by its bech32 string, the form in which
      the keeper stores and compares it ([addr.String()]).
    - A Go [error] return is a [result]; [sdkerrors.Wrapf] keeps the wrapped
      sentinel ([sdkerrors.IsOf] sees through it), so wrapping is the identity
      on the [Error] kind.
    - The key-value store of the module is a record of finite maps, one per
      key prefix. *)

From Stdlib Require Import ZArith List Lia Ascii.
From stdpp Require Import base gmap strings list.

Local Open Scope Z_scope.

(** ** Errors and results *)

Inductive Error : Type :=
| ErrInvalidInput
| ErrInvalidDenom
| ErrTokenNotFound
| ErrInvalidState
| ErrFeatureDisabled
| ErrGloballyFrozen
| ErrWhitelistedLimitExceeded
| ErrUnauthorized
| ErrInsufficientFunds
| ErrInvalidCoins
| ErrInvalidRequest
| ErrInvalidAddress
| ErrRecordNotFound
| ErrDuplicateOrderID
| ErrExternal (code : string).

Inductive result (A : Type) : Type :=
| Ok (a : A)
| Err (e : Error).

Arguments Ok {A} a.
Arguments Err {A} e.

Definition bind {A B : Type} (r : result A) (k : A -> result B) : result B :=
  match r with
  | Ok a => k a
  | Err e => Err e
  end.

Notation "'let*' x ':=' r 'in' k" := (bind r (fun x => k))
  (at level 10, x pattern, r at level 100, k at level 200).

Notation "r ';;' k" := (bind r (fun _ => k))
  (at level 100, k at level 200, right associativity).

(** [if cond { return err }] *)
Definition failIf (cond : bool) (e : Error) : result unit :=
  if cond then Err e else Ok tt.

Definition isOk {A : Type} (r : result A) : bool :=
  match r with Ok _ => true | Err _ => false end.

(** ** Package sdk: coins *)

Module sdk.

Record Coin : Type := NewCoin { Denom : string; Amount : Z }.

(** [sdk.DecCoin]: a denom and a [LegacyDec] amount. *)
Record DecCoin : Type := NewDecCoinFromDec { DecDenom : string; DecAmount : Z }.

End sdk.

(** ** Package types of x/asset/ft *)

Module types.

Inductive Feature : Type :=
| Feature_minting
| Feature_burning
| Feature_freezing
| Feature_whitelisting
| Feature_ibc
| Feature_block_smart_contracts
| Feature_clawback
| Feature_extension.

#[global] Instance Feature_eq_dec : EqDecision Feature.
Proof. solve_decision. Defined.

(** [types.Definition] (the name is a keyword here) *)
Record FTDefinition : Type := {
  Denom : string;
  Issuer : string;
  Features : list Feature;
  BurnRate : Z;
  SendCommissionRate : Z;
  Version : Z;
  URI : string;
  URIHash : string;
  Admin : string;
  ExtensionCWAddress : string
}.

(** Modelled from the spec: the methods of [types.Definition] live in
    x/asset/ft/types, which is not among the sources.
    [is_feature_enabled(def, feature)]: the feature is in the set
    [features] of the definition. *)
Definition IsFeatureEnabled (def : FTDefinition) (feature : Feature) : bool :=
  bool_decide (feature ∈ Features def).

(** Modelled from the spec: [is_admin(def, actor)], the actor is the
    [admin] of the definition. *)
Definition IsAdmin (def : FTDefinition) (addr : string) : bool :=
  bool_decide (Admin def = addr).

(** Modelled from the spec: [has_admin_privileges(def, actor)] is true iff
    [admin] is set and equal to the actor. *)
Definition HasAdminPrivileges (def : FTDefinition) (addr : string) : bool :=
  bool_decide (Admin def ≠ EmptyString) && bool_decide (Admin def = addr).

(** Modelled from the spec: the features that are admin-only. Burning is
    the one operation the keeper opens to every holder ([Burn] passes the
    sender through [CheckFeatureAllowed]); the admin operations of 4.D
    (freeze, globally freeze, whitelist, clawback, mint) are reserved to
    the admin. *)
Definition adminOnly (feature : Feature) : bool :=
  match feature with
  | Feature_burning => false
  | _ => true
  end.

(** Modelled from the spec: [check_feature_allowed(def, actor, feature)]
    returns [FeatureDisabled] if the feature is not enabled and
    [Unauthorized] if the feature is admin-only and the actor is not
    admin. *)
Definition CheckFeatureAllowed (def : FTDefinition) (addr : string) (feature : Feature)
  : result unit :=
  if negb (IsFeatureEnabled def feature) then Err ErrFeatureDisabled
  else if adminOnly feature && negb (HasAdminPrivileges def addr) then Err ErrUnauthorized
  else Ok tt.

(** [types.StoreTrue], the marker byte stored under flag keys. *)
Definition StoreTrue : list N := [1%N].

(** [types.ModuleName] *)
Definition ModuleName : string := "assetft".

(** [types.DEXSettings] *)
Record DEXSettings : Type := {
  UnifiedRefAmount : option Z;
  WhitelistedDenoms : list string
}.

(** [types.ExtensionIssueSettings] *)
Record ExtensionIssueSettings : Type := {
  CodeId : Z;
  Label : string;
  Funds : list sdk.Coin;
  IssuanceMsg : string
}.

(** [types.IssueSettings]; the fields that share a name with a field of
    the definition carry the prefix [Settings]. *)
Record IssueSettings : Type := {
  SettingsIssuer : string;
  Symbol : string;
  Subunit : string;
  Precision : Z;
  Description : string;
  InitialAmount : Z;
  SettingsFeatures : list Feature;
  SettingsBurnRate : Z;
  SettingsSendCommissionRate : Z;
  SettingsURI : string;
  SettingsURIHash : string;
  ExtensionSettings : option ExtensionIssueSettings;
  SettingsDEX : option DEXSettings
}.

(** [types.Params], of which the keeper methods here read the issue fee *)
Record Params : Type := { IssueFee : sdk.Coin }.

(** The functions and constants of x/asset/ft/types used by the keeper.
    The package is not among the sources, so they are parameters of the
    development.
    Modelled from the spec: deconstructing a denom yields
    [(subunit, issuer)] or an error; the error is [ErrInvalidDenom], the
    sentinel [getDefinitionOrNil] tests for, so [DeconstructDenom] is a
    partial function here. *)
Class Pkg : Type := {
  DeconstructDenom : string -> option (string * string);
  BuildDenom : string -> string -> string;
  NormalizeSymbolForKey : string -> string;
  ValidateSubunit : string -> result unit;
  ValidatePrecision : Z -> result unit;
  ValidateFeatures : list Feature -> result unit;
  ValidateBurnRate : Z -> result unit;
  ValidateSendCommissionRate : Z -> result unit;
  ValidateSymbol : string -> result unit;
  ValidateDEXSettings : DEXSettings -> result unit;
  ValidateDEXSettingsAccess : DEXSettings -> FTDefinition -> result unit;
  MaxMintableAmount : Z;
  CurrentTokenVersion : Z
}.

(** the typed events the methods here emit *)
Inductive Event : Type :=
| EventIssued (denom issuer symbol subunit : string) (initialAmount : Z)
| EventAdminCleared (denom previousAdmin : string).

End types.

(** ** Package wibctransfer/types: the purpose of the running transfer *)

Module wibctransfertypes.

(** Modelled from the spec: the transfer purpose (none, ibc-out, ibc-in,
    ack, timeout) is a tag attached to the execution context. *)
Inductive Purpose : Type :=
| PurposeNone
| PurposeOut
| PurposeIn
| PurposeAck
| PurposeTimeout.

#[global] Instance Purpose_eq_dec : EqDecision Purpose.
Proof. solve_decision. Defined.

End wibctransfertypes.

(** ** The execution context and the stores

    [sdk.Context] carries both the per-call tags (purpose of the IBC
    transfer, smart-contract markers) and the handle on the stores. The tags
    are [Ctx], the stores are [State]. *)

Record Ctx : Type := {
  purpose : wibctransfertypes.Purpose;
  (** [cwasmtypes.IsTriggeredBySmartContract] *)
  triggeredBySmartContract : bool;
  (** set by [cwasmtypes.WithSmartContractRecipient] *)
  smartContractRecipient : option string
}.

(** Modelled from the spec: the purpose is ibc-out
    ([wibctransfertypes.IsPurposeOut]). *)
Definition IsPurposeOut (ctx : Ctx) : bool :=
  bool_decide (purpose ctx = wibctransfertypes.PurposeOut).

(** Modelled from the spec: the purpose is ibc-in
    ([wibctransfertypes.IsPurposeIn]). *)
Definition IsPurposeIn (ctx : Ctx) : bool :=
  bool_decide (purpose ctx = wibctransfertypes.PurposeIn).

(** Modelled from the spec: the purpose is ack
    ([wibctransfertypes.IsPurposeAck]). *)
Definition IsPurposeAck (ctx : Ctx) : bool :=
  bool_decide (purpose ctx = wibctransfertypes.PurposeAck).

(** Modelled from the spec: the purpose is timeout
    ([wibctransfertypes.IsPurposeTimeout]). *)
Definition IsPurposeTimeout (ctx : Ctx) : bool :=
  bool_decide (purpose ctx = wibctransfertypes.PurposeTimeout).

(** Modelled from the spec: the current transaction was triggered by a smart
    contract ([cwasmtypes.IsTriggeredBySmartContract], rule 4 of
    validate_spendable). *)
Definition IsTriggeredBySmartContract (ctx : Ctx) : bool :=
  triggeredBySmartContract ctx.

(** Modelled from the spec: the receiver is a smart contract
    ([cwasmtypes.IsReceivingSmartContract], rule 4 of validate_receivable):
    the address is the one the context was marked with. *)
Definition IsReceivingSmartContract (ctx : Ctx) (addr : string) : bool :=
  bool_decide (smartContractRecipient ctx = Some addr).

(** Modelled from the spec: [cwasmtypes.WithSmartContractRecipient] marks the
    context with the receiving contract. *)
Definition WithSmartContractRecipient (ctx : Ctx) (addr : string) : Ctx :=
  {| purpose := purpose ctx;
     triggeredBySmartContract := triggeredBySmartContract ctx;
     smartContractRecipient := Some addr |}.

(** ** Package banktypes: denom metadata *)

Module banktypes.

Record DenomUnit : Type := { UnitDenom : string; Exponent : Z }.

Record Metadata : Type := {
  Description : string;
  DenomUnits : list DenomUnit;
  Base : string;
  Display : string;
  Name : string;
  Symbol : string;
  URI : string;
  URIHash : string
}.

End banktypes.

(** ** Package keeper of x/asset/ft *)

Module keeper.

Import types.

(** The stores reachable from the keeper. The bank, staking and wasm
    keepers are external collaborators; of the bank only the balances, the
    vesting locks ([LockedCoins]) and the denom metadata are kept, of
    staking the bond denom, of wasm the set of contract addresses. Balance
    stores are keyed by [(account, denom)]; the definitions by
    [CreateTokenKey(issuer, subunit)], the symbols by
    [CreateSymbolKey(issuer, symbol)]. *)
Record State : Type := {
  bankBalances : gmap (string * string) Z;
  bankLockedCoins : gmap (string * string) Z;
  bankDenomMetaData : gmap string banktypes.Metadata;
  stakingBondDenom : string;
  wasmContracts : gset string;
  params : Params;
  definitions : gmap (string * string) FTDefinition;
  symbols : gmap (string * string) (list N);
  globalFreeze : gmap string (list N);
  frozenBalances : gmap (string * string) Z;
  whitelistedBalances : gmap (string * string) Z;
  dexLockedBalances : gmap (string * string) Z;
  dexExpectedToReceiveBalances : gmap (string * string) Z;
  dexSettings : gmap string DEXSettings;
  events : list Event
}.

(** *** The state-and-error monad of the mutating entry points

    A keeper method writes to the store as it goes and may return an error
    after some writes; the computation returns the outcome together with
    the store as the method left it. *)
Definition M (A : Type) : Type := State -> result A * State.

Definition ret {A : Type} (a : A) : M A := fun st => (Ok a, st).

Definition fail {A : Type} (e : Error) : M A := fun st => (Err e, st).

Definition mbind {A B : Type} (m : M A) (k : A -> M B) : M B :=
  fun st =>
    match m st with
    | (Ok a, st') => k a st'
    | (Err e, st') => (Err e, st')
    end.

(** a read-only call *)
Definition read {A : Type} (f : State -> result A) : M A :=
  fun st => (f st, st).

(** a store write *)
Definition write (f : State -> State) : M unit :=
  fun st => (Ok tt, f st).

Notation "'do*' x '<-' m ';' k" := (mbind m (fun x => k))
  (at level 10, x pattern, m at level 100, k at level 200).

Notation "m '>>' k" := (mbind m (fun _ => k))
  (at level 100, k at level 200, right associativity).

(** [if cond { return err }] inside a mutating method *)
Definition failWhen (cond : bool) (e : Error) : M unit :=
  if cond then fail e else ret tt.

(** *** Reads of the external keepers and of the balance stores *)

(** [k.bankKeeper.GetBalance(ctx, addr, denom)] *)
Definition GetBalance (st : State) (addr denom : string) : sdk.Coin :=
  sdk.NewCoin denom (default 0 (bankBalances st !! (addr, denom))).

(** [k.bankKeeper.LockedCoins(ctx, addr).AmountOf(denom)] *)
Definition LockedCoinsAmountOf (st : State) (addr denom : string) : Z :=
  default 0 (bankLockedCoins st !! (addr, denom)).

(** [k.bankKeeper.GetDenomMetaData(ctx, denom)] *)
Definition GetDenomMetaData (st : State) (denom : string) : option banktypes.Metadata :=
  bankDenomMetaData st !! denom.

(** [wasm.IsSmartContract(ctx, addr, k.wasmKeeper)] *)
Definition IsSmartContract (st : State) (addr : string) : bool :=
  bool_decide (addr ∈ wasmContracts st).

(** Modelled from the spec: the balance store of the keeper is not among
    the sources; [k.frozenAccountBalanceStore(ctx, addr).Balance(denom)]
    reads [frozen[account][denom]], zero when nothing is stored. *)
Definition frozenStoreBalance (st : State) (addr denom : string) : sdk.Coin :=
  sdk.NewCoin denom (default 0 (frozenBalances st !! (addr, denom))).

(** GetWhitelistedBalance returns the whitelisted balance of a denom and
    account ([whitelisted[account][denom]] of the balance store, zero when
    nothing is stored). *)
Definition GetWhitelistedBalance (st : State) (addr denom : string) : sdk.Coin :=
  sdk.NewCoin denom (default 0 (whitelistedBalances st !! (addr, denom))).

(** Modelled from the spec: [GetDEXLockedBalance] is defined in a file of
    the keeper that is not among the sources; it reads
    [dex_locked[account][denom]]. *)
Definition GetDEXLockedBalance (st : State) (addr denom : string) : sdk.Coin :=
  sdk.NewCoin denom (default 0 (dexLockedBalances st !! (addr, denom))).

(** Modelled from the spec: [GetDEXExpectedToReceivedBalance] is defined in
    a file of the keeper that is not among the sources; it reads
    [dex_expected[account][denom]]. *)
Definition GetDEXExpectedToReceivedBalance (st : State) (addr denom : string) : sdk.Coin :=
  sdk.NewCoin denom (default 0 (dexExpectedToReceiveBalances st !! (addr, denom))).

(** Modelled from the spec: [validateCoinIsNotLockedByDEXAndBank] is
    defined in a file of the keeper that is not among the sources. Rule 5
    of validate_spendable: check
    [amount ≤ bank[from][denom] − dex_locked[from][denom] − bank_locked[from][denom]],
    fail with [InsufficientFunds] otherwise. *)
Definition validateCoinIsNotLockedByDEXAndBank (st : State) (addr : string) (coin : sdk.Coin)
  : result unit :=
  let availableAmt :=
    sdk.Amount (GetBalance st addr (sdk.Denom coin))
    - sdk.Amount (GetDEXLockedBalance st addr (sdk.Denom coin))
    - LockedCoinsAmountOf st addr (sdk.Denom coin) in
  failIf (availableAmt <? sdk.Amount coin) ErrInsufficientFunds.

(** ExtensionInstantiateMsg is the message passed to the extension cosmwasm
    contract. *)
Record ExtensionInstantiateMsg : Type := {
  MsgDenom : string;
  MsgIssuanceMsg : string
}.

(** The calls that leave the module: the permissioned wasm keeper
    instantiating the extension contract (it runs foreign code, so it may
    fail and may touch the stores), and the validation of
    [banktypes.Metadata]. *)
Class Collaborators : Type := {
  Instantiate2 :
    Z -> string -> string -> ExtensionInstantiateMsg -> string -> list sdk.Coin -> M string;
  MetadataValidate : banktypes.Metadata -> result unit
}.

Section WithTypes.

Context `{P : Pkg} `{C : Collaborators}.

(** GetDefinition returns the Definition by the denom. *)
Definition GetDefinition (st : State) (denom : string) : result FTDefinition :=
  match DeconstructDenom denom with
  | None => Err ErrInvalidDenom
  | Some (subunit, issuer) =>
      match definitions st !! (issuer, subunit) with
      | None => Err ErrTokenNotFound
      | Some definition => Ok definition
      end
  end.

Definition getDefinitionOrNil (st : State) (denom : string) : result (option FTDefinition) :=
  match GetDefinition st denom with
  | Err err =>
      match err with
      | ErrInvalidDenom | ErrTokenNotFound => Ok None
      | _ => Err ErrInvalidState
      end
  | Ok def => Ok (Some def)
  end.

Definition isGloballyFrozen (st : State) (denom : string) : bool :=
  bool_decide (globalFreeze st !! denom = Some StoreTrue).

(** GetFrozenBalance returns the frozen balance of a denom and account. *)
Definition GetFrozenBalance (st : State) (addr denom : string) : result sdk.Coin :=
  let isGloballyFrozen := isGloballyFrozen st denom in
  let* def := getDefinitionOrNil st denom in
  if match def with Some d => HasAdminPrivileges d addr | None => false end
  then Ok (sdk.NewCoin denom 0)
  else if isGloballyFrozen then Ok (GetBalance st addr denom)
  else Ok (frozenStoreBalance st addr denom).

Definition validateWhitelistedBalance (st : State) (addr : string) (coin : sdk.Coin)
  : result unit :=
  let balance := GetBalance st addr (sdk.Denom coin) in
  let whitelistedBalance := GetWhitelistedBalance st addr (sdk.Denom coin) in
  let dexExpectedToReceiveBalance :=
    GetDEXExpectedToReceivedBalance st addr (sdk.Denom coin) in
  let availableToReceiveAmount :=
    sdk.Amount whitelistedBalance
    - sdk.Amount balance
    - sdk.Amount dexExpectedToReceiveBalance in
  failIf (availableToReceiveAmount <? sdk.Amount coin) ErrWhitelistedLimitExceeded.

Definition validateCoinSpendable (ctx : Ctx) (st : State) (addr : string)
    (def : FTDefinition) (amount : Z) : result unit :=
  if IsPurposeAck ctx then Ok tt else
  if IsPurposeTimeout ctx then Ok tt else
  (if IsFeatureEnabled def Feature_freezing then
     let isGloballyFrozen := isGloballyFrozen st (Denom def) in
     failIf (isGloballyFrozen && negb (HasAdminPrivileges def addr)) ErrGloballyFrozen
   else Ok tt) ;;
  if IsPurposeIn ctx then Ok tt else
  failIf (IsFeatureEnabled def Feature_block_smart_contracts
          && negb (HasAdminPrivileges def addr)
          && IsTriggeredBySmartContract ctx) ErrUnauthorized ;;
  validateCoinIsNotLockedByDEXAndBank st addr (sdk.NewCoin (Denom def) amount) ;;
  if IsFeatureEnabled def Feature_freezing && negb (HasAdminPrivileges def addr) then
    let* frozenBalance := GetFrozenBalance st addr (Denom def) in
    let frozenAmt := sdk.Amount frozenBalance in
    let balance := GetBalance st addr (Denom def) in
    let notFrozenAmt := sdk.Amount balance - frozenAmt in
    failIf (notFrozenAmt <? amount) ErrInsufficientFunds
  else Ok tt.

Definition validateCoinReceivable (ctx : Ctx) (st : State) (addr : string)
    (def : FTDefinition) (amount : Z) : result unit :=
  if IsPurposeOut ctx then
    failIf (negb (IsFeatureEnabled def Feature_ibc)) ErrUnauthorized
  else
  if IsPurposeAck ctx then Ok tt else
  if IsPurposeTimeout ctx then Ok tt else
  (if IsFeatureEnabled def Feature_whitelisting && negb (HasAdminPrivileges def addr) then
     validateWhitelistedBalance st addr (sdk.NewCoin (Denom def) amount)
   else Ok tt) ;;
  failIf (IsFeatureEnabled def Feature_block_smart_contracts
          && negb (HasAdminPrivileges def addr)
          && IsReceivingSmartContract ctx addr) ErrUnauthorized.

(** GetSpendableBalance returns balance allowed to be spent. *)
Definition GetSpendableBalance (st : State) (addr denom : string) : result sdk.Coin :=
  let balance := GetBalance st addr denom in
  if sdk.Amount balance =? 0 then Ok balance else
  let notLockedAmt :=
    sdk.Amount balance
    - sdk.Amount (GetDEXLockedBalance st addr denom)
    - LockedCoinsAmountOf st addr denom in
  if notLockedAmt <? 0 then Ok (sdk.NewCoin denom 0) else
  let* def := getDefinitionOrNil st denom in
  if match def with Some d => IsFeatureEnabled d Feature_freezing | None => false end then
    let* frozenBalance := GetFrozenBalance st addr denom in
    let notFrozenAmt := sdk.Amount balance - sdk.Amount frozenBalance in
    if notFrozenAmt <? 0 then Ok (sdk.NewCoin denom 0) else
    let spendableAmount := Z.min notLockedAmt notFrozenAmt in
    Ok (sdk.NewCoin denom spendableAmount)
  else Ok (sdk.NewCoin denom notLockedAmt).


(** *** Store writes *)

Definition lift {A : Type} (r : result A) : M A := fun st => (r, st).

Definition setBankBalances (f : gmap (string * string) Z -> gmap (string * string) Z)
    (st : State) : State :=
  {| bankBalances := f (bankBalances st);
     bankLockedCoins := bankLockedCoins st;
     bankDenomMetaData := bankDenomMetaData st;
     stakingBondDenom := stakingBondDenom st;
     wasmContracts := wasmContracts st;
     params := params st;
     definitions := definitions st;
     symbols := symbols st;
     globalFreeze := globalFreeze st;
     frozenBalances := frozenBalances st;
     whitelistedBalances := whitelistedBalances st;
     dexLockedBalances := dexLockedBalances st;
     dexExpectedToReceiveBalances := dexExpectedToReceiveBalances st;
     dexSettings := dexSettings st;
     events := events st |}.

Definition setBankDenomMetaData
    (f : gmap string banktypes.Metadata -> gmap string banktypes.Metadata)
    (st : State) : State :=
  {| bankBalances := bankBalances st;
     bankLockedCoins := bankLockedCoins st;
     bankDenomMetaData := f (bankDenomMetaData st);
     stakingBondDenom := stakingBondDenom st;
     wasmContracts := wasmContracts st;
     params := params st;
     definitions := definitions st;
     symbols := symbols st;
     globalFreeze := globalFreeze st;
     frozenBalances := frozenBalances st;
     whitelistedBalances := whitelistedBalances st;
     dexLockedBalances := dexLockedBalances st;
     dexExpectedToReceiveBalances := dexExpectedToReceiveBalances st;
     dexSettings := dexSettings st;
     events := events st |}.

Definition setDefinitions
    (f : gmap (string * string) FTDefinition -> gmap (string * string) FTDefinition)
    (st : State) : State :=
  {| bankBalances := bankBalances st;
     bankLockedCoins := bankLockedCoins st;
     bankDenomMetaData := bankDenomMetaData st;
     stakingBondDenom := stakingBondDenom st;
     wasmContracts := wasmContracts st;
     params := params st;
     definitions := f (definitions st);
     symbols := symbols st;
     globalFreeze := globalFreeze st;
     frozenBalances := frozenBalances st;
     whitelistedBalances := whitelistedBalances st;
     dexLockedBalances := dexLockedBalances st;
     dexExpectedToReceiveBalances := dexExpectedToReceiveBalances st;
     dexSettings := dexSettings st;
     events := events st |}.

Definition setSymbols
    (f : gmap (string * string) (list N) -> gmap (string * string) (list N))
    (st : State) : State :=
  {| bankBalances := bankBalances st;
     bankLockedCoins := bankLockedCoins st;
     bankDenomMetaData := bankDenomMetaData st;
     stakingBondDenom := stakingBondDenom st;
     wasmContracts := wasmContracts st;
     params := params st;
     definitions := definitions st;
     symbols := f (symbols st);
     globalFreeze := globalFreeze st;
     frozenBalances := frozenBalances st;
     whitelistedBalances := whitelistedBalances st;
     dexLockedBalances := dexLockedBalances st;
     dexExpectedToReceiveBalances := dexExpectedToReceiveBalances st;
     dexSettings := dexSettings st;
     events := events st |}.

Definition setGlobalFreeze
    (f : gmap string (list N) -> gmap string (list N)) (st : State) : State :=
  {| bankBalances := bankBalances st;
     bankLockedCoins := bankLockedCoins st;
     bankDenomMetaData := bankDenomMetaData st;
     stakingBondDenom := stakingBondDenom st;
     wasmContracts := wasmContracts st;
     params := params st;
     definitions := definitions st;
     symbols := symbols st;
     globalFreeze := f (globalFreeze st);
     frozenBalances := frozenBalances st;
     whitelistedBalances := whitelistedBalances st;
     dexLockedBalances := dexLockedBalances st;
     dexExpectedToReceiveBalances := dexExpectedToReceiveBalances st;
     dexSettings := dexSettings st;
     events := events st |}.

Definition setDexSettings
    (f : gmap string DEXSettings -> gmap string DEXSettings) (st : State) : State :=
  {| bankBalances := bankBalances st;
     bankLockedCoins := bankLockedCoins st;
     bankDenomMetaData := bankDenomMetaData st;
     stakingBondDenom := stakingBondDenom st;
     wasmContracts := wasmContracts st;
     params := params st;
     definitions := definitions st;
     symbols := symbols st;
     globalFreeze := globalFreeze st;
     frozenBalances := frozenBalances st;
     whitelistedBalances := whitelistedBalances st;
     dexLockedBalances := dexLockedBalances st;
     dexExpectedToReceiveBalances := dexExpectedToReceiveBalances st;
     dexSettings := f (dexSettings st);
     events := events st |}.

(** [ctx.EventManager().EmitTypedEvent(ev)] *)
Definition EmitTypedEvent (ev : Event) : M unit :=
  write (fun st =>
    {| bankBalances := bankBalances st;
       bankLockedCoins := bankLockedCoins st;
       bankDenomMetaData := bankDenomMetaData st;
       stakingBondDenom := stakingBondDenom st;
       wasmContracts := wasmContracts st;
       params := params st;
       definitions := definitions st;
       symbols := symbols st;
       globalFreeze := globalFreeze st;
       frozenBalances := frozenBalances st;
       whitelistedBalances := whitelistedBalances st;
       dexLockedBalances := dexLockedBalances st;
       dexExpectedToReceiveBalances := dexExpectedToReceiveBalances st;
       dexSettings := dexSettings st;
       events := events st ++ [ev] |}).

(** *** The bank keeper

    The bank is an external collaborator: [bank[account][denom]] is the
    authoritative balance, kept outside the module. Every call of the
    keeper passes a single coin. *)

(** Modelled from the spec: crediting [bank[addr][denom]]. *)
Definition addBalance (addr : string) (coin : sdk.Coin) (st : State) : State :=
  setBankBalances
    <[(addr, sdk.Denom coin) :=
        sdk.Amount (GetBalance st addr (sdk.Denom coin)) + sdk.Amount coin]> st.

(** Modelled from the spec: debiting [bank[addr][denom]], which fails with
    [InsufficientFunds] when the account holds less than the amount. *)
Definition subBalance (addr : string) (coin : sdk.Coin) : M unit :=
  do* balance <- read (fun st => Ok (GetBalance st addr (sdk.Denom coin)));
  failWhen (sdk.Amount balance <? sdk.Amount coin) ErrInsufficientFunds >>
  write (setBankBalances
           <[(addr, sdk.Denom coin) := sdk.Amount balance - sdk.Amount coin]>).

(** Modelled from the spec: [MintCoins] creates the coins on the module
    account. *)
Definition MintCoins (moduleName : string) (coin : sdk.Coin) : M unit :=
  write (addBalance moduleName coin).

(** Modelled from the spec: [BurnCoins] destroys coins of the module
    account. *)
Definition BurnCoins (moduleName : string) (coin : sdk.Coin) : M unit :=
  subBalance moduleName coin.

(** Modelled from the spec: [SendCoins] moves a balance from one account
    to another. *)
Definition SendCoins (fromAddr toAddr : string) (coin : sdk.Coin) : M unit :=
  subBalance fromAddr coin >> write (addBalance toAddr coin).

(** Modelled from the spec: [SendCoinsFromModuleToAccount], a send whose
    sender is a module account. *)
Definition SendCoinsFromModuleToAccount (moduleName recipient : string) (coin : sdk.Coin)
  : M unit :=
  SendCoins moduleName recipient coin.

(** Modelled from the spec: [SendCoinsFromAccountToModule], a send whose
    receiver is a module account. *)
Definition SendCoinsFromAccountToModule (sender moduleName : string) (coin : sdk.Coin)
  : M unit :=
  SendCoins sender moduleName coin.

(** [k.bankKeeper.SetDenomMetaData(ctx, denomMetadata)] *)
Definition SetDenomMetaData (denomMetadata : banktypes.Metadata) : M unit :=
  write (setBankDenomMetaData <[banktypes.Base denomMetadata := denomMetadata]>).

(** *** The keeper methods that write *)

(** GetParams gets the parameters of the module. *)
Definition GetParams : M Params := read (fun st => Ok (params st)).

(** SetGlobalFreeze enables/disables global freeze on a fungible token
    depending on frozen arg. *)
Definition SetGlobalFreeze (denom : string) (frozen : bool) : M unit :=
  if frozen then write (setGlobalFreeze <[denom := StoreTrue]>)
  else write (setGlobalFreeze (delete denom)).

(** GloballyFreeze enables global freeze on a fungible token. This
    function is idempotent. *)
Definition GloballyFreeze (sender denom : string) : M unit :=
  do* def <- read (fun st => GetDefinition st denom);
  lift (CheckFeatureAllowed def sender Feature_freezing) >>
  SetGlobalFreeze denom true.

(** GloballyUnfreeze disables global freeze on a fungible token. This
    function is idempotent. *)
Definition GloballyUnfreeze (sender denom : string) : M unit :=
  do* def <- read (fun st => GetDefinition st denom);
  lift (CheckFeatureAllowed def sender Feature_freezing) >>
  SetGlobalFreeze denom false.

(** SetDefinition stores the Definition. *)
Definition SetDefinition (issuer subunit : string) (definition : FTDefinition) : M unit :=
  write (setDefinitions <[(issuer, subunit) := definition]>).

Definition isSymbolDuplicated (st : State) (symbol issuer : string) : bool :=
  match symbols st !! (issuer, symbol) with
  | Some _ => true
  | None => false
  end.

(** SetSymbol saves the symbol to store. *)
Definition SetSymbol (symbol issuer : string) : M unit :=
  let symbol := NormalizeSymbolForKey symbol in
  do* isSymbolDuplicated <- read (fun st => Ok (isSymbolDuplicated st symbol issuer));
  failWhen isSymbolDuplicated ErrInvalidInput >>
  write (setSymbols <[(issuer, symbol) := StoreTrue]>).

(** SetDenomMetadata registers denom metadata on the bank keeper. *)
Definition SetDenomMetadata (denom symbol description uri uriHash : string) (precision : Z)
  : M unit :=
  let denomMetadata :=
    {| banktypes.Description := description;
       banktypes.DenomUnits :=
         [ {| banktypes.UnitDenom := denom; banktypes.Exponent := 0 |};
           {| banktypes.UnitDenom := symbol; banktypes.Exponent := precision |} ];
       banktypes.Base := denom;
       banktypes.Display := symbol;
       banktypes.Name := symbol;
       banktypes.Symbol := symbol;
       banktypes.URI := uri;
       banktypes.URIHash := uriHash |} in
  let denomMetadata :=
    if precision =? 0 then
      {| banktypes.Description := description;
         banktypes.DenomUnits :=
           [ {| banktypes.UnitDenom := denom; banktypes.Exponent := 0 |} ];
         banktypes.Base := denom;
         banktypes.Display := denom;
         banktypes.Name := symbol;
         banktypes.Symbol := symbol;
         banktypes.URI := uri;
         banktypes.URIHash := uriHash |}
    else denomMetadata in
  match MetadataValidate denomMetadata with
  | Err _ => fail ErrInvalidInput
  | Ok _ => SetDenomMetaData denomMetadata
  end.

(** Modelled from the spec: [SetDEXSettings] is defined in a file of the
    keeper that is not among the sources; the settings are kept per
    denom, where the [DEXSettings] query reads them. *)
Definition SetDEXSettings (denom : string) (settings : DEXSettings) : M unit :=
  write (setDexSettings <[denom := settings]>).

Definition mintIfReceivable (ctx : Ctx) (def : FTDefinition) (amount : Z)
    (recipient : string) : M unit :=
  if negb (0 <? amount) then ret tt else
  do* isContract <- read (fun st => Ok (IsSmartContract st recipient));
  let ctx := if isContract then WithSmartContractRecipient ctx recipient else ctx in
  read (fun st => validateCoinReceivable ctx st recipient def amount) >>
  let coinsToMint := sdk.NewCoin (Denom def) amount in
  MintCoins ModuleName coinsToMint >>
  SendCoinsFromModuleToAccount ModuleName recipient coinsToMint.

Definition burn (account : string) (coinsToBurn : sdk.Coin) : M unit :=
  SendCoinsFromAccountToModule account ModuleName coinsToBurn >>
  BurnCoins ModuleName coinsToBurn.

Definition checkIssueFeeIsLimitedToCore (params : Params) : M unit :=
  do* bondDenom <- read (fun st => Ok (stakingBondDenom st));
  failWhen (negb (bool_decide (sdk.Denom (IssueFee params) = bondDenom))) ErrInvalidCoins.

Definition burnIssueFee (settings : IssueSettings) (params : Params) : M unit :=
  checkIssueFeeIsLimitedToCore params >>
  read (fun st =>
          validateCoinIsNotLockedByDEXAndBank st (SettingsIssuer settings) (IssueFee params)) >>
  burn (SettingsIssuer settings) (IssueFee params).

(** Mint mints new fungible token. *)
Definition Mint (ctx : Ctx) (sender recipient : string) (coin : sdk.Coin) : M unit :=
  failWhen (sdk.Amount coin >? MaxMintableAmount) ErrInvalidInput >>
  do* def <- read (fun st => GetDefinition st (sdk.Denom coin));
  lift (CheckFeatureAllowed def sender Feature_minting) >>
  mintIfReceivable ctx def (sdk.Amount coin) recipient.

Definition withAdmin (admin : string) (def : FTDefinition) : FTDefinition :=
  {| Denom := Denom def; Issuer := Issuer def; Features := Features def;
     BurnRate := BurnRate def; SendCommissionRate := SendCommissionRate def;
     Version := Version def; URI := URI def; URIHash := URIHash def;
     Admin := admin; ExtensionCWAddress := ExtensionCWAddress def |}.

Definition withSendCommissionRate (rate : Z) (def : FTDefinition) : FTDefinition :=
  {| Denom := Denom def; Issuer := Issuer def; Features := Features def;
     BurnRate := BurnRate def; SendCommissionRate := rate;
     Version := Version def; URI := URI def; URIHash := URIHash def;
     Admin := Admin def; ExtensionCWAddress := ExtensionCWAddress def |}.

Definition withExtensionCWAddress (address : string) (def : FTDefinition) : FTDefinition :=
  {| Denom := Denom def; Issuer := Issuer def; Features := Features def;
     BurnRate := BurnRate def; SendCommissionRate := SendCommissionRate def;
     Version := Version def; URI := URI def; URIHash := URIHash def;
     Admin := Admin def; ExtensionCWAddress := address |}.

(** ClearAdmin removes admin of a fungible token. *)
Definition ClearAdmin (sender denom : string) : M unit :=
  do* def <- read (fun st => GetDefinition st denom);
  failWhen (negb (IsAdmin def sender)) ErrUnauthorized >>
  let previousAdmin := Admin def in
  do* parts <-
    lift (match DeconstructDenom denom with
          | Some parts => Ok parts
          | None => Err ErrInvalidDenom
          end);
  let subunit := fst parts in
  let issuer := snd parts in
  let def := withAdmin EmptyString def in
  let def :=
    if negb (IsFeatureEnabled def Feature_extension)
    then withSendCommissionRate 0 def
    else def in
  SetDefinition issuer subunit def >>
  EmitTypedEvent (EventAdminCleared denom previousAdmin).

(** IssueVersioned issues new fungible token and sets its version. *)
Definition IssueVersioned (ctx : Ctx) (settings : IssueSettings) (version : Z) : M string :=
  lift (ValidateSubunit (Subunit settings)) >>
  lift (ValidatePrecision (Precision settings)) >>
  lift (ValidateFeatures (SettingsFeatures settings)) >>
  lift (ValidateBurnRate (SettingsBurnRate settings)) >>
  lift (ValidateSendCommissionRate (SettingsSendCommissionRate settings)) >>
  failWhen (InitialAmount settings >? MaxMintableAmount) ErrInvalidInput >>
  lift (ValidateSymbol (Symbol settings)) >>
  let denom := BuildDenom (Subunit settings) (SettingsIssuer settings) in
  do* found <- read (fun st => Ok (GetDenomMetaData st denom));
  failWhen (match found with Some _ => true | None => false end) ErrInvalidInput >>
  do* params <- GetParams;
  (if 0 <? sdk.Amount (IssueFee params) then burnIssueFee settings params else ret tt) >>
  SetSymbol (Symbol settings) (SettingsIssuer settings) >>
  let definition :=
    {| Denom := denom;
       Issuer := SettingsIssuer settings;
       Features := SettingsFeatures settings;
       BurnRate := SettingsBurnRate settings;
       SendCommissionRate := SettingsSendCommissionRate settings;
       Version := version;
       URI := SettingsURI settings;
       URIHash := SettingsURIHash settings;
       Admin := SettingsIssuer settings;
       ExtensionCWAddress := EmptyString |} in
  mintIfReceivable ctx definition (InitialAmount settings) (SettingsIssuer settings) >>
  do* definition <-
    (if IsFeatureEnabled definition Feature_extension then
       match ExtensionSettings settings with
       | None => fail ErrInvalidInput
       | Some extensionSettings =>
           let issuanceMsg :=
             if (String.length (IssuanceMsg extensionSettings) =? 0)%nat
             then "{}"%string
             else IssuanceMsg extensionSettings in
           let instantiateMsg :=
             {| MsgDenom := denom; MsgIssuanceMsg := issuanceMsg |} in
           do* contractAddress <-
             Instantiate2 (CodeId extensionSettings)
               (SettingsIssuer settings) (SettingsIssuer settings)
               instantiateMsg (Label extensionSettings) (Funds extensionSettings);
           ret (withExtensionCWAddress contractAddress definition)
       end
     else ret definition);
  SetDenomMetadata denom (Symbol settings) (Description settings)
    (SettingsURI settings) (SettingsURIHash settings) (Precision settings) >>
  SetDefinition (SettingsIssuer settings) (Subunit settings) definition >>
  (match SettingsDEX settings with
   | Some dex =>
       lift (ValidateDEXSettings dex) >>
       lift (ValidateDEXSettingsAccess dex definition) >>
       SetDEXSettings denom dex
   | None => ret tt
   end) >>
  EmitTypedEvent
    (EventIssued denom (SettingsIssuer settings) (Symbol settings) (Subunit settings)
       (InitialAmount settings)) >>
  ret denom.

(** Issue issues new fungible token and returns it's denom. *)
Definition Issue (ctx : Ctx) (settings : IssueSettings) : M string :=
  IssueVersioned ctx settings CurrentTokenVersion.
End WithTypes.

End keeper.

(** ** Package govtypes: the error of a governance message signed by someone
    other than the authority *)

Module govtypes.

(** [govtypes.ErrInvalidSigner], an error registered by the gov module *)
Definition ErrInvalidSigner : Error := ErrExternal "invalid signer".

End govtypes.

(** ** Package keeper of x/asset/ft, second part

    The methods of [keeper.go] that freeze, whitelist, claw back, burn,
    transfer the administration, update the parameters and report a token.
    They are written over the stores of the first part, together with what
    only they touch: the accounts the account keeper knows as module
    accounts, and the typed events they emit ([emitted]; the events of
    [Issue] and [ClearAdmin] are logged in the store record of the first
    part). A nil amount ([coin.IsNil]) has no counterpart: an amount is a
    [Z]. *)

Module ftkeeper.

Import types.

(** the typed events these methods emit *)
Inductive TypedEvent : Type :=
| EventFrozenAmountChanged (account denom : string) (previousAmount currentAmount : Z)
| EventWhitelistedAmountChanged (account denom : string) (previousAmount currentAmount : Z)
| EventAmountClawedBack (account denom : string) (amount : Z)
| EventAdminTransferred (denom previousAdmin currentAdmin : string).

(** [Keeper], of which the methods here read the authority *)
Record Keeper : Type := { authority : string }.

Record World : Type := {
store : keeper.State;
moduleAccounts : gset string;
emitted : list TypedEvent
}.

(** *** The state-and-error monad over [World] *)

Definition M (A : Type) : Type := World -> result A * World.

Definition ret {A : Type} (a : A) : M A := fun w => (Ok a, w).

Definition fail {A : Type} (e : Error) : M A := fun w => (Err e, w).

Definition mbind {A B : Type} (m : M A) (k : A -> M B) : M B :=
fun w =>
  match m w with
  | (Ok a, w') => k a w'
  | (Err e, w') => (Err e, w')
  end.

Notation "'do*' x '<-' m ';' k" := (mbind m (fun x => k))
(at level 10, x pattern, m at level 100, k at level 200).

Notation "m '>>' k" := (mbind m (fun _ => k))
(at level 100, k at level 200, right associativity).

(** [if cond { return err }] *)
Definition failWhen (cond : bool) (e : Error) : M unit :=
if cond then fail e else ret tt.

(** the outcome of a pure check *)
Definition lift {A : Type} (r : result A) : M A := fun w => (r, w).

(** a read of the stores *)
Definition read {A : Type} (f : keeper.State -> result A) : M A :=
fun w => (f (store w), w).

(** a method of the first part, run on the stores *)
Definition run {A : Type} (m : keeper.M A) : M A :=
fun w =>
  let '(r, st') := m (store w) in
  (r, {| store := st'; moduleAccounts := moduleAccounts w; emitted := emitted w |}).

(** a store write *)
Definition write (f : keeper.State -> keeper.State) : M unit :=
run (keeper.write f).

(** [ctx.EventManager().EmitTypedEvent(ev)] *)
Definition EmitTypedEvent (ev : TypedEvent) : M unit :=
fun w =>
  (Ok tt, {| store := store w; moduleAccounts := moduleAccounts w;
             emitted := emitted w ++ [ev] |}).

(** whether [k.accountKeeper.GetAccount(ctx, addr)] is a module account *)
Definition isModuleAccount (addr : string) : M bool :=
fun w => (Ok (bool_decide (addr ∈ moduleAccounts w)), w).

(** *** Store writes *)

Definition setFrozenBalances
  (f : gmap (string * string) Z -> gmap (string * string) Z) (st : keeper.State)
: keeper.State :=
{| keeper.bankBalances := keeper.bankBalances st;
   keeper.bankLockedCoins := keeper.bankLockedCoins st;
   keeper.bankDenomMetaData := keeper.bankDenomMetaData st;
   keeper.stakingBondDenom := keeper.stakingBondDenom st;
   keeper.wasmContracts := keeper.wasmContracts st;
   keeper.params := keeper.params st;
   keeper.definitions := keeper.definitions st;
   keeper.symbols := keeper.symbols st;
   keeper.globalFreeze := keeper.globalFreeze st;
   keeper.frozenBalances := f (keeper.frozenBalances st);
   keeper.whitelistedBalances := keeper.whitelistedBalances st;
   keeper.dexLockedBalances := keeper.dexLockedBalances st;
   keeper.dexExpectedToReceiveBalances := keeper.dexExpectedToReceiveBalances st;
   keeper.dexSettings := keeper.dexSettings st;
   keeper.events := keeper.events st |}.

Definition setWhitelistedBalances
  (f : gmap (string * string) Z -> gmap (string * string) Z) (st : keeper.State)
: keeper.State :=
{| keeper.bankBalances := keeper.bankBalances st;
   keeper.bankLockedCoins := keeper.bankLockedCoins st;
   keeper.bankDenomMetaData := keeper.bankDenomMetaData st;
   keeper.stakingBondDenom := keeper.stakingBondDenom st;
   keeper.wasmContracts := keeper.wasmContracts st;
   keeper.params := keeper.params st;
   keeper.definitions := keeper.definitions st;
   keeper.symbols := keeper.symbols st;
   keeper.globalFreeze := keeper.globalFreeze st;
   keeper.frozenBalances := keeper.frozenBalances st;
   keeper.whitelistedBalances := f (keeper.whitelistedBalances st);
   keeper.dexLockedBalances := keeper.dexLockedBalances st;
   keeper.dexExpectedToReceiveBalances := keeper.dexExpectedToReceiveBalances st;
   keeper.dexSettings := keeper.dexSettings st;
   keeper.events := keeper.events st |}.

Definition setParams (params : Params) (st : keeper.State) : keeper.State :=
{| keeper.bankBalances := keeper.bankBalances st;
   keeper.bankLockedCoins := keeper.bankLockedCoins st;
   keeper.bankDenomMetaData := keeper.bankDenomMetaData st;
   keeper.stakingBondDenom := keeper.stakingBondDenom st;
   keeper.wasmContracts := keeper.wasmContracts st;
   keeper.params := params;
   keeper.definitions := keeper.definitions st;
   keeper.symbols := keeper.symbols st;
   keeper.globalFreeze := keeper.globalFreeze st;
   keeper.frozenBalances := keeper.frozenBalances st;
   keeper.whitelistedBalances := keeper.whitelistedBalances st;
   keeper.dexLockedBalances := keeper.dexLockedBalances st;
   keeper.dexExpectedToReceiveBalances := keeper.dexExpectedToReceiveBalances st;
   keeper.dexSettings := keeper.dexSettings st;
   keeper.events := keeper.events st |}.

(** Modelled from the spec: [set(account, denom, amount)] of the balance
  store, which is not among the sources, on the frozen balances
  ([frozenStore.SetBalance(coin)]). *)
Definition frozenStoreSetBalance (addr : string) (coin : sdk.Coin) : M unit :=
write (setFrozenBalances <[(addr, sdk.Denom coin) := sdk.Amount coin]>).

(** Modelled from the spec: [set(account, denom, amount)] of the balance
  store, which is not among the sources, on the whitelisted balances
  ([whitelistedStore.SetBalance(coin)]). *)
Definition whitelistedStoreSetBalance (addr : string) (coin : sdk.Coin) : M unit :=
write (setWhitelistedBalances <[(addr, sdk.Denom coin) := sdk.Amount coin]>).

(** Modelled from the spec: [getDEXSettingsOrNil] is defined in a file of
  the keeper that is not among the sources; it reads the settings kept
  per denom, nil when there are none. *)
Definition getDEXSettingsOrNil (st : keeper.State) (denom : string)
: result (option DEXSettings) :=
Ok (keeper.dexSettings st !! denom).

(** [types.Token], what the [Token] query reports *)
Record Token : Type := {
TokenDenom : string;
TokenIssuer : string;
TokenSymbol : string;
TokenSubunit : string;
TokenPrecision : Z;
TokenDescription : string;
TokenFeatures : list Feature;
TokenBurnRate : Z;
TokenSendCommissionRate : Z;
GloballyFrozen : bool;
TokenVersion : Z;
TokenURI : string;
TokenURIHash : string;
TokenAdmin : string;
TokenExtensionCWAddress : string;
TokenDEXSettings : option DEXSettings
}.

(** the loop of [getTokenFullInfo] over the denom units: the exponent of
  the first unit named like the display denom, or the [-1] it starts
  from *)
Fixpoint findPrecision (units : list banktypes.DenomUnit) (display : string) : Z :=
match units with
| [] => -1
| unit :: units' =>
    if bool_decide (banktypes.UnitDenom unit = display)
    then banktypes.Exponent unit
    else findPrecision units' display
end.

Section WithTypes.

Context `{P : Pkg}.

(** UpdateParams is a governance operation that sets parameters of the
module. *)
Definition UpdateParams (k : Keeper) (authority' : string) (params : Params) : M unit :=
failWhen (negb (bool_decide (authority k = authority'))) govtypes.ErrInvalidSigner >>
run (keeper.checkIssueFeeIsLimitedToCore params) >>
write (setParams params).

Definition getTokenFullInfo (st : keeper.State) (definition : FTDefinition) : result Token :=
match DeconstructDenom (Denom definition) with
| None => Err ErrInvalidDenom
| Some (subunit, _) =>
  match keeper.GetDenomMetaData st (Denom definition) with
  | None => Err ErrTokenNotFound
  | Some metadata =>
      let precision :=
        findPrecision (banktypes.DenomUnits metadata) (banktypes.Display metadata) in
      if precision <? 0 then Err ErrInvalidInput else
      let* dexSettings := getDEXSettingsOrNil st (Denom definition) in
      let isGloballyFrozen := keeper.isGloballyFrozen st (Denom definition) in
      Ok {| TokenDenom := Denom definition;
            TokenIssuer := Issuer definition;
            TokenSymbol := banktypes.Symbol metadata;
            TokenSubunit := subunit;
            TokenPrecision := precision;
            TokenDescription := banktypes.Description metadata;
            TokenFeatures := Features definition;
            TokenBurnRate := BurnRate definition;
            TokenSendCommissionRate := SendCommissionRate definition;
            GloballyFrozen := isGloballyFrozen;
            TokenVersion := Version definition;
            TokenURI := URI definition;
            TokenURIHash := URIHash definition;
            TokenAdmin := Admin definition;
            TokenExtensionCWAddress := ExtensionCWAddress definition;
            TokenDEXSettings := dexSettings |}
  end
end.

(** GetToken returns the fungible token by it's denom. *)
Definition GetToken (st : keeper.State) (denom : string) : result Token :=
let* def := keeper.GetDefinition st denom in
getTokenFullInfo st def.

Definition freezingChecks (sender addr : string) (coin : sdk.Coin) : M unit :=
do* def <- read (fun st => keeper.GetDefinition st (sdk.Denom coin));
failWhen (HasAdminPrivileges def addr) ErrUnauthorized >>
lift (CheckFeatureAllowed def sender Feature_freezing).

(** Freeze freezes specified token from the specified account. *)
Definition Freeze (sender addr : string) (coin : sdk.Coin) : M unit :=
failWhen (negb (0 <? sdk.Amount coin)) ErrInvalidCoins >>
freezingChecks sender addr coin >>
do* frozenBalance <-
read (fun st => Ok (keeper.frozenStoreBalance st addr (sdk.Denom coin)));
let newFrozenBalance :=
sdk.NewCoin (sdk.Denom frozenBalance) (sdk.Amount frozenBalance + sdk.Amount coin) in
frozenStoreSetBalance addr newFrozenBalance >>
EmitTypedEvent
(EventFrozenAmountChanged addr (sdk.Denom coin)
   (sdk.Amount frozenBalance) (sdk.Amount newFrozenBalance)).

(** Unfreeze unfreezes specified tokens from the specified account. *)
Definition Unfreeze (sender addr : string) (coin : sdk.Coin) : M unit :=
failWhen (negb (0 <? sdk.Amount coin)) ErrInvalidCoins >>
freezingChecks sender addr coin >>
do* frozenBalance <-
read (fun st => Ok (keeper.frozenStoreBalance st addr (sdk.Denom coin)));
failWhen (negb (sdk.Amount coin <=? sdk.Amount frozenBalance)) ErrInsufficientFunds >>
let newFrozenBalance :=
sdk.NewCoin (sdk.Denom frozenBalance) (sdk.Amount frozenBalance - sdk.Amount coin) in
frozenStoreSetBalance addr newFrozenBalance >>
EmitTypedEvent
(EventFrozenAmountChanged addr (sdk.Denom coin)
   (sdk.Amount frozenBalance) (sdk.Amount newFrozenBalance)).

(** SetFrozen sets frozen amount on the specified account. *)
Definition SetFrozen (sender addr : string) (coin : sdk.Coin) : M unit :=
failWhen (sdk.Amount coin <? 0) ErrInvalidCoins >>
freezingChecks sender addr coin >>
do* frozenBalance <-
read (fun st => Ok (keeper.frozenStoreBalance st addr (sdk.Denom coin)));
frozenStoreSetBalance addr coin >>
EmitTypedEvent
(EventFrozenAmountChanged addr (sdk.Denom coin)
   (sdk.Amount frozenBalance) (sdk.Amount coin)).

(** SetFrozenBalances sets the frozen balances of a specified account. *)
Fixpoint SetFrozenBalances (addr : string) (coins : list sdk.Coin) : M unit :=
match coins with
| [] => ret tt
| coin :: coins' => frozenStoreSetBalance addr coin >> SetFrozenBalances addr coins'
end.

(** SetWhitelistedBalances sets the whitelisted balances of a specified
account. *)
Fixpoint SetWhitelistedBalances (addr : string) (coins : list sdk.Coin) : M unit :=
match coins with
| [] => ret tt
| coin :: coins' => whitelistedStoreSetBalance addr coin >> SetWhitelistedBalances addr coins'
end.

(** SetWhitelistedBalance sets whitelisted limit for the account. *)
Definition SetWhitelistedBalance (sender addr : string) (coin : sdk.Coin) : M unit :=
failWhen (sdk.Amount coin <? 0) ErrInvalidCoins >>
do* def <- read (fun st => keeper.GetDefinition st (sdk.Denom coin));
failWhen (IsAdmin def addr) ErrUnauthorized >>
lift (CheckFeatureAllowed def sender Feature_whitelisting) >>
do* previousWhitelistedBalance <-
read (fun st => Ok (keeper.GetWhitelistedBalance st addr (sdk.Denom coin)));
whitelistedStoreSetBalance addr coin >>
EmitTypedEvent
(EventWhitelistedAmountChanged addr (sdk.Denom coin)
   (sdk.Amount previousWhitelistedBalance) (sdk.Amount coin)).

Definition validateClawbackAllowed (sender addr : string) (coin : sdk.Coin) : M unit :=
do* def <- read (fun st => keeper.GetDefinition st (sdk.Denom coin));
do* isModuleAccount <- isModuleAccount addr;
failWhen isModuleAccount ErrUnauthorized >>
read (fun st => keeper.validateCoinIsNotLockedByDEXAndBank st addr coin) >>
lift (CheckFeatureAllowed def sender Feature_clawback).

(** Clawback confiscates specified token from the specified account. *)
Definition Clawback (sender addr : string) (coin : sdk.Coin) : M unit :=
failWhen (negb (0 <? sdk.Amount coin)) ErrInvalidCoins >>
validateClawbackAllowed sender addr coin >>
run (keeper.SendCoins addr sender coin) >>
EmitTypedEvent (EventAmountClawedBack addr (sdk.Denom coin) (sdk.Amount coin)).

Definition burnIfSpendable (ctx : Ctx) (account : string) (def : FTDefinition) (amount : Z)
: M unit :=
read (fun st => keeper.validateCoinSpendable ctx st account def amount) >>
run (keeper.burn account (sdk.NewCoin (Denom def) amount)).

(** Burn burns fungible token. *)
Definition Burn (ctx : Ctx) (sender : string) (coin : sdk.Coin) : M unit :=
do* def <- read (fun st => keeper.GetDefinition st (sdk.Denom coin));
lift (CheckFeatureAllowed def sender Feature_burning) >>
burnIfSpendable ctx sender def (sdk.Amount coin).

(** TransferAdmin changes admin of a fungible token. *)
Definition TransferAdmin (sender addr denom : string) : M unit :=
do* def <- read (fun st => keeper.GetDefinition st denom);
failWhen (negb (IsAdmin def sender)) ErrUnauthorized >>
let previousAdmin := Admin def in
do* parts <-
lift (match DeconstructDenom denom with
      | Some parts => Ok parts
      | None => Err ErrInvalidDenom
      end);
let subunit := fst parts in
let issuer := snd parts in
let def := keeper.withAdmin addr def in
run (keeper.SetDefinition issuer subunit def) >>
EmitTypedEvent (EventAdminTransferred denom previousAdmin (Admin def)).

End WithTypes.

End ftkeeper.

(** ** Package keeper of x/feemodel *)

Module feemodel.

(** [types.ModelParams]; block lengths are [uint32], gas amounts [int64],
    the other fields [LegacyDec]. *)
Record ModelParams : Type := {
  InitialGasPrice : Z;
  MaxGasPriceMultiplier : Z;
  MaxDiscount : Z;
  EscalationStartFraction : Z;
  MaxBlockGas : Z;
  ShortEmaBlockLength : N;
  LongEmaBlockLength : N
}.

Record Params : Type := { Model : ModelParams }.

(** The functions of x/feemodel/types used by the keeper; the package is
    not among the sources, so they are parameters of the development:
    [CalculateEMA(previousEMA, newValue, numOfBlocks)] and
    [NewModel(params).CalculateNextGasPrice(shortEMA, longEMA)]. *)
Class Types : Type := {
  CalculateEMA : Z -> Z -> N -> Z;
  CalculateNextGasPrice : ModelParams -> Z -> Z -> Z
}.

(** The stores of the fee model. A key that was never written reads as
    [nil], hence the options. *)
Record State : Type := {
  params : Params;
  shortEMAGas : option Z;
  longEMAGas : option Z;
  gasPrice : option sdk.DecCoin
}.

(** What a call does: it returns, it returns an error, or it panics. *)
Inductive outcome (A : Type) : Type :=
| Returned (a : A)
| Failed (e : Error)
| Panicked (msg : string).

Arguments Returned {A} a.
Arguments Failed {A} e.
Arguments Panicked {A} msg.

(** GetParams gets the parameters of the module. *)
Definition GetParams (st : State) : Params := params st.

(** GetShortEMAGas retrieves average gas used by previous blocks, used as
    a representation of smoothed gas used by latest block. *)
Definition GetShortEMAGas (st : State) : Z :=
  match shortEMAGas st with
  | None => 0
  | Some currentEMAGas => currentEMAGas
  end.

(** GetLongEMAGas retrieves long average gas used by previous blocks, used
    for determining average block load where maximum discount is applied. *)
Definition GetLongEMAGas (st : State) : Z :=
  match longEMAGas st with
  | None => 0
  | Some emaGas => emaGas
  end.

(** GetMinGasPrice returns current minimum gas price required by the
    network. *)
Definition GetMinGasPrice (st : State) : outcome sdk.DecCoin :=
  match gasPrice st with
  | None => Panicked "min gas price not set"
  | Some minGasPrice => Returned minGasPrice
  end.

(** The variables the loop of [CalculateEdgeGasPriceAfterBlocks] updates. *)
Record edgeVars : Type := {
  maxShortEMA : Z;
  minShortEMA : Z;
  maxLongEMA : Z;
  minLongEMA : Z;
  lowMinGasPrice : Z;
  highMinGasPrice : Z
}.

Section WithTypes.

Context `{T : Types}.

(** the body of the loop *)
Definition edgeStep (prm : Params) (minBlockGas maxBlockGas : Z) (v : edgeVars) : edgeVars :=
  let maxShortEMA' :=
    CalculateEMA (maxShortEMA v) maxBlockGas (ShortEmaBlockLength (Model prm)) in
  let maxLongEMA' :=
    CalculateEMA (maxLongEMA v) (MaxBlockGas (Model prm)) (LongEmaBlockLength (Model prm)) in
  let maxLoadMinGasPrice := CalculateNextGasPrice (Model prm) maxShortEMA' maxLongEMA' in
  let minShortEMA' :=
    CalculateEMA (minShortEMA v) minBlockGas (ShortEmaBlockLength (Model prm)) in
  let minLongEMA' :=
    CalculateEMA (minLongEMA v) minBlockGas (LongEmaBlockLength (Model prm)) in
  let minLoadMinGasPrice := CalculateNextGasPrice (Model prm) minShortEMA' minLongEMA' in
  {| maxShortEMA := maxShortEMA';
     minShortEMA := minShortEMA';
     maxLongEMA := maxLongEMA';
     minLongEMA := minLongEMA';
     lowMinGasPrice :=
       Z.min (lowMinGasPrice v) (Z.min maxLoadMinGasPrice minLoadMinGasPrice);
     highMinGasPrice :=
       Z.max (highMinGasPrice v) (Z.max maxLoadMinGasPrice minLoadMinGasPrice) |}.

(** CalculateEdgeGasPriceAfterBlocks returns the smallest and highest
    possible values for min gas price in future blocks. *)
Definition CalculateEdgeGasPriceAfterBlocks (st : State) (after : N)
  : outcome (sdk.DecCoin * sdk.DecCoin) :=
  let prm := GetParams st in
  let shortEMABlockLength := ShortEmaBlockLength (Model prm) in
  if (shortEMABlockLength <? after)%N then Failed ErrInvalidRequest else
  let after := if (after =? 0)%N then shortEMABlockLength else after in
  let prm := GetParams st in
  let shortEMA := GetShortEMAGas st in
  let longEMA := GetLongEMAGas st in
  let minGasPrice := CalculateNextGasPrice (Model prm) shortEMA longEMA in
  let minBlockGas := 0 in
  let maxBlockGas := MaxBlockGas (Model prm) in
  let v :=
    Nat.iter (N.to_nat after) (edgeStep prm minBlockGas maxBlockGas)
      {| maxShortEMA := shortEMA;
         minShortEMA := shortEMA;
         maxLongEMA := longEMA;
         minLongEMA := longEMA;
         lowMinGasPrice := minGasPrice;
         highMinGasPrice := minGasPrice |} in
  match GetMinGasPrice st with
  | Returned price =>
      Returned (sdk.NewDecCoinFromDec (sdk.DecDenom price) (lowMinGasPrice v),
                sdk.NewDecCoinFromDec (sdk.DecDenom price) (highMinGasPrice v))
  | Failed e => Failed e
  | Panicked msg => Panicked msg
  end.

End WithTypes.

End feemodel.

(** ** Package keeper of x/feemodel, second part

    The gas tracked in the transient store, and the writes of the
    parameters, of the moving averages and of the minimum gas price. *)

Module feemodelkeeper.

Import feemodel.

(** [Keeper], of which the methods here read the authority *)
Record Keeper : Type := { authority : string }.

(** The transient store, which the chain empties when the block ends; it
  holds the tracked gas under [gasTrackingKey], [nil] until written. *)
Record TransientStore : Type := { gasTracking : option Z }.

Definition MinInt64 : Z := - 2 ^ 63.

Definition MaxInt64 : Z := 2 ^ 63 - 1.

(** the sum of two [int64] as Go computes it: it wraps around *)
Definition addInt64 (a b : Z) : Z := (a + b + 2 ^ 63) mod 2 ^ 64 - 2 ^ 63.

(** [sdkmath.Int.Int64], which panics on a value that is no [int64] *)
Definition Int64 (i : Z) : outcome Z :=
if (MinInt64 <=? i) && (i <=? MaxInt64) then Returned i
else Panicked "Int64() out of bound".

(** TrackedGas returns gas limits declared by transactions executed so far
  in current block. *)
Definition TrackedGas (ts : TransientStore) : outcome Z :=
let gasUsed :=
  match gasTracking ts with
  | None => 0
  | Some bz => bz
  end in
Int64 gasUsed.

(** TrackGas increments gas tracked for current block. *)
Definition TrackGas (ts : TransientStore) (gas : Z) : outcome TransientStore :=
match TrackedGas ts with
| Returned tracked => Returned {| gasTracking := Some (addInt64 tracked gas) |}
| Failed e => Failed e
| Panicked msg => Panicked msg
end.

(** SetParams sets the parameters of the module. *)
Definition SetParams (st : State) (prm : Params) : State :=
{| params := prm;
   shortEMAGas := shortEMAGas st;
   longEMAGas := longEMAGas st;
   gasPrice := gasPrice st |}.

(** UpdateParams is a governance operation that sets parameters of the
  module. *)
Definition UpdateParams (k : Keeper) (st : State) (authority' : string) (prm : Params)
: result unit * State :=
if negb (bool_decide (authority k = authority'))
then (Err govtypes.ErrInvalidSigner, st)
else (Ok tt, SetParams st prm).

(** SetShortEMAGas sets average gas used by previous blocks, used as a
  representation of smoothed gas used by latest block. *)
Definition SetShortEMAGas (st : State) (emaGas : Z) : State :=
{| params := params st;
   shortEMAGas := Some emaGas;
   longEMAGas := longEMAGas st;
   gasPrice := gasPrice st |}.

(** SetLongEMAGas sets long average gas used by previous blocks, used for
  determining average block load where maximum discount is applied. *)
Definition SetLongEMAGas (st : State) (emaGas : Z) : State :=
{| params := params st;
   shortEMAGas := shortEMAGas st;
   longEMAGas := Some emaGas;
   gasPrice := gasPrice st |}.

(** SetMinGasPrice sets minimum gas price required by the network on current
  block. *)
Definition SetMinGasPrice (st : State) (minGasPrice : sdk.DecCoin) : State :=
{| params := params st;
   shortEMAGas := shortEMAGas st;
   longEMAGas := longEMAGas st;
   gasPrice := Some minGasPrice |}.

End feemodelkeeper.

(** ** Package keeper of x/dex: good-til scheduling

    Of the DEX only the test of the good-til scheduler
    ([x/dex/keeper/good_til_test.go]) and the delayed cancel handler
    ([NewDelayCancelOrderHandler]) are among the sources. The order book, the
    placement path and the scheduler are modelled from the specification;
    the handler is embedded from its source. Block times are instants of
    the block clock, counted in its resolution. The pair parameters (tick
    and step) and the expected-to-receive counters, which the scheduler does
    not read, are left out. *)

Module dex.

(** Modelled from the spec: [side] ∈ {buy, sell}. *)
Inductive Side : Type := SIDE_BUY | SIDE_SELL.

(** Modelled from the spec: [type] ∈ {limit, market}. *)
Inductive OrderType : Type := ORDER_TYPE_LIMIT | ORDER_TYPE_MARKET.

(** Modelled from the spec: [time_in_force] ∈ {GTC, IOC, FOK}. *)
Inductive TimeInForce : Type :=
| TIME_IN_FORCE_GTC
| TIME_IN_FORCE_IOC
| TIME_IN_FORCE_FOK.

#[global] Instance TimeInForce_eq_dec : EqDecision TimeInForce.
Proof. solve_decision. Defined.

(** Modelled from the spec: a price is [mantissa · 10^exponent]. *)
Record Price : Type := { Mantissa : Z; Exponent : Z }.

(** Modelled from the spec: [good_til] = {[block_height]?, [block_time]?},
    with the field names of the test: the height is zero when unset, the
    time is absent when unset. *)
Record GoodTil : Type := {
  GoodTilBlockHeight : N;
  GoodTilBlockTime : option Z
}.

(** Modelled from the spec: the order record, with the field names of the
    test. *)
Record Order : Type := {
  Creator : string;
  Type_ : OrderType;
  ID : string;
  Sequence : N;
  BaseDenom : string;
  QuoteDenom : string;
  OrderPrice : option Price;
  Quantity : Z;
  OrderSide : Side;
  OrderGoodTil : option GoodTil;
  OrderTimeInForce : TimeInForce;
  RemainingBaseQuantity : Z;
  RemainingSpendableBalance : Z;
  Reserve : sdk.Coin
}.

(** [types.CancelGoodTil], the message the delayed handler receives *)
Record CancelGoodTil : Type := { CancelCreator : string; OrderSequence : N }.

(** [proto.Message]: the delayed message is a [CancelGoodTil] or something
    else *)
Inductive Message : Type :=
| MsgCancelGoodTil (msg : CancelGoodTil)
| MsgOther (typeURL : string).

(** Modelled from the spec: the state of the DEX as the scheduler sees it.
    [orders] is the book (open orders by sequence), [goodTilByHeight] and
    [goodTilByTime] the two good-til indexes, each entry a deadline and the
    cancel message of a sequence, [reservedOrderIDs] the tombstoned
    [(creator, id)] pairs, [orderReserve] the reserve charged per order. *)
Record State : Type := {
  balances : gmap (string * string) Z;
  dexLocked : gmap (string * string) Z;
  orders : gmap N Order;
  orderSequence : N;
  goodTilByHeight : list (N * CancelGoodTil);
  goodTilByTime : list (Z * CancelGoodTil);
  reservedOrderIDs : gset (string * string);
  orderReserve : sdk.Coin
}.

(** Modelled from the spec: the module account the reserves are
    transferred to. *)
Definition ModuleName : string := "dex".

(** Modelled from the spec: [bank[account][denom]]. *)
Definition balanceOf (st : State) (addr denom : string) : Z :=
  default 0 (balances st !! (addr, denom)).

(** Modelled from the spec: [dex_locked[account][denom]]. *)
Definition lockedOf (st : State) (addr denom : string) : Z :=
  default 0 (dexLocked st !! (addr, denom)).

Definition withBalances (m : gmap (string * string) Z) (st : State) : State :=
  {| balances := m; dexLocked := dexLocked st; orders := orders st;
     orderSequence := orderSequence st; goodTilByHeight := goodTilByHeight st;
     goodTilByTime := goodTilByTime st;
     reservedOrderIDs := reservedOrderIDs st; orderReserve := orderReserve st |}.

Definition withDexLocked (m : gmap (string * string) Z) (st : State) : State :=
  {| balances := balances st; dexLocked := m; orders := orders st;
     orderSequence := orderSequence st; goodTilByHeight := goodTilByHeight st;
     goodTilByTime := goodTilByTime st;
     reservedOrderIDs := reservedOrderIDs st; orderReserve := orderReserve st |}.

Definition withGoodTilByHeight (l : list (N * CancelGoodTil)) (st : State) : State :=
  {| balances := balances st; dexLocked := dexLocked st; orders := orders st;
     orderSequence := orderSequence st; goodTilByHeight := l;
     goodTilByTime := goodTilByTime st;
     reservedOrderIDs := reservedOrderIDs st; orderReserve := orderReserve st |}.

Definition withGoodTilByTime (l : list (Z * CancelGoodTil)) (st : State) : State :=
  {| balances := balances st; dexLocked := dexLocked st; orders := orders st;
     orderSequence := orderSequence st; goodTilByHeight := goodTilByHeight st;
     goodTilByTime := l;
     reservedOrderIDs := reservedOrderIDs st; orderReserve := orderReserve st |}.

(** Modelled from the spec: a balance move of the bank, failing with
    [InsufficientFunds] when the sender holds less than the amount. *)
Definition SendCoins (fromAddr toAddr : string) (coin : sdk.Coin) (st : State) : result State :=
  failIf (balanceOf st fromAddr (sdk.Denom coin) <? sdk.Amount coin) ErrInsufficientFunds ;;
  let st1 :=
    withBalances
      (<[(fromAddr, sdk.Denom coin) :=
           balanceOf st fromAddr (sdk.Denom coin) - sdk.Amount coin]> (balances st)) st in
  Ok (withBalances
        (<[(toAddr, sdk.Denom coin) :=
             balanceOf st1 toAddr (sdk.Denom coin) + sdk.Amount coin]> (balances st1)) st1).

(** Modelled from the spec (4.E): [inc(account, denom, amount)]; a lock
    can only cover funds that are in the bank and not yet locked. *)
Definition IncreaseDEXLocked (addr : string) (coin : sdk.Coin) (st : State) : result State :=
  failIf (balanceOf st addr (sdk.Denom coin) - lockedOf st addr (sdk.Denom coin)
          <? sdk.Amount coin) ErrInsufficientFunds ;;
  Ok (withDexLocked
        (<[(addr, sdk.Denom coin) :=
             lockedOf st addr (sdk.Denom coin) + sdk.Amount coin]> (dexLocked st)) st).

(** Modelled from the spec (4.E): [dec(account, denom, amount)] fails if
    the counter would go negative. *)
Definition DecreaseDEXLocked (addr : string) (coin : sdk.Coin) (st : State) : result State :=
  failIf (lockedOf st addr (sdk.Denom coin) - sdk.Amount coin <? 0) ErrInvalidState ;;
  Ok (withDexLocked
        (<[(addr, sdk.Denom coin) :=
             lockedOf st addr (sdk.Denom coin) - sdk.Amount coin]> (dexLocked st)) st).

(** Modelled from the spec (4.A): [multiply_to_integer(price, quantity)]
    returns the floor and the ceiling of [price · quantity]. *)
Definition MultiplyToInteger (price : Price) (quantity : Z) : Z * Z :=
  if 0 <=? Exponent price then
    let v := Mantissa price * 10 ^ Exponent price * quantity in (v, v)
  else
    let num := Mantissa price * quantity in
    let den := 10 ^ (- Exponent price) in
    (num / den, - ((- num) / den)).

(** Modelled from the spec (3, invariants of an order): a limit sell locks
    its remaining base quantity in the base denom, a limit buy locks
    [ceil(price · remaining)] in the quote denom. *)
Definition ComputeLimitOrderLockedBalance (order : Order) : result sdk.Coin :=
  match OrderPrice order with
  | None => Err ErrInvalidInput
  | Some price =>
      match OrderSide order with
      | SIDE_SELL => Ok (sdk.NewCoin (BaseDenom order) (Quantity order))
      | SIDE_BUY =>
          Ok (sdk.NewCoin (QuoteDenom order) (MultiplyToInteger price (Quantity order)).2)
      end
  end.

(** Modelled from the spec: the denom in which an open order holds its
    remaining spendable balance. *)
Definition lockedDenom (order : Order) : string :=
  match OrderSide order with
  | SIDE_SELL => BaseDenom order
  | SIDE_BUY => QuoteDenom order
  end.

(** Modelled from the spec: the deadline of a good-til height. An order with
    [good_til.block_height = H] is good through block [H]. Scenario 5 of
    the specification cancels an order with height 103 at the begin of
    block 104, and the test keeps an order with height 343 in the book
    after block 343 and finds it gone after block 344. The deadline
    registered in the by-height index is therefore the first height after
    [H]. *)
Definition goodTilDeadline (goodTilBlockHeight : N) : N := (goodTilBlockHeight + 1)%N.

(** Modelled from the spec: the by-height entry of an order, if its
    good-til has a height. *)
Definition heightEntries (goodTil : option GoodTil) (msg : CancelGoodTil)
  : list (N * CancelGoodTil) :=
  match goodTil with
  | Some goodTil =>
      if (0 <? GoodTilBlockHeight goodTil)%N
      then [(goodTilDeadline (GoodTilBlockHeight goodTil), msg)]
      else []
  | None => []
  end.

(** Modelled from the spec: the by-time entry of an order, if its good-til
    has a time; the deadline is that time. *)
Definition timeEntries (goodTil : option GoodTil) (msg : CancelGoodTil)
  : list (Z * CancelGoodTil) :=
  match goodTil with
  | Some goodTil =>
      match GoodTilBlockTime goodTil with
      | Some blockTime => [(blockTime, msg)]
      | None => []
      end
  | None => []
  end.

(** Modelled from the spec: an id is unique per creator, and a tombstoned
    id cannot be used again. *)
Definition orderIDInUse (st : State) (creator id : string) : bool :=
  bool_decide ((creator, id) ∈ reservedOrderIDs st)
  || bool_decide (map_Exists (fun _ o => Creator o = creator /\ ID o = id) (orders st)).

(** Modelled from the spec (4.G): [place_order] on the path where the match
    loop finds nothing to fill and the order is good-till-cancelled. The
    order gets the next sequence and its full quantity as remaining; the
    reserve moves from the creator to the module account; the locked
    balance is taken; the order is parked in the book and its good-til
    entries registered, one per index. A zero quantity or an id in use is
    rejected. *)
Definition PlaceOrder (order : Order) (st : State) : result State :=
  failIf (negb (bool_decide (OrderTimeInForce order = TIME_IN_FORCE_GTC))) ErrInvalidInput ;;
  failIf (Quantity order <=? 0) ErrInvalidInput ;;
  failIf (orderIDInUse st (Creator order) (ID order)) ErrDuplicateOrderID ;;
  let* lockedBalance := ComputeLimitOrderLockedBalance order in
  let sequence := (orderSequence st + 1)%N in
  let* st := SendCoins (Creator order) ModuleName (orderReserve st) st in
  let* st := IncreaseDEXLocked (Creator order) lockedBalance st in
  let parked :=
    {| Creator := Creator order; Type_ := Type_ order; ID := ID order;
       Sequence := sequence;
       BaseDenom := BaseDenom order; QuoteDenom := QuoteDenom order;
       OrderPrice := OrderPrice order; Quantity := Quantity order;
       OrderSide := OrderSide order; OrderGoodTil := OrderGoodTil order;
       OrderTimeInForce := OrderTimeInForce order;
       RemainingBaseQuantity := Quantity order;
       RemainingSpendableBalance := sdk.Amount lockedBalance;
       Reserve := orderReserve st |} in
  let msg := {| CancelCreator := Creator order; OrderSequence := sequence |} in
  Ok {| balances := balances st; dexLocked := dexLocked st;
        orders := <[sequence := parked]> (orders st);
        orderSequence := sequence;
        goodTilByHeight := goodTilByHeight st ++ heightEntries (OrderGoodTil order) msg;
        goodTilByTime := goodTilByTime st ++ timeEntries (OrderGoodTil order) msg;
        reservedOrderIDs := reservedOrderIDs st;
        orderReserve := orderReserve st |}.

(** Modelled from the spec (4.G, cancellation): [cancel_by_sequence] looks
    up the order, refuses if it is missing or owned by another account,
    removes it from the book, refunds the locked balance and the reserve,
    drops its good-til entries from both indexes and records
    [(creator, id)] in the tombstone set. *)
Definition CancelOrderBySequence (acc : string) (orderSequence' : N) (st : State)
  : result State :=
  match orders st !! orderSequence' with
  | None => Err ErrRecordNotFound
  | Some order =>
      failIf (negb (bool_decide (Creator order = acc))) ErrUnauthorized ;;
      let* st :=
        DecreaseDEXLocked acc
          (sdk.NewCoin (lockedDenom order) (RemainingSpendableBalance order)) st in
      let* st := SendCoins ModuleName acc (Reserve order) st in
      Ok {| balances := balances st; dexLocked := dexLocked st;
            orders := delete orderSequence' (orders st);
            orderSequence := orderSequence st;
            goodTilByHeight :=
              filter (fun entry => OrderSequence entry.2 ≠ orderSequence')
                (goodTilByHeight st);
            goodTilByTime :=
              filter (fun entry => OrderSequence entry.2 ≠ orderSequence')
                (goodTilByTime st);
            reservedOrderIDs := {[ (acc, ID order) ]} ∪ reservedOrderIDs st;
            orderReserve := orderReserve st |}
  end.

(** [sdk.AccAddressFromBech32] of the cosmos-sdk: the empty string is no
    address; the encoding of the others is not looked into. *)
Definition AccAddressFromBech32 (address : string) : option string :=
  if bool_decide (address = EmptyString) then None else Some address.

(** NewDelayCancelOrderHandler handles order cancellation. *)
Definition NewDelayCancelOrderHandler
    (keeperCancelOrderBySequence : string -> N -> State -> result State)
    (data : Message) (st : State) : result State :=
  match data with
  | MsgOther _ => Err ErrInvalidState
  | MsgCancelGoodTil msg =>
      match AccAddressFromBech32 (CancelCreator msg) with
      | None => Err ErrInvalidAddress
      | Some sender => keeperCancelOrderBySequence sender (OrderSequence msg) st
      end
  end.

Section Sorting.

(** the deadlines of an index and their order *)
Context {D : Type} (ltb eqb : D -> D -> bool).

(** Modelled from the spec: the order in which due entries are handled,
    ascending by deadline, then by sequence. *)
Definition entryLeb (a b : D * CancelGoodTil) : bool :=
  ltb a.1 b.1 || (eqb a.1 b.1 && (OrderSequence a.2 <=? OrderSequence b.2)%N).

(** Modelled from the spec: insertion into the sorted due entries. *)
Fixpoint insertEntry (e : D * CancelGoodTil) (l : list (D * CancelGoodTil))
  : list (D * CancelGoodTil) :=
  match l with
  | [] => [e]
  | x :: l' => if entryLeb e x then e :: x :: l' else x :: insertEntry e l'
  end.

(** Modelled from the spec: the due entries, sorted. *)
Definition sortEntries (l : list (D * CancelGoodTil)) : list (D * CancelGoodTil) :=
  fold_right insertEntry [] l.

End Sorting.

(** Modelled from the spec: each popped entry goes through the delayed
    cancel handler; an error stops the block. *)
Fixpoint runHandlers (due : list CancelGoodTil) (st : State) : result State :=
  match due with
  | [] => Ok st
  | msg :: due' =>
      let* st := NewDelayCancelOrderHandler CancelOrderBySequence (MsgCancelGoodTil msg) st in
      runHandlers due' st
  end.

(** Modelled from the spec (4.H): at every block begin the scheduler
    evaluates the current height and the current block time and pops all
    entries with [deadline ≤ current], by height first, then by time, each
    in ascending order of deadline, then of sequence. The order of each
    popped entry is cancelled through the refund path of a user cancel,
    which takes its entry off the other index, so that an order due under
    both is cancelled once. *)
Definition BeginBlock (height : N) (blockTime : Z) (st : State) : result State :=
  let dueByHeight := filter (fun entry => (entry.1 <= height)%N) (goodTilByHeight st) in
  let st :=
    withGoodTilByHeight
      (filter (fun entry => ¬ (entry.1 <= height)%N) (goodTilByHeight st)) st in
  let* st := runHandlers (sortEntries N.ltb N.eqb dueByHeight).*2 st in
  let dueByTime := filter (fun entry => entry.1 <= blockTime) (goodTilByTime st) in
  let st :=
    withGoodTilByTime (filter (fun entry => ¬ (entry.1 <= blockTime)) (goodTilByTime st)) st in
  runHandlers (sortEntries Z.ltb Z.eqb dueByTime).*2 st.

(** Modelled from the spec: the begin of the blocks that follow block
    [height], one per block time of the list, none of which carries a
    transaction of the DEX. *)
Fixpoint runBlocks (height : N) (blockTimes : list Z) (st : State) : result State :=
  match blockTimes with
  | [] => Ok st
  | blockTime :: blockTimes' =>
      let* st := BeginBlock (height + 1)%N blockTime st in
      runBlocks (height + 1)%N blockTimes' st
  end.

(** Modelled from the spec: [MintAndSendCoin] and [fundOrderReserve] of the
    test set-up credit [bank[account][denom]] of the creator. *)
Definition MintAndSendCoin (addr : string) (coin : sdk.Coin) (st : State) : State :=
  withBalances
    (<[(addr, sdk.Denom coin) := balanceOf st addr (sdk.Denom coin) + sdk.Amount coin]>
       (balances st)) st.

Definition fundOrderReserve (addr : string) (st : State) : State :=
  MintAndSendCoin addr (orderReserve st) st.

(** [TestKeeper_GoodTil], process orders for specific height: the creator
    is funded with the locked balance of the order and with the reserve,
    and the order is placed. *)
Fixpoint placeOrders (orders' : list Order) (st : State) : result State :=
  match orders' with
  | [] => Ok st
  | order :: orders'' =>
      let* balance := ComputeLimitOrderLockedBalance order in
      let st := MintAndSendCoin (Creator order) balance st in
      let st := fundOrderReserve (Creator order) st in
      let* st := PlaceOrder order st in
      placeOrders orders'' st
  end.

(** [TestKeeper_GoodTil], simulate block processing: block
    [startHeight + i] has the time [initialBlockTime + blockTime · i]; its
    begin runs the scheduler, then the orders of that height are placed. *)
Fixpoint simulateBlocks (initialBlockTime blockTime : Z)
    (heightToOrders : gmap N (list Order)) (startHeight : N)
    (blocks : nat) (i : N) (st : State) : result State :=
  match blocks with
  | O => Ok st
  | S blocks' =>
      let height := (startHeight + i)%N in
      let* st := BeginBlock height (initialBlockTime + blockTime * Z.of_N i) st in
      let* st := placeOrders (default [] (heightToOrders !! height)) st in
      simulateBlocks initialBlockTime blockTime heightToOrders startHeight
        blocks' (i + 1)%N st
  end.

(** [TestKeeper_GoodTil]: the blocks from [startHeight + 1] to
    [endHeight]. *)
Definition TestKeeper_GoodTil (initialBlockTime blockTime : Z)
    (heightToOrders : gmap N (list Order)) (startHeight endHeight : N)
    (st : State) : result State :=
  simulateBlocks initialBlockTime blockTime heightToOrders startHeight
    (N.to_nat (endHeight - startHeight)) 1%N st.

End dex.

(** * The vocabulary of the properties

    The notions the statements below are phrased in, one section per
    subsystem. *)

Import wibctransfertypes types.

(** ** Notions for the transfer validator *)

Section TransferValidatorNotions.

Context `{P : Pkg}.

(** the condition of rule 2 of validate_spendable *)
Definition globallyFrozenFor (st : keeper.State) (def : FTDefinition) (addr : string) : bool :=
  IsFeatureEnabled def Feature_freezing
  && keeper.isGloballyFrozen st (Denom def)
  && negb (HasAdminPrivileges def addr).

(** the headroom test of rule 3 of validate_receivable *)
Definition withinWhitelistedLimit (st : keeper.State) (addr denom : string) (amount : Z) : Prop :=
  sdk.Amount (keeper.GetBalance st addr denom)
  + sdk.Amount (keeper.GetDEXExpectedToReceivedBalance st addr denom)
  + amount
  <= sdk.Amount (keeper.GetWhitelistedBalance st addr denom).

End TransferValidatorNotions.

(** ** Notions for minting, issuing and administration *)

Section AdministrationNotions.

Context `{P : Pkg} `{C : keeper.Collaborators}.

(** a validator whose only error is [ErrInvalidInput] *)
Definition rejectsWithInvalidInput {A : Type} (validate : A -> result unit) : Prop :=
  forall a e, validate a = Err e -> e = ErrInvalidInput.

(** The field validators of the types package reject with
    [ErrInvalidInput] (the error category of malformed subunits, symbols
    and features in the specification). *)
Definition fieldValidatorsRejectWithInvalidInput : Prop :=
  rejectsWithInvalidInput ValidateSubunit
  /\ rejectsWithInvalidInput ValidatePrecision
  /\ rejectsWithInvalidInput ValidateFeatures
  /\ rejectsWithInvalidInput ValidateBurnRate
  /\ rejectsWithInvalidInput ValidateSendCommissionRate
  /\ rejectsWithInvalidInput ValidateSymbol.

(** the issue fee step of [IssueVersioned] goes through on this store *)
Definition issueFeePaid (settings : IssueSettings) (st : keeper.State) : Prop :=
  sdk.Amount (IssueFee (keeper.params st)) <= 0
  \/ (keeper.burnIssueFee settings (keeper.params st) st).1 = Ok tt.

(** the amount [GetFrozenBalance] reports: nothing for an account with
    admin privileges, the whole bank balance under a global freeze, the
    frozen store otherwise *)
Definition frozenAmount (st : keeper.State) (addr denom : string) : Z :=
  match keeper.GetDefinition st denom with
  | Ok def =>
      if HasAdminPrivileges def addr then 0
      else if keeper.isGloballyFrozen st denom
           then sdk.Amount (keeper.GetBalance st addr denom)
           else sdk.Amount (keeper.frozenStoreBalance st addr denom)
  | Err _ =>
      if keeper.isGloballyFrozen st denom
      then sdk.Amount (keeper.GetBalance st addr denom)
      else sdk.Amount (keeper.frozenStoreBalance st addr denom)
  end.

(** The spendable balance in the words of the property: the largest amount
    that is at most every applicable cap, and never below zero. The caps
    are the balance not locked by the DEX or by vesting and, when the denom
    has a definition with the freezing feature, the balance not frozen. *)
Definition notLockedAmount (st : keeper.State) (addr denom : string) : Z :=
  sdk.Amount (keeper.GetBalance st addr denom)
  - sdk.Amount (keeper.GetDEXLockedBalance st addr denom)
  - keeper.LockedCoinsAmountOf st addr denom.

(** the balance not frozen *)
Definition notFrozenAmount (st : keeper.State) (addr denom : string) : Z :=
  sdk.Amount (keeper.GetBalance st addr denom) - frozenAmount st addr denom.

(** the denom has a definition with the freezing feature *)
Definition freezingApplies (st : keeper.State) (denom : string) : bool :=
  match keeper.GetDefinition st denom with
  | Ok def => IsFeatureEnabled def Feature_freezing
  | Err _ => false
  end.

(** the maximum of zero and the smallest applicable cap *)
Definition spendableBalanceSpec (st : keeper.State) (addr denom : string) : Z :=
  if freezingApplies st denom
  then Z.max 0 (Z.min (notLockedAmount st addr denom) (notFrozenAmount st addr denom))
  else Z.max 0 (notLockedAmount st addr denom).

End AdministrationNotions.

(** ** Notions for the fee model *)

Section FeeModelNotions.

Context `{T : feemodel.Types}.

(** The property in the words of the specification: the two extreme load
    trajectories, the price the model computes after each of their blocks,
    and the candidates the edge prices are taken from, the current model
    price included. *)
Fixpoint emaAfter (gas : Z) (blockLength : N) (ema : Z) (blocks : nat) : Z :=
  match blocks with
  | O => ema
  | S blocks' => feemodel.CalculateEMA (emaAfter gas blockLength ema blocks') gas blockLength
  end.

(** the model price after [blocks] blocks at the given gas *)
Definition priceAfter (st : feemodel.State) (gas : Z) (blocks : nat) : Z :=
  let model := feemodel.Model (feemodel.params st) in
  feemodel.CalculateNextGasPrice model
    (emaAfter gas (feemodel.ShortEmaBlockLength model) (feemodel.GetShortEMAGas st) blocks)
    (emaAfter gas (feemodel.LongEmaBlockLength model) (feemodel.GetLongEMAGas st) blocks).

(** the current model price and the prices along both trajectories *)
Definition edgeCandidates (st : feemodel.State) (blocks : nat) : list Z :=
  priceAfter st 0 0
  :: flat_map
       (fun i => [priceAfter st (feemodel.MaxBlockGas (feemodel.Model (feemodel.params st))) i;
                  priceAfter st 0 i])
       (seq 1 blocks).

(** [after], or the short EMA block length when [after] is zero *)
Definition effectiveBlocks (st : feemodel.State) (after : N) : nat :=
  N.to_nat (if (after =? 0)%N
            then feemodel.ShortEmaBlockLength (feemodel.Model (feemodel.params st))
            else after).

(** [x] is a least element of [l] *)
Definition isMinimumOf (x : Z) (l : list Z) : Prop :=
  In x l /\ Forall (fun y => x <= y) l.

(** [x] is a greatest element of [l] *)
Definition isMaximumOf (x : Z) (l : list Z) : Prop :=
  In x l /\ Forall (fun y => y <= x) l.

(** the invariant of the loop after [blocks] rounds *)
Definition edgeInvariant (st : feemodel.State) (blocks : nat) (v : feemodel.edgeVars) : Prop :=
  let model := feemodel.Model (feemodel.params st) in
  feemodel.maxShortEMA v
  = emaAfter (feemodel.MaxBlockGas model) (feemodel.ShortEmaBlockLength model)
      (feemodel.GetShortEMAGas st) blocks
  /\ feemodel.maxLongEMA v
     = emaAfter (feemodel.MaxBlockGas model) (feemodel.LongEmaBlockLength model)
         (feemodel.GetLongEMAGas st) blocks
  /\ feemodel.minShortEMA v
     = emaAfter 0 (feemodel.ShortEmaBlockLength model) (feemodel.GetShortEMAGas st) blocks
  /\ feemodel.minLongEMA v
     = emaAfter 0 (feemodel.LongEmaBlockLength model) (feemodel.GetLongEMAGas st) blocks
  /\ isMinimumOf (feemodel.lowMinGasPrice v) (edgeCandidates st blocks)
  /\ isMaximumOf (feemodel.highMinGasPrice v) (edgeCandidates st blocks).

End FeeModelNotions.

(** ** Notions for the good-til scheduler *)

Section GoodTilNotions.

(** the order as it rests in the book after placement *)
Definition parkedOrder (st0 : dex.State) (order : dex.Order) (lockedAmount : Z) : dex.Order :=
  {| dex.Creator := dex.Creator order; dex.Type_ := dex.Type_ order; dex.ID := dex.ID order;
     dex.Sequence := (dex.orderSequence st0 + 1)%N;
     dex.BaseDenom := dex.BaseDenom order; dex.QuoteDenom := dex.QuoteDenom order;
     dex.OrderPrice := dex.OrderPrice order; dex.Quantity := dex.Quantity order;
     dex.OrderSide := dex.OrderSide order; dex.OrderGoodTil := dex.OrderGoodTil order;
     dex.OrderTimeInForce := dex.OrderTimeInForce order;
     dex.RemainingBaseQuantity := dex.Quantity order;
     dex.RemainingSpendableBalance := lockedAmount;
     dex.Reserve := dex.orderReserve st0 |}.

(** the sequences a list of index entries refers to *)
Definition sequencesOf {D : Type} (entries : list (D * dex.CancelGoodTil)) : list N :=
  (fun entry => dex.OrderSequence entry.2) <$> entries.

(** the cancel message registered for an open order *)
Definition cancelMsg (s : N) (order : dex.Order) : dex.CancelGoodTil :=
  {| dex.CancelCreator := dex.Creator order; dex.OrderSequence := s |}.

(** the good-til height of the order has passed: it has one, and the
    block is higher *)
Definition heightExpired (order : dex.Order) (height : N) : bool :=
  match dex.OrderGoodTil order with
  | Some goodTil =>
      (0 <? dex.GoodTilBlockHeight goodTil)%N && (dex.GoodTilBlockHeight goodTil <? height)%N
  | None => false
  end.

(** the good-til time of the order is reached: it has one, and the block
    time is not before it *)
Definition timeExpired (order : dex.Order) (blockTime : Z) : bool :=
  match dex.OrderGoodTil order with
  | Some goodTil =>
      match dex.GoodTilBlockTime goodTil with
      | Some deadline => deadline <=? blockTime
      | None => false
      end
  | None => false
  end.

(** the order expires at the begin of the block: either trigger is
    sufficient *)
Definition expired (order : dex.Order) (height : N) (blockTime : Z) : bool :=
  heightExpired order height || timeExpired order blockTime.

(** the sum of [f] over the open orders of a book *)
Definition total (f : dex.Order -> Z) (book : gmap N dex.Order) : Z :=
  map_fold (fun _ order acc => f order + acc) 0 book.

(** what an order locks for an account in a denom *)
Definition lockOf (addr denom : string) (order : dex.Order) : Z :=
  if bool_decide (dex.Creator order = addr /\ dex.lockedDenom order = denom)
  then dex.RemainingSpendableBalance order else 0.

(** the reserve an order holds for an account in a denom *)
Definition reserveOf (addr denom : string) (order : dex.Order) : Z :=
  if bool_decide (dex.Creator order = addr /\ sdk.Denom (dex.Reserve order) = denom)
  then sdk.Amount (dex.Reserve order) else 0.

(** the reserve an order holds in a denom, whoever placed it *)
Definition heldOf (denom : string) (order : dex.Order) : Z :=
  if bool_decide (sdk.Denom (dex.Reserve order) = denom)
  then sdk.Amount (dex.Reserve order) else 0.

(** Σ over the open orders of the account of their locked balance in the
    denom *)
Definition openLocked (st : dex.State) (addr denom : string) : Z :=
  total (lockOf addr denom) (dex.orders st).

(** Σ over the open orders of the account of their reserve in the denom *)
Definition openReserve (st : dex.State) (addr denom : string) : Z :=
  total (reserveOf addr denom) (dex.orders st).

(** Σ over all open orders of their reserve in the denom *)
Definition heldReserve (st : dex.State) (denom : string) : Z :=
  total (heldOf denom) (dex.orders st).

(** The funds behind the book are there: the open orders were placed by
    accounts, with sequences already given out, and lock and reserve
    amounts that are not negative; the DEX lock of an account covers what
    its open orders lock; the module account holds the reserves of the
    open orders. *)
Record solvent (st : dex.State) : Prop := {
  solvent_orders :
    forall s order,
      dex.orders st !! s = Some order ->
      (s <= dex.orderSequence st)%N
      /\ dex.Creator order <> EmptyString
      /\ dex.Creator order <> dex.ModuleName
      /\ 0 <= dex.RemainingSpendableBalance order
      /\ 0 <= sdk.Amount (dex.Reserve order);
  solvent_locked :
    forall addr denom, openLocked st addr denom <= dex.lockedOf st addr denom;
  solvent_reserve :
    forall denom, heldReserve st denom <= dex.balanceOf st dex.ModuleName denom
}.

(** The invariants of the book (section 3 and property 3 of the
    specification): the funds are there, and the index entries are those
    of the open orders, one by-height entry under the deadline of its
    good-til height for each open order that has one, one by-time entry
    under its good-til time for each open order that has one. *)
Record wellFormed (st : dex.State) : Prop := {
  wf_solvent : solvent st;
  wf_order_reserve : 0 <= sdk.Amount (dex.orderReserve st);
  wf_by_height :
    forall deadline msg,
      (deadline, msg) ∈ dex.goodTilByHeight st
      <-> exists order goodTil,
            dex.orders st !! dex.OrderSequence msg = Some order
            /\ msg = cancelMsg (dex.OrderSequence msg) order
            /\ dex.OrderGoodTil order = Some goodTil
            /\ (0 < dex.GoodTilBlockHeight goodTil)%N
            /\ deadline = dex.goodTilDeadline (dex.GoodTilBlockHeight goodTil);
  wf_by_time :
    forall deadline msg,
      (deadline, msg) ∈ dex.goodTilByTime st
      <-> exists order goodTil,
            dex.orders st !! dex.OrderSequence msg = Some order
            /\ msg = cancelMsg (dex.OrderSequence msg) order
            /\ dex.OrderGoodTil order = Some goodTil
            /\ dex.GoodTilBlockTime goodTil = Some deadline;
  wf_by_height_once : NoDup (sequencesOf (dex.goodTilByHeight st));
  wf_by_time_once : NoDup (sequencesOf (dex.goodTilByTime st))
}.

(** No value is created or lost between two states of the DEX: for every
    account the DEX lock beyond what its open orders lock, and the bank
    balance together with the reserves of its open orders, are the same,
    and so is what the module account holds beyond the reserves of the
    open orders. A lock or a reserve that leaves the book is therefore
    back with its owner. *)
Definition conserves (st st' : dex.State) : Prop :=
  (forall addr denom,
      dex.lockedOf st' addr denom - openLocked st' addr denom
      = dex.lockedOf st addr denom - openLocked st addr denom)
  /\ (forall addr denom,
         addr <> dex.ModuleName ->
         dex.balanceOf st' addr denom + openReserve st' addr denom
         = dex.balanceOf st addr denom + openReserve st addr denom)
  /\ (forall denom,
         dex.balanceOf st' dex.ModuleName denom - heldReserve st' denom
         = dex.balanceOf st dex.ModuleName denom - heldReserve st denom).

(** the book after the begin of a block: the open orders that did not
    expire *)
Definition unexpired (st : dex.State) (height : N) (blockTime : Z) : gmap N dex.Order :=
  filter (fun entry => expired entry.2 height blockTime = false) (dex.orders st).

(** the open orders that expire at the begin of a block *)
Definition expiredOrders (st : dex.State) (height : N) (blockTime : Z) : gmap N dex.Order :=
  filter (fun entry => expired entry.2 height blockTime = true) (dex.orders st).

(** the ids the begin of a block tombstones: those of the orders that
    expired *)
Definition tombstonedAt (st : dex.State) (height : N) (blockTime : Z)
    (creator id : string) : Prop :=
  exists s order,
    dex.orders st !! s = Some order
    /\ expired order height blockTime = true
    /\ creator = dex.Creator order /\ id = dex.ID order.

End GoodTilNotions.

(** * Worked inputs

    A concrete instance of the parameters, and concrete stores, on which the
    statements below are run. *)

Module Examples.

(** A denom is [<subunit>-<issuer>]: split at the first dash. *)
Fixpoint splitAtDash (s : string) : option (string * string) :=
  match s with
  | EmptyString => None
  | String c rest =>
      if Ascii.eqb c "-"%char then Some (EmptyString, rest)
      else match splitAtDash rest with
           | Some (subunit, issuer) => Some (String c subunit, issuer)
           | None => None
           end
  end.

Definition nonEmpty (s : string) : result unit :=
  failIf (bool_decide (s = EmptyString)) ErrInvalidInput.

(** a rate is a decimal between 0 and 1, in units of 10^-18 *)
Definition validRate (rate : Z) : result unit :=
  failIf ((rate <? 0) || (10 ^ 18 <? rate)) ErrInvalidInput.

Definition examplePkg : Pkg :=
  {| DeconstructDenom := splitAtDash;
     BuildDenom := fun subunit issuer => (subunit ++ "-" ++ issuer)%string;
     NormalizeSymbolForKey := fun symbol => symbol;
     ValidateSubunit := nonEmpty;
     ValidatePrecision := fun precision => failIf (18 <? precision) ErrInvalidInput;
     ValidateFeatures := fun _ => Ok tt;
     ValidateBurnRate := validRate;
     ValidateSendCommissionRate := validRate;
     ValidateSymbol := nonEmpty;
     ValidateDEXSettings := fun _ => Ok tt;
     ValidateDEXSettingsAccess := fun _ _ => Ok tt;
     MaxMintableAmount := 10 ^ 30;
     CurrentTokenVersion := 1 |}.

Definition exampleCollaborators : keeper.Collaborators :=
  {| keeper.Instantiate2 := fun _ _ _ _ _ _ st => (Ok "contract1"%string, st);
     keeper.MetadataValidate := fun _ => Ok tt |}.

Definition denomABC : string := "uabc-issuer1".

(** a token of [issuer1] with every transfer restriction switched on *)
Definition defABC : FTDefinition :=
  {| Denom := denomABC;
     Issuer := "issuer1";
     Features := [Feature_minting; Feature_freezing; Feature_whitelisting;
                  Feature_block_smart_contracts];
     BurnRate := 0;
     SendCommissionRate := 10 ^ 17;
     Version := 1;
     URI := "";
     URIHash := "";
     Admin := "issuer1";
     ExtensionCWAddress := "" |}.

Definition stABC : keeper.State :=
  {| keeper.bankBalances :=
       {[ ("alice"%string, denomABC) := 70; ("bob"%string, denomABC) := 10 ]};
     keeper.bankLockedCoins := {[ ("alice"%string, denomABC) := 5 ]};
     keeper.bankDenomMetaData := ∅;
     keeper.stakingBondDenom := "ucore";
     keeper.wasmContracts := {[ "contract1"%string ]};
     keeper.params := {| IssueFee := sdk.NewCoin "ucore" 10 |};
     keeper.definitions := {[ ("issuer1"%string, "uabc"%string) := defABC ]};
     keeper.symbols := {[ ("issuer1"%string, "ABC"%string) := StoreTrue ]};
     keeper.globalFreeze := ∅;
     keeper.frozenBalances := {[ ("alice"%string, denomABC) := 20 ]};
     keeper.whitelistedBalances :=
       {[ ("bob"%string, denomABC) := 50; ("contract1"%string, denomABC) := 100 ]};
     keeper.dexLockedBalances := {[ ("alice"%string, denomABC) := 15 ]};
     keeper.dexExpectedToReceiveBalances := {[ ("bob"%string, denomABC) := 10 ]};
     keeper.dexSettings := ∅;
     keeper.events := [] |}.

(** the same store under a global freeze of the token *)
Definition stABCFrozen : keeper.State :=
  keeper.setGlobalFreeze <[denomABC := StoreTrue]> stABC.

Definition ctxOf (p : Purpose) : Ctx :=
  {| purpose := p; triggeredBySmartContract := false; smartContractRecipient := None |}.

(** a transfer whose receiver is the smart contract [contract1] *)
Definition ctxToContract : Ctx :=
  WithSmartContractRecipient (ctxOf PurposeNone) "contract1".

Definition settingsABC (symbol subunit : string) (initialAmount : Z) : IssueSettings :=
  {| SettingsIssuer := "issuer1";
     Symbol := symbol;
     Subunit := subunit;
     Precision := 6;
     Description := "";
     InitialAmount := initialAmount;
     SettingsFeatures := [Feature_minting];
     SettingsBurnRate := 0;
     SettingsSendCommissionRate := 0;
     SettingsURI := "";
     SettingsURIHash := "";
     ExtensionSettings := None;
     SettingsDEX := None |}.

(** a store in which the denom [uabc-issuer1] has its metadata registered *)
Definition stABCRegistered : keeper.State :=
  keeper.setBankDenomMetaData
    <[denomABC :=
        {| banktypes.Description := "";
           banktypes.DenomUnits :=
             [ {| banktypes.UnitDenom := denomABC; banktypes.Exponent := 0 |};
               {| banktypes.UnitDenom := "ABC"; banktypes.Exponent := 6 |} ];
           banktypes.Base := denomABC;
           banktypes.Display := "ABC";
           banktypes.Name := "ABC";
           banktypes.Symbol := "ABC";
           banktypes.URI := "";
           banktypes.URIHash := "" |}]> stABC.

(** an exponential moving average with smoothing [2 / (n + 1)], and a price
    that grows with the short average relative to the long one *)
Definition exampleFeeTypes : feemodel.Types :=
  {| feemodel.CalculateEMA := fun previousEMA newValue numOfBlocks =>
       (2 * newValue + (Z.of_N numOfBlocks - 1) * previousEMA) / (Z.of_N numOfBlocks + 1);
     feemodel.CalculateNextGasPrice := fun model shortEMA longEMA =>
       Z.max (feemodel.InitialGasPrice model / 2)
         (feemodel.InitialGasPrice model * (1 + shortEMA) / (1 + longEMA)) |}.

Definition stFee : feemodel.State :=
  {| feemodel.params :=
       {| feemodel.Model :=
            {| feemodel.InitialGasPrice := 62500;
               feemodel.MaxGasPriceMultiplier := 1000;
               feemodel.MaxDiscount := 500;
               feemodel.EscalationStartFraction := 800;
               feemodel.MaxBlockGas := 50000000;
               feemodel.ShortEmaBlockLength := 50;
               feemodel.LongEmaBlockLength := 1000 |} |};
     feemodel.shortEMAGas := Some 4000000;
     feemodel.longEMAGas := Some 5000000;
     feemodel.gasPrice := Some (sdk.NewDecCoinFromDec "ucore" 50000) |}.

(** the seller holds 10 base and the reserve of 5; the book is empty *)
Definition stDex : dex.State :=
  {| dex.balances :=
       {[ ("seller"%string, "base"%string) := 10; ("seller"%string, "ucore"%string) := 5 ]};
     dex.dexLocked := ∅;
     dex.orders := ∅;
     dex.orderSequence := 0;
     dex.goodTilByHeight := [];
     dex.goodTilByTime := [];
     dex.reservedOrderIDs := ∅;
     dex.orderReserve := sdk.NewCoin "ucore" 5 |}.

(** sell 10 at 1.0, good-till-cancelled, good til block 103 *)
Definition sell10 : dex.Order :=
  {| dex.Creator := "seller";
     dex.Type_ := dex.ORDER_TYPE_LIMIT;
     dex.ID := "id1";
     dex.Sequence := 0;
     dex.BaseDenom := "base";
     dex.QuoteDenom := "quote";
     dex.OrderPrice := Some {| dex.Mantissa := 1; dex.Exponent := 0 |};
     dex.Quantity := 10;
     dex.OrderSide := dex.SIDE_SELL;
     dex.OrderGoodTil :=
       Some {| dex.GoodTilBlockHeight := 103; dex.GoodTilBlockTime := None |};
     dex.OrderTimeInForce := dex.TIME_IN_FORCE_GTC;
     dex.RemainingBaseQuantity := 0;
     dex.RemainingSpendableBalance := 0;
     dex.Reserve := sdk.NewCoin "ucore" 0 |}.

(** the store after the placement at block 101 *)
Definition stDexPlaced : dex.State :=
  match dex.PlaceOrder sell10 stDex with
  | Ok st => st
  | Err _ => stDex
  end.

(** ** The inputs of [TestKeeper_GoodTil] *)

(** the clock of the test, in nanoseconds: blocks of a second and a half
    from 2024-01-01 00:00:00 UTC *)
Definition blockTime : Z := 1500000000.
Definition initialBlockTime : Z := 1704067200000000000.
Definition hour : Z := 3600000000000.

(** the quantity step of the test set-up is not among the sources; the
    runs do not depend on it *)
Definition defaultQuantityStep : Z := 1.
Definition quantity : Z := defaultQuantityStep * 10.

(** the store of the test before the first block: no balances, an empty
    book *)
Definition stGenesis : dex.State :=
  {| dex.balances := ∅;
     dex.dexLocked := ∅;
     dex.orders := ∅;
     dex.orderSequence := 0;
     dex.goodTilByHeight := [];
     dex.goodTilByTime := [];
     dex.reservedOrderIDs := ∅;
     dex.orderReserve := sdk.NewCoin "ucore" 5 |}.

(** the sell orders of the test: [quantity] at 376e-3,
    good-till-cancelled *)
Definition testOrder (id baseDenom quoteDenom : string) (goodTil : dex.GoodTil)
  : dex.Order :=
  {| dex.Creator := "acc1";
     dex.Type_ := dex.ORDER_TYPE_LIMIT;
     dex.ID := id;
     dex.Sequence := 0;
     dex.BaseDenom := baseDenom;
     dex.QuoteDenom := quoteDenom;
     dex.OrderPrice := Some {| dex.Mantissa := 376; dex.Exponent := -3 |};
     dex.Quantity := quantity;
     dex.OrderSide := dex.SIDE_SELL;
     dex.OrderGoodTil := Some goodTil;
     dex.OrderTimeInForce := dex.TIME_IN_FORCE_GTC;
     dex.RemainingBaseQuantity := 0;
     dex.RemainingSpendableBalance := 0;
     dex.Reserve := sdk.NewCoin "ucore" 0 |}.

Definition onlyHeight (height : N) : dex.GoodTil :=
  {| dex.GoodTilBlockHeight := height; dex.GoodTilBlockTime := None |}.

Definition onlyTime (time : Z) : dex.GoodTil :=
  {| dex.GoodTilBlockHeight := 0; dex.GoodTilBlockTime := Some time |}.

(** no_match_with_good_til_block_height_keep_to_max_height *)
Definition ordersKeepToMaxHeight : gmap N (list dex.Order) :=
  {[ 310%N := [testOrder "id1" "denom1" "denom2" (onlyHeight 343)] ]}.

(** no_match_with_good_til_block_height_remove_from_max_height *)
Definition ordersRemoveFromMaxHeight : gmap N (list dex.Order) :=
  {[ 310%N := [testOrder "id1" "denom1" "denom2" (onlyHeight 343)];
     311%N := [testOrder "id2" "denom2" "denom3" (onlyHeight 343)];
     314%N := [testOrder "id3" "denom1" "denom3" (onlyHeight 345)] ]}.

(** no_match_with_good_til_block_time_remove_from_max_time *)
Definition ordersRemoveFromMaxTime : gmap N (list dex.Order) :=
  {[ 101%N := [testOrder "id1" "denom1" "denom2" (onlyTime (initialBlockTime + blockTime * 3))];
     102%N := [testOrder "id2" "denom2" "denom3" (onlyTime (initialBlockTime + blockTime * 3))];
     108%N := [testOrder "id3" "denom1" "denom3" (onlyTime (initialBlockTime + hour))] ]}.

(** no_match_with_good_til_block_time_and_height_remove_both *)
Definition ordersRemoveBoth : gmap N (list dex.Order) :=
  {[ 101%N :=
       [testOrder "id1" "denom1" "denom2"
          {| dex.GoodTilBlockHeight := 103;
             dex.GoodTilBlockTime := Some (initialBlockTime + blockTime * 3) |}] ]}.

(** the account of the test funded for its three orders and their
    reserves, before any is placed *)
Definition stFundedForThree : dex.State :=
  dex.withBalances
    {[ ("acc1"%string, "denom1"%string) := 20; ("acc1"%string, "denom2"%string) := 10;
       ("acc1"%string, "ucore"%string) := 15 ]} stGenesis.

Definition placed (order : dex.Order) (st : dex.State) : dex.State :=
  match dex.PlaceOrder order st with
  | Ok st' => st'
  | Err _ => st
  end.

(** the store a run ends in *)
Definition stateOf (r : result dex.State) : dex.State :=
  match r with
  | Ok st => st
  | Err _ => stGenesis
  end.

(** the stores the runs of the test end in *)
Definition stKeepToMaxHeight : dex.State :=
  stateOf (dex.TestKeeper_GoodTil initialBlockTime blockTime ordersKeepToMaxHeight
             300 343 stGenesis).
Definition stRemoveFromMaxHeight : dex.State :=
  stateOf (dex.TestKeeper_GoodTil initialBlockTime blockTime ordersRemoveFromMaxHeight
             300 344 stGenesis).
Definition stRemoveFromMaxTime : dex.State :=
  stateOf (dex.TestKeeper_GoodTil initialBlockTime blockTime ordersRemoveFromMaxTime
             100 110 stGenesis).
Definition stRemoveBoth : dex.State :=
  stateOf (dex.TestKeeper_GoodTil initialBlockTime blockTime ordersRemoveBoth
             100 110 stGenesis).

(** an order with height 103 whose good-til time is the time of block
    102, placed, and the store after the begin of block 102 *)
Definition orderHeightAndTime : dex.Order :=
  testOrder "id1" "denom1" "denom2"
    {| dex.GoodTilBlockHeight := 103;
       dex.GoodTilBlockTime := Some (initialBlockTime + blockTime * 2) |}.
Definition stHeightAndTime : dex.State :=
  stateOf (dex.placeOrders [orderHeightAndTime] stGenesis).
Definition stHeightAndTimeAt102 : dex.State :=
  stateOf (dex.BeginBlock 102 (initialBlockTime + blockTime * 2) stHeightAndTime).

(** the store of scenario 5 after the begin of block 104 *)
Definition stDexAt104 : dex.State :=
  stateOf (dex.BeginBlock 104 (initialBlockTime + blockTime * 4) stDexPlaced).

(** the three orders of remove_from_max_height in the book *)
Definition stOne : dex.State :=
  placed (testOrder "id1" "denom1" "denom2" (onlyHeight 343)) stFundedForThree.
Definition stTwo : dex.State :=
  placed (testOrder "id2" "denom2" "denom3" (onlyHeight 343)) stOne.
Definition stThree : dex.State :=
  placed (testOrder "id3" "denom1" "denom3" (onlyHeight 345)) stTwo.

End Examples.

(** * Properties *)

(** ** Helper lemmas *)

Lemma failIf_true (e : Error) : failIf true e = Err e.
Proof. reflexivity. Qed.

Lemma failIf_false (e : Error) : failIf false e = Ok tt.
Proof. reflexivity. Qed.

Lemma failIf_Ok (c : bool) (e : Error) : failIf c e = Ok tt <-> c = false.
Proof. destruct c; simpl; split; congruence. Qed.

Lemma failIf_Err (c : bool) (e e' : Error) : failIf c e = Err e' <-> c = true /\ e' = e.
Proof.
  destruct c; simpl; split.
  - intros H; split; congruence.
  - intros [_ ->]; reflexivity.
  - discriminate.
  - intros [H _]; discriminate.
Qed.

Lemma purpose_flags (ctx : Ctx) :
  match purpose ctx with
  | PurposeNone =>
      IsPurposeOut ctx = false /\ IsPurposeIn ctx = false
      /\ IsPurposeAck ctx = false /\ IsPurposeTimeout ctx = false
  | PurposeOut =>
      IsPurposeOut ctx = true /\ IsPurposeIn ctx = false
      /\ IsPurposeAck ctx = false /\ IsPurposeTimeout ctx = false
  | PurposeIn =>
      IsPurposeOut ctx = false /\ IsPurposeIn ctx = true
      /\ IsPurposeAck ctx = false /\ IsPurposeTimeout ctx = false
  | PurposeAck =>
      IsPurposeOut ctx = false /\ IsPurposeIn ctx = false
      /\ IsPurposeAck ctx = true /\ IsPurposeTimeout ctx = false
  | PurposeTimeout =>
      IsPurposeOut ctx = false /\ IsPurposeIn ctx = false
      /\ IsPurposeAck ctx = false /\ IsPurposeTimeout ctx = true
  end.
Proof.
  unfold IsPurposeOut, IsPurposeIn, IsPurposeAck, IsPurposeTimeout.
  destruct (purpose ctx); repeat split; reflexivity.
Qed.

(** rewrites the four purpose tests once the purpose is known *)
Ltac purpose_known ctx :=
  let H := fresh "Hflags" in
  pose proof (purpose_flags ctx) as H;
  match goal with
  | Hp : purpose ctx = _ |- _ => rewrite Hp in H
  end;
  let H1 := fresh in let H2 := fresh in let H3 := fresh in let H4 := fresh in
  destruct H as (H1 & H2 & H3 & H4);
  rewrite ?H1, ?H2, ?H3, ?H4; clear H1 H2 H3 H4.

(** ** The transfer validator *)

Section TransferValidator.

Context `{P : Pkg}.

(** C1. [validateCoinSpendable] applies its first three rules in order:
    an ack or timeout transfer succeeds whatever the definition, the sender
    and the amount; otherwise a globally frozen denom with the freezing
    feature and a sender without admin privileges fails with
    [GloballyFrozen]; otherwise an ibc-in transfer succeeds. In particular
    an ibc-in transfer of a globally frozen denom fails while the ack or
    timeout refund of the same denom succeeds. *)
Theorem validateCoinSpendable_rule_order
    (ctx : Ctx) (st : keeper.State) (addr : string) (def : FTDefinition) (amount : Z) :
  (purpose ctx = PurposeAck \/ purpose ctx = PurposeTimeout ->
   keeper.validateCoinSpendable ctx st addr def amount = Ok tt)
  /\ (purpose ctx <> PurposeAck -> purpose ctx <> PurposeTimeout ->
      IsFeatureEnabled def Feature_freezing = true ->
      keeper.isGloballyFrozen st (Denom def) = true ->
      HasAdminPrivileges def addr = false ->
      keeper.validateCoinSpendable ctx st addr def amount = Err ErrGloballyFrozen)
  /\ (purpose ctx = PurposeIn ->
      globallyFrozenFor st def addr = false ->
      keeper.validateCoinSpendable ctx st addr def amount = Ok tt)
  /\ (purpose ctx = PurposeIn ->
      globallyFrozenFor st def addr = true ->
      keeper.validateCoinSpendable ctx st addr def amount = Err ErrGloballyFrozen).
Proof.
  unfold globallyFrozenFor.
  repeat split.
  - intros [Hp | Hp]; unfold keeper.validateCoinSpendable; purpose_known ctx; reflexivity.
  - intros Hack Htimeout Hfreezing Hfrozen Hadmin.
    unfold keeper.validateCoinSpendable.
    pose proof (purpose_flags ctx) as Hflags.
    destruct (purpose ctx); try congruence;
      destruct Hflags as (_ & _ & Hfa & Hft);
      rewrite Hfa, Hft, Hfreezing, Hfrozen, Hadmin; reflexivity.
  - intros Hp Hnot.
    unfold keeper.validateCoinSpendable. purpose_known ctx.
    destruct (IsFeatureEnabled def Feature_freezing); simpl in *; [| reflexivity].
    rewrite Hnot. reflexivity.
  - intros Hp Hfrozen.
    unfold keeper.validateCoinSpendable. purpose_known ctx.
    destruct (IsFeatureEnabled def Feature_freezing); simpl in *; [| discriminate].
    rewrite Hfrozen. reflexivity.
Qed.

Lemma validateWhitelistedBalance_Ok (st : keeper.State) (addr denom : string) (amount : Z) :
  keeper.validateWhitelistedBalance st addr (sdk.NewCoin denom amount) = Ok tt
  <-> withinWhitelistedLimit st addr denom amount.
Proof.
  unfold keeper.validateWhitelistedBalance, withinWhitelistedLimit. simpl.
  rewrite failIf_Ok, Z.ltb_ge. lia.
Qed.

Lemma validateWhitelistedBalance_Err
    (st : keeper.State) (addr denom : string) (amount : Z) (e : Error) :
  keeper.validateWhitelistedBalance st addr (sdk.NewCoin denom amount) = Err e
  <-> ~ withinWhitelistedLimit st addr denom amount /\ e = ErrWhitelistedLimitExceeded.
Proof.
  unfold keeper.validateWhitelistedBalance, withinWhitelistedLimit. simpl.
  rewrite failIf_Err, Z.ltb_lt. intuition lia.
Qed.

(** C2, as the code has it. For a receiver without admin privileges, a
    definition with the whitelisting feature and a transfer of purpose
    none, [validateCoinReceivable] fails with [WhitelistedLimitExceeded]
    exactly when bank balance + DEX expected-to-receive + amount exceeds
    the whitelisted limit; within the limit it succeeds, except that a
    definition which also blocks smart contracts rejects a receiving smart
    contract with [Unauthorized]. *)
Theorem validateCoinReceivable_whitelisting
    (ctx : Ctx) (st : keeper.State) (addr : string) (def : FTDefinition) (amount : Z)
    (Hwhitelisting : IsFeatureEnabled def Feature_whitelisting = true)
    (Hadmin : HasAdminPrivileges def addr = false)
    (Hpurpose : purpose ctx = PurposeNone) :
  let blocked :=
    IsFeatureEnabled def Feature_block_smart_contracts
    && IsReceivingSmartContract ctx addr in
  (keeper.validateCoinReceivable ctx st addr def amount = Err ErrWhitelistedLimitExceeded
   <-> ~ withinWhitelistedLimit st addr (Denom def) amount)
  /\ (keeper.validateCoinReceivable ctx st addr def amount = Ok tt
      <-> withinWhitelistedLimit st addr (Denom def) amount /\ blocked = false)
  /\ (keeper.validateCoinReceivable ctx st addr def amount = Err ErrUnauthorized
      <-> withinWhitelistedLimit st addr (Denom def) amount /\ blocked = true).
Proof.
  intros blocked. subst blocked.
  unfold keeper.validateCoinReceivable. purpose_known ctx.
  rewrite Hwhitelisting, Hadmin. simpl.
  destruct (keeper.validateWhitelistedBalance st addr (sdk.NewCoin (Denom def) amount))
    as [u | e] eqn:Hw; simpl.
  - destruct u. apply validateWhitelistedBalance_Ok in Hw.
    rewrite andb_true_r.
    destruct (IsFeatureEnabled def Feature_block_smart_contracts
              && IsReceivingSmartContract ctx addr); simpl;
      repeat split; intros; try tauto; try congruence;
      try (destruct H; congruence).
  - apply validateWhitelistedBalance_Err in Hw. destruct Hw as [Hover ->].
    repeat split; intros; try tauto; try congruence.
Qed.

(** C4. An actor with admin privileges over a definition, in a transfer of
    purpose none, is only subject to the DEX and bank lock check when it
    sends (no global freeze, frozen balance or smart-contract block can
    reject it), and can always receive (no whitelisting limit or
    smart-contract block rejects it). *)
Theorem admin_exemption
    (ctx : Ctx) (st : keeper.State) (addr : string) (def : FTDefinition) (amount : Z)
    (Hadmin : HasAdminPrivileges def addr = true)
    (Hpurpose : purpose ctx = PurposeNone) :
  keeper.validateCoinSpendable ctx st addr def amount
  = keeper.validateCoinIsNotLockedByDEXAndBank st addr (sdk.NewCoin (Denom def) amount)
  /\ (keeper.validateCoinSpendable ctx st addr def amount = Ok tt
      <-> amount <= sdk.Amount (keeper.GetBalance st addr (Denom def))
                    - sdk.Amount (keeper.GetDEXLockedBalance st addr (Denom def))
                    - keeper.LockedCoinsAmountOf st addr (Denom def))
  /\ (forall e, keeper.validateCoinSpendable ctx st addr def amount = Err e ->
                e = ErrInsufficientFunds)
  /\ keeper.validateCoinReceivable ctx st addr def amount = Ok tt.
Proof.
  assert (Hs : keeper.validateCoinSpendable ctx st addr def amount
               = keeper.validateCoinIsNotLockedByDEXAndBank st addr
                   (sdk.NewCoin (Denom def) amount)).
  { unfold keeper.validateCoinSpendable. purpose_known ctx.
    rewrite Hadmin. simpl. rewrite !andb_false_r. simpl.
    destruct (IsFeatureEnabled def Feature_freezing); simpl;
      destruct (keeper.validateCoinIsNotLockedByDEXAndBank _ _ _) as [u | e];
      try destruct u; reflexivity. }
  split; [exact Hs |]. rewrite Hs.
  unfold keeper.validateCoinIsNotLockedByDEXAndBank. simpl.
  split; [| split].
  - rewrite failIf_Ok, Z.ltb_ge. lia.
  - intros e He. apply failIf_Err in He. tauto.
  - unfold keeper.validateCoinReceivable. purpose_known ctx.
    rewrite Hadmin. simpl. rewrite !andb_false_r. reflexivity.
Qed.

End TransferValidator.

(** ** Minting, issuing and administration *)
Section Administration.

Context `{P : Pkg} `{C : keeper.Collaborators}.

Lemma mbind_lift {A B : Type} (r : result A) (k : A -> keeper.M B) (st : keeper.State) :
  keeper.mbind (keeper.lift r) k st
  = match r with
    | Ok a => k a st
    | Err e => (Err e, st)
    end.
Proof. unfold keeper.mbind, keeper.lift. destruct r; reflexivity. Qed.

Lemma mbind_read {A B : Type} (f : keeper.State -> result A) (k : A -> keeper.M B)
    (st : keeper.State) :
  keeper.mbind (keeper.read f) k st
  = match f st with
    | Ok a => k a st
    | Err e => (Err e, st)
    end.
Proof. unfold keeper.mbind, keeper.read. destruct (f st); reflexivity. Qed.

Lemma mbind_failWhen {B : Type} (c : bool) (e : Error) (k : unit -> keeper.M B)
    (st : keeper.State) :
  keeper.mbind (keeper.failWhen c e) k st
  = if c then (Err e, st) else k tt st.
Proof. unfold keeper.mbind, keeper.failWhen. destruct c; reflexivity. Qed.

Lemma mbind_write {B : Type} (f : keeper.State -> keeper.State) (k : unit -> keeper.M B)
    (st : keeper.State) :
  keeper.mbind (keeper.write f) k st = k tt (f st).
Proof. reflexivity. Qed.

(** one validation step of [IssueVersioned]: either it rejects, with
    [ErrInvalidInput] and the store untouched, or the method goes on *)
Ltac validation_step Hrejects :=
  rewrite mbind_lift;
  match goal with
  | |- context [match ?v with Ok _ => _ | Err _ => _ end] =>
      let Hv := fresh "Hv" in
      let u := fresh "u" in
      let e := fresh "e" in
      destruct v as [u | e] eqn:Hv;
      [ try destruct u
      | apply Hrejects in Hv; subst e ]
  end.

(** C6. A mint above [MaxMintableAmount] fails with [ErrInvalidInput] and
    leaves the store as it was, whatever the store holds: the cap is
    tested before the definition is looked up and before the minting
    feature is checked. An issue whose initial amount is above the cap
    fails with [ErrInvalidInput] as well, nothing stored. *)
Theorem amount_above_cap_rejected :
  (forall (ctx : Ctx) (st : keeper.State) (sender recipient : string) (coin : sdk.Coin),
      sdk.Amount coin > MaxMintableAmount ->
      keeper.Mint ctx sender recipient coin st = (Err ErrInvalidInput, st))
  /\ (fieldValidatorsRejectWithInvalidInput ->
      forall (ctx : Ctx) (st : keeper.State) (settings : IssueSettings) (version : Z),
        InitialAmount settings > MaxMintableAmount ->
        keeper.IssueVersioned ctx settings version st = (Err ErrInvalidInput, st)
        /\ keeper.Issue ctx settings st = (Err ErrInvalidInput, st)).
Proof.
  split.
  - intros ctx st sender recipient coin Hgt.
    unfold keeper.Mint. rewrite mbind_failWhen.
    replace (sdk.Amount coin >? MaxMintableAmount) with true; [reflexivity |].
    symmetry. apply Z.gtb_lt. lia.
  - intros (Hsubunit & Hprecision & Hfeatures & Hburn & Hcommission & _).
    assert (Hissue : forall ctx st settings version,
               InitialAmount settings > MaxMintableAmount ->
               keeper.IssueVersioned ctx settings version st = (Err ErrInvalidInput, st)).
    { intros ctx st settings version Hgt.
      unfold keeper.IssueVersioned.
      validation_step Hsubunit; [| reflexivity].
      validation_step Hprecision; [| reflexivity].
      validation_step Hfeatures; [| reflexivity].
      validation_step Hburn; [| reflexivity].
      validation_step Hcommission; [| reflexivity].
      rewrite mbind_failWhen.
      replace (InitialAmount settings >? MaxMintableAmount) with true; [reflexivity |].
      symmetry. apply Z.gtb_lt. lia. }
    intros ctx st settings version Hgt. split.
    + apply Hissue, Hgt.
    + apply Hissue, Hgt.
Qed.

(** C7. On a denom whose definition has an admin, [ClearAdmin] called by
    that admin succeeds and stores the definition with an empty admin; the
    stored send commission rate is zero when the extension feature is off
    and is the former one when it is on. Called by anyone else it fails
    with [ErrUnauthorized] and the store is as it was. *)
Theorem ClearAdmin_clears_admin
    (st : keeper.State) (sender denom : string) (def : FTDefinition)
    (Hdef : keeper.GetDefinition st denom = Ok def)
    (Hset : Admin def <> EmptyString) :
  (IsAdmin def sender = true ->
   exists st' def',
     keeper.ClearAdmin sender denom st = (Ok tt, st')
     /\ keeper.GetDefinition st' denom = Ok def'
     /\ Admin def' = EmptyString
     /\ (IsFeatureEnabled def Feature_extension = false -> SendCommissionRate def' = 0)
     /\ (IsFeatureEnabled def Feature_extension = true ->
         SendCommissionRate def' = SendCommissionRate def))
  /\ (IsAdmin def sender = false ->
      keeper.ClearAdmin sender denom st = (Err ErrUnauthorized, st)).
Proof.
  unfold keeper.GetDefinition in Hdef.
  destruct (DeconstructDenom denom) as [[subunit issuer] |] eqn:Hdenom; [| discriminate].
  destruct (keeper.definitions st !! (issuer, subunit)) as [d |] eqn:Hlookup;
    [| discriminate].
  injection Hdef as ->.
  split.
  - intros Hadmin.
    unfold keeper.ClearAdmin.
    rewrite mbind_read. unfold keeper.GetDefinition at 1. rewrite Hdenom, Hlookup.
    rewrite mbind_failWhen, Hadmin. simpl negb. cbv iota.
    rewrite mbind_lift. simpl fst. simpl snd.
    eexists. eexists. split; [reflexivity |].
    unfold keeper.GetDefinition. rewrite Hdenom. simpl.
    rewrite lookup_insert_eq.
    split; [reflexivity |].
    unfold IsFeatureEnabled. simpl.
    destruct (bool_decide (Feature_extension ∈ Features def)); simpl;
      repeat split; intros; congruence.
  - intros Hadmin.
    unfold keeper.ClearAdmin.
    rewrite mbind_read. unfold keeper.GetDefinition. rewrite Hdenom, Hlookup.
    rewrite mbind_failWhen, Hadmin. reflexivity.
Qed.

Lemma CheckFeatureAllowed_admin (def : FTDefinition) (addr : string) (feature : Feature) :
  IsFeatureEnabled def feature = true ->
  HasAdminPrivileges def addr = true ->
  CheckFeatureAllowed def addr feature = Ok tt.
Proof.
  intros Hfeature Hadmin. unfold CheckFeatureAllowed.
  rewrite Hfeature, Hadmin. simpl. rewrite andb_false_r. reflexivity.
Qed.

Lemma GetDefinition_setGlobalFreeze
    (f : gmap string (list N) -> gmap string (list N)) (st : keeper.State) (denom : string) :
  keeper.GetDefinition (keeper.setGlobalFreeze f st) denom = keeper.GetDefinition st denom.
Proof. reflexivity. Qed.

Lemma setGlobalFreeze_compose
    (f g : gmap string (list N) -> gmap string (list N)) (st : keeper.State) :
  keeper.setGlobalFreeze f (keeper.setGlobalFreeze g st)
  = keeper.setGlobalFreeze (fun m => f (g m)) st.
Proof. reflexivity. Qed.

Lemma setGlobalFreeze_ext
    (f g : gmap string (list N) -> gmap string (list N)) (st : keeper.State) :
  f (keeper.globalFreeze st) = g (keeper.globalFreeze st) ->
  keeper.setGlobalFreeze f st = keeper.setGlobalFreeze g st.
Proof. intros H. unfold keeper.setGlobalFreeze. rewrite H. reflexivity. Qed.

Lemma setGlobalFreeze_id (f : gmap string (list N) -> gmap string (list N)) (st : keeper.State) :
  f (keeper.globalFreeze st) = keeper.globalFreeze st ->
  keeper.setGlobalFreeze f st = st.
Proof. intros H. unfold keeper.setGlobalFreeze. rewrite H. destruct st; reflexivity. Qed.

Lemma GloballyFreeze_run (st : keeper.State) (sender denom : string) (def : FTDefinition) :
  keeper.GetDefinition st denom = Ok def ->
  IsFeatureEnabled def Feature_freezing = true ->
  HasAdminPrivileges def sender = true ->
  keeper.GloballyFreeze sender denom st
  = (Ok tt, keeper.setGlobalFreeze <[denom := StoreTrue]> st).
Proof.
  intros Hdef Hfreezing Hadmin. unfold keeper.GloballyFreeze.
  rewrite mbind_read, Hdef, mbind_lift, (CheckFeatureAllowed_admin _ _ _ Hfreezing Hadmin).
  reflexivity.
Qed.

Lemma GloballyUnfreeze_run (st : keeper.State) (sender denom : string) (def : FTDefinition) :
  keeper.GetDefinition st denom = Ok def ->
  IsFeatureEnabled def Feature_freezing = true ->
  HasAdminPrivileges def sender = true ->
  keeper.GloballyUnfreeze sender denom st
  = (Ok tt, keeper.setGlobalFreeze (delete denom) st).
Proof.
  intros Hdef Hfreezing Hadmin. unfold keeper.GloballyUnfreeze.
  rewrite mbind_read, Hdef, mbind_lift, (CheckFeatureAllowed_admin _ _ _ Hfreezing Hadmin).
  reflexivity.
Qed.

(** C10. For a denom with the freezing feature and a sender with admin
    privileges, [GloballyFreeze] succeeds and sets the global-freeze key,
    and a second call leaves the store of the first; [GloballyUnfreeze]
    succeeds and deletes the key, and a second call leaves the store of
    the first; unfreezing after freezing gives the store of a plain
    unfreeze, which is not frozen, and is the initial store when the key
    was absent. *)
Theorem global_freeze_idempotent
    (st : keeper.State) (sender denom : string) (def : FTDefinition)
    (Hdef : keeper.GetDefinition st denom = Ok def)
    (Hfreezing : IsFeatureEnabled def Feature_freezing = true)
    (Hadmin : HasAdminPrivileges def sender = true) :
  exists stFrozen stUnfrozen,
    keeper.GloballyFreeze sender denom st = (Ok tt, stFrozen)
    /\ keeper.globalFreeze stFrozen !! denom = Some StoreTrue
    /\ keeper.isGloballyFrozen stFrozen denom = true
    /\ keeper.GloballyFreeze sender denom stFrozen = (Ok tt, stFrozen)
    /\ keeper.GloballyUnfreeze sender denom st = (Ok tt, stUnfrozen)
    /\ keeper.globalFreeze stUnfrozen !! denom = None
    /\ keeper.isGloballyFrozen stUnfrozen denom = false
    /\ keeper.GloballyUnfreeze sender denom stUnfrozen = (Ok tt, stUnfrozen)
    /\ keeper.GloballyUnfreeze sender denom stFrozen = (Ok tt, stUnfrozen)
    /\ (keeper.globalFreeze st !! denom = None -> stUnfrozen = st).
Proof.
  exists (keeper.setGlobalFreeze <[denom := StoreTrue]> st).
  exists (keeper.setGlobalFreeze (delete denom) st).
  assert (HdefF : keeper.GetDefinition
                    (keeper.setGlobalFreeze <[denom := StoreTrue]> st) denom = Ok def)
    by exact Hdef.
  assert (HdefU : keeper.GetDefinition
                    (keeper.setGlobalFreeze (delete denom) st) denom = Ok def)
    by exact Hdef.
  repeat split.
  - exact (GloballyFreeze_run _ _ _ _ Hdef Hfreezing Hadmin).
  - simpl. apply lookup_insert_eq.
  - unfold keeper.isGloballyFrozen. simpl. rewrite lookup_insert_eq.
    apply bool_decide_eq_true. reflexivity.
  - rewrite (GloballyFreeze_run _ _ _ _ HdefF Hfreezing Hadmin).
    rewrite setGlobalFreeze_compose. f_equal.
    apply setGlobalFreeze_ext. apply insert_insert_eq.
  - exact (GloballyUnfreeze_run _ _ _ _ Hdef Hfreezing Hadmin).
  - simpl. apply lookup_delete_eq.
  - unfold keeper.isGloballyFrozen. simpl. rewrite lookup_delete_eq.
    apply bool_decide_eq_false. discriminate.
  - rewrite (GloballyUnfreeze_run _ _ _ _ HdefU Hfreezing Hadmin).
    rewrite setGlobalFreeze_compose. f_equal.
    apply setGlobalFreeze_ext. apply delete_delete_eq.
  - rewrite (GloballyUnfreeze_run _ _ _ _ HdefF Hfreezing Hadmin).
    rewrite setGlobalFreeze_compose. f_equal.
    apply setGlobalFreeze_ext. apply delete_insert_eq.
  - intros Habsent. apply setGlobalFreeze_id. apply delete_id. exact Habsent.
Qed.

(** Burning the issue fee moves bank balances only. *)
Lemma burnIssueFee_frame (settings : IssueSettings) (prm : Params) (st : keeper.State) :
  keeper.definitions (keeper.burnIssueFee settings prm st).2 = keeper.definitions st
  /\ keeper.symbols (keeper.burnIssueFee settings prm st).2 = keeper.symbols st.
Proof.
  unfold keeper.burnIssueFee, keeper.checkIssueFeeIsLimitedToCore, keeper.burn,
    keeper.SendCoinsFromAccountToModule, keeper.BurnCoins, keeper.SendCoins,
    keeper.subBalance, keeper.mbind, keeper.read, keeper.write, keeper.failWhen,
    keeper.fail, keeper.ret.
  repeat (case_match; simplify_eq; simpl in *; try (split; reflexivity)).
Qed.

Lemma mbind_assoc {A B D : Type} (m : keeper.M A) (k1 : A -> keeper.M B)
    (k2 : B -> keeper.M D) (st : keeper.State) :
  keeper.mbind (keeper.mbind m k1) k2 st
  = keeper.mbind m (fun a => keeper.mbind (k1 a) k2) st.
Proof. unfold keeper.mbind. destruct (m st) as [[a | e] st']; reflexivity. Qed.

(** C9, as the code has it. Issuing under a subunit whose denom already
    has denom metadata fails with [ErrInvalidInput] and leaves the store as
    it was. Issuing under a symbol whose normalized form is stored for the
    issuer fails and stores no definition; the error is [ErrInvalidInput]
    when the issue fee is zero or has been burnt, the fee being charged
    before the symbol is looked up. *)
Theorem issue_rejects_reused_identifiers
    (Hvalidators : fieldValidatorsRejectWithInvalidInput)
    (ctx : Ctx) (st : keeper.State) (settings : IssueSettings) (version : Z) :
  (is_Some (keeper.GetDenomMetaData st
              (BuildDenom (Subunit settings) (SettingsIssuer settings))) ->
   keeper.IssueVersioned ctx settings version st = (Err ErrInvalidInput, st))
  /\ (is_Some (keeper.symbols st
                 !! (SettingsIssuer settings, NormalizeSymbolForKey (Symbol settings))) ->
      exists e st',
        keeper.IssueVersioned ctx settings version st = (Err e, st')
        /\ keeper.definitions st' = keeper.definitions st
        /\ (issueFeePaid settings st -> e = ErrInvalidInput)).
Proof.
  destruct Hvalidators as
    (Hsubunit & Hprecision & Hfeatures & Hburn & Hcommission & Hsymbol).
  split.
  - intros [metadata Hfound].
    unfold keeper.IssueVersioned.
    validation_step Hsubunit; [| reflexivity].
    validation_step Hprecision; [| reflexivity].
    validation_step Hfeatures; [| reflexivity].
    validation_step Hburn; [| reflexivity].
    validation_step Hcommission; [| reflexivity].
    rewrite mbind_failWhen.
    destruct (InitialAmount settings >? MaxMintableAmount); [reflexivity |].
    validation_step Hsymbol; [| reflexivity].
    rewrite mbind_read, Hfound, mbind_failWhen. reflexivity.
  - intros [marker Hdup].
    unfold keeper.IssueVersioned.
    validation_step Hsubunit; [| eauto].
    validation_step Hprecision; [| eauto].
    validation_step Hfeatures; [| eauto].
    validation_step Hburn; [| eauto].
    validation_step Hcommission; [| eauto].
    rewrite mbind_failWhen.
    destruct (InitialAmount settings >? MaxMintableAmount); [eauto |].
    validation_step Hsymbol; [| eauto].
    rewrite mbind_read, mbind_failWhen.
    destruct (keeper.GetDenomMetaData st _); [eauto |].
    unfold keeper.GetParams. rewrite mbind_read.
    destruct (0 <? sdk.Amount (IssueFee (keeper.params st))) eqn:Hfee.
    + pose proof (burnIssueFee_frame settings (keeper.params st) st) as [Hdefs Hsyms].
      unfold keeper.mbind at 1.
      destruct (keeper.burnIssueFee settings (keeper.params st) st) as [[u | e] st1] eqn:Hburnt;
        simpl in Hdefs, Hsyms.
      * cbv iota beta. unfold keeper.SetSymbol.
        rewrite mbind_assoc, mbind_read, mbind_assoc, mbind_failWhen.
        unfold keeper.isSymbolDuplicated. rewrite Hsyms, Hdup.
        exists ErrInvalidInput, st1. auto.
      * exists e, st1. repeat split; [exact Hdefs |].
        intros [Hzero | Hpaid].
        -- apply Z.ltb_lt in Hfee. lia.
        -- rewrite Hburnt in Hpaid. discriminate.
    + unfold keeper.mbind at 1. unfold keeper.ret at 1. cbv iota beta.
      unfold keeper.SetSymbol.
      rewrite mbind_assoc, mbind_read, mbind_assoc, mbind_failWhen.
      unfold keeper.isSymbolDuplicated. rewrite Hdup.
      exists ErrInvalidInput, st. auto.
Qed.

Lemma getDefinitionOrNil_Ok (st : keeper.State) (denom : string) :
  keeper.getDefinitionOrNil st denom
  = Ok (match keeper.GetDefinition st denom with
        | Ok def => Some def
        | Err _ => None
        end).
Proof.
  unfold keeper.getDefinitionOrNil, keeper.GetDefinition.
  destruct (DeconstructDenom denom) as [[subunit issuer] |]; [| reflexivity].
  destruct (keeper.definitions st !! (issuer, subunit)); reflexivity.
Qed.

Lemma GetFrozenBalance_Ok (st : keeper.State) (addr denom : string) :
  keeper.GetFrozenBalance st addr denom = Ok (sdk.NewCoin denom (frozenAmount st addr denom)).
Proof.
  unfold keeper.GetFrozenBalance, frozenAmount.
  rewrite getDefinitionOrNil_Ok. simpl.
  destruct (keeper.GetDefinition st denom) as [def | e].
  - destruct (HasAdminPrivileges def addr); [reflexivity |].
    destruct (keeper.isGloballyFrozen st denom); reflexivity.
  - destruct (keeper.isGloballyFrozen st denom); reflexivity.
Qed.

(** C8. [GetSpendableBalance] always returns a coin of the denom, and its
    amount is never negative. With non-negative DEX and vesting locks the
    amount is the maximum of zero and the smallest applicable cap: zero
    when the balance not locked is negative, zero when freezing applies
    and the balance not frozen is negative, otherwise the minimum of the
    two (the balance not locked when freezing does not apply). *)
Theorem GetSpendableBalance_never_negative (st : keeper.State) (addr denom : string) :
  exists amount,
    keeper.GetSpendableBalance st addr denom = Ok (sdk.NewCoin denom amount)
    /\ 0 <= amount
    /\ (0 <= sdk.Amount (keeper.GetDEXLockedBalance st addr denom) ->
        0 <= keeper.LockedCoinsAmountOf st addr denom ->
        amount = spendableBalanceSpec st addr denom
        /\ (notLockedAmount st addr denom < 0 -> amount = 0)
        /\ (freezingApplies st denom = true -> notFrozenAmount st addr denom < 0 ->
            amount = 0)
        /\ (freezingApplies st denom = true ->
            0 <= notLockedAmount st addr denom -> 0 <= notFrozenAmount st addr denom ->
            amount = Z.min (notLockedAmount st addr denom) (notFrozenAmount st addr denom))
        /\ (freezingApplies st denom = false ->
            0 <= notLockedAmount st addr denom ->
            amount = notLockedAmount st addr denom)).
Proof.
  unfold keeper.GetSpendableBalance, spendableBalanceSpec, freezingApplies,
    notFrozenAmount, notLockedAmount.
  rewrite getDefinitionOrNil_Ok, GetFrozenBalance_Ok. simpl.
  set (balance := default 0 (keeper.bankBalances st !! (addr, denom))).
  set (dexLocked := default 0 (keeper.dexLockedBalances st !! (addr, denom))).
  set (vesting := keeper.LockedCoinsAmountOf st addr denom).
  set (frozen := frozenAmount st addr denom).
  destruct (balance =? 0) eqn:Hzero.
  { apply Z.eqb_eq in Hzero. exists balance. split; [reflexivity |].
    split; [lia |]. intros Hdex Hvesting.
    destruct (keeper.GetDefinition st denom) as [def | e];
      [destruct (IsFeatureEnabled def Feature_freezing) |];
      repeat split; intros; try discriminate; lia. }
  apply Z.eqb_neq in Hzero.
  destruct (balance - dexLocked - vesting <? 0) eqn:Hlocked.
  { apply Z.ltb_lt in Hlocked. exists 0. split; [reflexivity |].
    split; [lia |]. intros Hdex Hvesting.
    destruct (keeper.GetDefinition st denom) as [def | e];
      [destruct (IsFeatureEnabled def Feature_freezing) |];
      repeat split; intros; try discriminate; lia. }
  apply Z.ltb_ge in Hlocked.
  destruct (keeper.GetDefinition st denom) as [def | e]; simpl.
  - destruct (IsFeatureEnabled def Feature_freezing); simpl.
    + destruct (balance - frozen <? 0) eqn:Hfrozen.
      * apply Z.ltb_lt in Hfrozen. exists 0. split; [reflexivity |].
        split; [lia |]. intros Hdex Hvesting.
        repeat split; intros; try discriminate; lia.
      * apply Z.ltb_ge in Hfrozen.
        exists (Z.min (balance - dexLocked - vesting) (balance - frozen)).
        split; [reflexivity |]. split; [lia |]. intros Hdex Hvesting.
        repeat split; intros; try discriminate; lia.
    + exists (balance - dexLocked - vesting). split; [reflexivity |].
      split; [lia |]. intros Hdex Hvesting.
      repeat split; intros; try discriminate; lia.
  - exists (balance - dexLocked - vesting). split; [reflexivity |].
    split; [lia |]. intros Hdex Hvesting.
    repeat split; intros; try discriminate; lia.
Qed.

End Administration.

(** ** The fee model *)

Section FeeModel.

Context `{T : feemodel.Types}.

Lemma isMinimumOf_snoc2 (x a b : Z) (l : list Z) :
  isMinimumOf x l -> isMinimumOf (Z.min x (Z.min a b)) (l ++ [a; b]).
Proof.
  intros [Hin Hle]. split.
  - apply in_or_app.
    destruct (Z.min_spec x (Z.min a b)) as [[_ ->] | [_ ->]]; [left; exact Hin |].
    right. destruct (Z.min_spec a b) as [[_ ->] | [_ ->]]; simpl; auto.
  - apply List.Forall_app. split.
    + eapply List.Forall_impl; [| exact Hle]. simpl. intros y Hy. lia.
    + repeat constructor; lia.
Qed.

Lemma isMaximumOf_snoc2 (x a b : Z) (l : list Z) :
  isMaximumOf x l -> isMaximumOf (Z.max x (Z.max a b)) (l ++ [a; b]).
Proof.
  intros [Hin Hle]. split.
  - apply in_or_app.
    destruct (Z.max_spec x (Z.max a b)) as [[_ ->] | [_ ->]]; [| left; exact Hin].
    right. destruct (Z.max_spec a b) as [[_ ->] | [_ ->]]; simpl; auto.
  - apply List.Forall_app. split.
    + eapply List.Forall_impl; [| exact Hle]. simpl. intros y Hy. lia.
    + repeat constructor; lia.
Qed.

Lemma edgeCandidates_succ (st : feemodel.State) (blocks : nat) :
  edgeCandidates st (S blocks)
  = edgeCandidates st blocks
    ++ [priceAfter st (feemodel.MaxBlockGas (feemodel.Model (feemodel.params st))) (S blocks);
        priceAfter st 0 (S blocks)].
Proof.
  unfold edgeCandidates.
  rewrite seq_S, flat_map_app. reflexivity.
Qed.

Lemma edgeStep_invariant (st : feemodel.State) (blocks : nat) (v : feemodel.edgeVars) :
  edgeInvariant st blocks v ->
  edgeInvariant st (S blocks)
    (feemodel.edgeStep (feemodel.params st) 0
       (feemodel.MaxBlockGas (feemodel.Model (feemodel.params st))) v).
Proof.
  intros (Hmaxs & Hmaxl & Hmins & Hminl & Hlow & Hhigh).
  unfold edgeInvariant. rewrite edgeCandidates_succ.
  unfold feemodel.edgeStep. simpl.
  rewrite Hmaxs, Hmaxl, Hmins, Hminl.
  repeat split; try reflexivity.
  - apply (isMinimumOf_snoc2 _ _ _ _ Hlow).
  - apply (isMinimumOf_snoc2 _ _ _ _ Hlow).
  - apply (isMaximumOf_snoc2 _ _ _ _ Hhigh).
  - apply (isMaximumOf_snoc2 _ _ _ _ Hhigh).
Qed.

Lemma edge_loop_invariant (st : feemodel.State) (blocks : nat) :
  let model := feemodel.Model (feemodel.params st) in
  let current :=
    feemodel.CalculateNextGasPrice model (feemodel.GetShortEMAGas st)
      (feemodel.GetLongEMAGas st) in
  edgeInvariant st blocks
    (Nat.iter blocks
       (feemodel.edgeStep (feemodel.params st) 0 (feemodel.MaxBlockGas model))
       {| feemodel.maxShortEMA := feemodel.GetShortEMAGas st;
          feemodel.minShortEMA := feemodel.GetShortEMAGas st;
          feemodel.maxLongEMA := feemodel.GetLongEMAGas st;
          feemodel.minLongEMA := feemodel.GetLongEMAGas st;
          feemodel.lowMinGasPrice := current;
          feemodel.highMinGasPrice := current |}).
Proof.
  intros model current. induction blocks as [| blocks IH].
  - simpl. unfold edgeInvariant, edgeCandidates, isMinimumOf, isMaximumOf, priceAfter.
    simpl. fold model. fold current.
    assert (Hall : forall (R : Z -> Z -> Prop), (forall x, R x x) ->
                   List.Forall (R current) [current])
      by (intros R HR; apply List.Forall_cons; [apply HR | apply List.Forall_nil]).
    repeat split; auto.
    + apply (Hall Z.le). intros x. lia.
    + apply (Hall (fun a b => b <= a)). intros x. lia.
  - rewrite Nat.iter_succ. apply edgeStep_invariant, IH.
Qed.

(** C5. With the min gas price stored, [CalculateEdgeGasPriceAfterBlocks]
    returns an error exactly when [after] exceeds the short EMA block
    length. Otherwise it returns a pair [(low, high)] in the denom of the
    min gas price with [low ≤ high], where [low] is the minimum and [high]
    the maximum of the model price over the current EMAs and over both
    extreme trajectories (every block at max gas, every block at zero gas)
    for the effective number of blocks: [after], or the short EMA block
    length when [after] is zero. *)
Theorem CalculateEdgeGasPriceAfterBlocks_edges
    (st : feemodel.State) (after : N) (price : sdk.DecCoin)
    (Hprice : feemodel.gasPrice st = Some price) :
  let shortLength := feemodel.ShortEmaBlockLength (feemodel.Model (feemodel.params st)) in
  ((exists e, feemodel.CalculateEdgeGasPriceAfterBlocks st after = feemodel.Failed e)
   <-> (shortLength < after)%N)
  /\ ((after <= shortLength)%N ->
      exists low high,
        feemodel.CalculateEdgeGasPriceAfterBlocks st after
        = feemodel.Returned (sdk.NewDecCoinFromDec (sdk.DecDenom price) low,
                             sdk.NewDecCoinFromDec (sdk.DecDenom price) high)
        /\ low <= high
        /\ isMinimumOf low (edgeCandidates st (effectiveBlocks st after))
        /\ isMaximumOf high (edgeCandidates st (effectiveBlocks st after))).
Proof.
  intros shortLength.
  unfold feemodel.CalculateEdgeGasPriceAfterBlocks, feemodel.GetMinGasPrice,
    feemodel.GetParams.
  rewrite Hprice. fold shortLength.
  destruct (shortLength <? after)%N eqn:Hcmp.
  - apply N.ltb_lt in Hcmp. split.
    + split; [intros _; exact Hcmp | intros _; eexists; reflexivity].
    + intros Hle. lia.
  - apply N.ltb_ge in Hcmp. split.
    + split; [intros [e He]; discriminate | intros Hlt; lia].
    + intros _.
      pose proof (edge_loop_invariant st (effectiveBlocks st after)) as Hinv.
      cbv zeta in Hinv.
      destruct Hinv as (_ & _ & _ & _ & Hlow & Hhigh).
      eexists. eexists. split; [reflexivity |].
      split; [| split; [exact Hlow | exact Hhigh]].
      destruct Hlow as [Hin _]. destruct Hhigh as [_ Hall].
      rewrite List.Forall_forall in Hall. apply Hall, Hin.
Qed.

End FeeModel.

(** ** The good-til scheduler *)

Section GoodTil.

(** *** Sums over the book *)

Lemma total_empty (f : dex.Order -> Z) : total f ∅ = 0.
Proof. unfold total. apply map_fold_empty. Qed.

Lemma total_insert (f : dex.Order -> Z) (book : gmap N dex.Order) (s : N)
    (order : dex.Order) :
  book !! s = None -> total f (<[s := order]> book) = f order + total f book.
Proof.
  intros Hfresh. unfold total.
  rewrite (map_fold_insert_L (fun _ order acc => f order + acc)); [reflexivity | | exact Hfresh].
  intros. lia.
Qed.

Lemma total_delete (f : dex.Order -> Z) (book : gmap N dex.Order) (s : N)
    (order : dex.Order) :
  book !! s = Some order -> total f book = f order + total f (delete s book).
Proof.
  intros Hopen. unfold total.
  rewrite (map_fold_delete_L (fun _ order acc => f order + acc) 0 s order book);
    [reflexivity | | exact Hopen].
  intros. lia.
Qed.

Lemma total_non_negative (f : dex.Order -> Z) (book : gmap N dex.Order) :
  (forall s order, book !! s = Some order -> 0 <= f order) -> 0 <= total f book.
Proof.
  induction book as [| s order book Hfresh IH] using map_ind; intros Hf.
  - rewrite total_empty. lia.
  - rewrite total_insert by exact Hfresh.
    assert (0 <= f order) by (apply (Hf s); apply lookup_insert_eq).
    assert (0 <= total f book).
    { apply IH. intros s' order' Hopen. apply (Hf s').
      rewrite lookup_insert_ne; [exact Hopen |]. intros <-. congruence. }
    lia.
Qed.

Lemma total_subseteq (f : dex.Order -> Z) (book' : gmap N dex.Order) :
  forall book,
    book' ⊆ book ->
    (forall s order, book !! s = Some order -> 0 <= f order) ->
    total f book' <= total f book.
Proof.
  induction book' as [| s order book' Hfresh IH] using map_ind; intros book Hsub Hf.
  - rewrite total_empty. apply total_non_negative. exact Hf.
  - assert (Hopen : book !! s = Some order).
    { apply (lookup_weaken (<[s := order]> book')); [apply lookup_insert_eq | exact Hsub]. }
    rewrite total_insert by exact Hfresh.
    rewrite (total_delete f book s order Hopen).
    assert (total f book' <= total f (delete s book)); [| lia].
    apply IH.
    + apply map_subseteq_spec. intros s' order' Hopen'.
      assert (s' <> s) by (intros ->; congruence).
      rewrite lookup_delete_ne by congruence.
      apply (lookup_weaken (<[s := order]> book')); [| exact Hsub].
      rewrite lookup_insert_ne by congruence. exact Hopen'.
    + intros s' order' Hopen'. apply lookup_delete_Some in Hopen' as [_ Hopen'].
      apply (Hf s'). exact Hopen'.
Qed.

(** *** The bank, the locks and the user cancel *)

Lemma dex_SendCoins_spec (fromAddr toAddr : string) (coin : sdk.Coin) (st : dex.State) :
  sdk.Amount coin <= dex.balanceOf st fromAddr (sdk.Denom coin) ->
  fromAddr <> toAddr ->
  exists m,
    dex.SendCoins fromAddr toAddr coin st = Ok (dex.withBalances m st)
    /\ forall a d,
         default 0 (m !! (a, d))
         = dex.balanceOf st a d
           - (if bool_decide ((a, d) = (fromAddr, sdk.Denom coin)) then sdk.Amount coin else 0)
           + (if bool_decide ((a, d) = (toAddr, sdk.Denom coin)) then sdk.Amount coin else 0).
Proof.
  intros Hle Hne. unfold dex.SendCoins.
  replace (dex.balanceOf st fromAddr (sdk.Denom coin) <? sdk.Amount coin) with false
    by (symmetry; apply Z.ltb_ge; lia).
  simpl. eexists. split; [reflexivity |].
  intros a d. unfold dex.balanceOf. simpl.
  destruct (decide ((a, d) = (toAddr, sdk.Denom coin))) as [Hto | Hto].
  - rewrite Hto, lookup_insert_eq. simpl.
    rewrite lookup_insert_ne by congruence.
    rewrite (bool_decide_false (_ = (fromAddr, _))) by congruence.
    rewrite bool_decide_true by reflexivity. lia.
  - rewrite lookup_insert_ne by congruence.
    rewrite (bool_decide_false (_ = (toAddr, _))) by exact Hto.
    destruct (decide ((a, d) = (fromAddr, sdk.Denom coin))) as [Hfrom | Hfrom].
    + rewrite Hfrom, lookup_insert_eq. rewrite bool_decide_true by reflexivity.
      simpl. lia.
    + rewrite lookup_insert_ne by congruence.
      rewrite bool_decide_false by exact Hfrom. lia.
Qed.

(** what the open orders of an account lock includes the lock of each *)
Lemma openLocked_covers (st : dex.State) (s : N) (order : dex.Order) :
  solvent st ->
  dex.orders st !! s = Some order ->
  dex.RemainingSpendableBalance order
  <= dex.lockedOf st (dex.Creator order) (dex.lockedDenom order).
Proof.
  intros Hsolvent Hopen.
  pose proof (solvent_locked st Hsolvent (dex.Creator order) (dex.lockedDenom order)) as Hcover.
  unfold openLocked in Hcover.
  rewrite (total_delete _ _ s order Hopen) in Hcover.
  assert (0 <= total (lockOf (dex.Creator order) (dex.lockedDenom order))
                 (delete s (dex.orders st))).
  { apply total_non_negative. intros s' order' Hopen'.
    apply lookup_delete_Some in Hopen' as [_ Hopen'].
    destruct (solvent_orders st Hsolvent s' order' Hopen') as (_ & _ & _ & Hlock & _).
    unfold lockOf. case_bool_decide; lia. }
  unfold lockOf at 1 in Hcover. rewrite bool_decide_true in Hcover by (split; reflexivity).
  lia.
Qed.

(** the module account holds the reserve of each open order *)
Lemma heldReserve_covers (st : dex.State) (s : N) (order : dex.Order) :
  solvent st ->
  dex.orders st !! s = Some order ->
  sdk.Amount (dex.Reserve order)
  <= dex.balanceOf st dex.ModuleName (sdk.Denom (dex.Reserve order)).
Proof.
  intros Hsolvent Hopen.
  pose proof (solvent_reserve st Hsolvent (sdk.Denom (dex.Reserve order))) as Hcover.
  unfold heldReserve in Hcover.
  rewrite (total_delete _ _ s order Hopen) in Hcover.
  assert (0 <= total (heldOf (sdk.Denom (dex.Reserve order))) (delete s (dex.orders st))).
  { apply total_non_negative. intros s' order' Hopen'.
    apply lookup_delete_Some in Hopen' as [_ Hopen'].
    destruct (solvent_orders st Hsolvent s' order' Hopen') as (_ & _ & _ & _ & Hreserve).
    unfold heldOf. case_bool_decide; lia. }
  unfold heldOf at 1 in Hcover. rewrite bool_decide_true in Hcover by reflexivity.
  lia.
Qed.

(** The user cancel of an open order by its creator, on a solvent book:
    it succeeds, takes the order off the book and off both indexes,
    tombstones the id, releases the lock of the order and returns its
    reserve from the module account. *)
Lemma CancelOrderBySequence_spec (st : dex.State) (s : N) (order : dex.Order) :
  solvent st ->
  dex.orders st !! s = Some order ->
  exists st',
    dex.CancelOrderBySequence (dex.Creator order) s st = Ok st'
    /\ dex.orders st' = delete s (dex.orders st)
    /\ dex.goodTilByHeight st'
       = filter (fun entry => dex.OrderSequence entry.2 ≠ s) (dex.goodTilByHeight st)
    /\ dex.goodTilByTime st'
       = filter (fun entry => dex.OrderSequence entry.2 ≠ s) (dex.goodTilByTime st)
    /\ dex.reservedOrderIDs st'
       = {[ (dex.Creator order, dex.ID order) ]} ∪ dex.reservedOrderIDs st
    /\ dex.orderSequence st' = dex.orderSequence st
    /\ dex.orderReserve st' = dex.orderReserve st
    /\ (forall a d, dex.lockedOf st' a d = dex.lockedOf st a d - lockOf a d order)
    /\ (forall a d,
           a <> dex.ModuleName ->
           dex.balanceOf st' a d = dex.balanceOf st a d + reserveOf a d order)
    /\ (forall d,
           dex.balanceOf st' dex.ModuleName d
           = dex.balanceOf st dex.ModuleName d - heldOf d order).
Proof.
  intros Hsolvent Hopen.
  destruct (solvent_orders st Hsolvent s order Hopen) as (_ & _ & Hmodule & _ & _).
  pose proof (openLocked_covers st s order Hsolvent Hopen) as Hlock.
  pose proof (heldReserve_covers st s order Hsolvent Hopen) as Hreserve.
  unfold dex.CancelOrderBySequence. rewrite Hopen.
  rewrite bool_decide_true by reflexivity. simpl.
  unfold dex.DecreaseDEXLocked. simpl.
  replace (dex.lockedOf st (dex.Creator order) (dex.lockedDenom order)
           - dex.RemainingSpendableBalance order <? 0) with false
    by (symmetry; apply Z.ltb_ge; lia).
  simpl.
  set (stL := dex.withDexLocked _ st).
  destruct (dex_SendCoins_spec dex.ModuleName (dex.Creator order) (dex.Reserve order) stL)
    as (m & -> & Hm); [exact Hreserve | congruence |].
  simpl. eexists. split; [reflexivity |]. simpl.
  split; [reflexivity |]. split; [reflexivity |]. split; [reflexivity |].
  split; [reflexivity |]. split; [reflexivity |]. split; [reflexivity |].
  split; [| split].
  - intros a d. unfold dex.lockedOf at 1. simpl. unfold lockOf.
    destruct (decide ((a, d) = (dex.Creator order, dex.lockedDenom order))) as [Heq | Hne].
    + injection Heq as -> ->. rewrite lookup_insert_eq.
      rewrite bool_decide_true by (split; reflexivity). reflexivity.
    + rewrite lookup_insert_ne by congruence.
      rewrite bool_decide_false by (intros [<- <-]; apply Hne; reflexivity).
      unfold dex.lockedOf. lia.
  - intros a d Ha. unfold dex.balanceOf at 1. simpl. rewrite Hm.
    rewrite bool_decide_false by congruence.
    unfold reserveOf, dex.balanceOf. simpl.
    destruct (decide ((a, d) = (dex.Creator order, sdk.Denom (dex.Reserve order))))
      as [Heq | Hne].
    + injection Heq as -> ->. rewrite !bool_decide_true by (try split; reflexivity). lia.
    + rewrite bool_decide_false by exact Hne.
      rewrite bool_decide_false by (intros [<- <-]; apply Hne; reflexivity). lia.
  - intros d. unfold dex.balanceOf at 1. simpl. rewrite Hm.
    rewrite (bool_decide_false (_ = (dex.Creator order, _))) by congruence.
    unfold heldOf, dex.balanceOf. simpl.
    destruct (decide (d = sdk.Denom (dex.Reserve order))) as [-> | Hne].
    + rewrite !bool_decide_true by reflexivity. lia.
    + rewrite bool_decide_false by congruence.
      rewrite bool_decide_false by congruence. lia.
Qed.

Lemma conserves_refl (st : dex.State) : conserves st st.
Proof. split; [| split]; reflexivity. Qed.

Lemma conserves_trans (st1 st2 st3 : dex.State) :
  conserves st1 st2 -> conserves st2 st3 -> conserves st1 st3.
Proof.
  intros (Ha & Hb & Hc) (Ha' & Hb' & Hc'). split; [| split].
  - intros addr denom. rewrite Ha', Ha. reflexivity.
  - intros addr denom Haddr. rewrite Hb', Hb by exact Haddr. reflexivity.
  - intros denom. rewrite Hc', Hc. reflexivity.
Qed.

(** solvency and conservation look at the book, the bank and the locks
    only *)
Lemma solvent_same (st st' : dex.State) :
  dex.orders st' = dex.orders st ->
  dex.balances st' = dex.balances st ->
  dex.dexLocked st' = dex.dexLocked st ->
  dex.orderSequence st' = dex.orderSequence st ->
  solvent st -> solvent st'.
Proof.
  intros Ho Hb Hl Hs [H1 H2 H3]. split.
  - intros s order. rewrite Ho, Hs. apply H1.
  - intros addr denom. unfold openLocked, dex.lockedOf. rewrite Ho, Hl. apply H2.
  - intros denom. unfold heldReserve, dex.balanceOf. rewrite Ho, Hb. apply H3.
Qed.

Lemma conserves_same (st st' : dex.State) :
  dex.orders st' = dex.orders st ->
  dex.balances st' = dex.balances st ->
  dex.dexLocked st' = dex.dexLocked st ->
  conserves st st'.
Proof.
  intros Ho Hb Hl.
  unfold conserves, openLocked, openReserve, heldReserve, dex.lockedOf, dex.balanceOf.
  rewrite Ho, Hb, Hl. split; [| split]; reflexivity.
Qed.

(** the user cancel keeps the book solvent and creates or loses nothing *)
Lemma CancelOrderBySequence_solvent (st st' : dex.State) (s : N) (order : dex.Order) :
  solvent st ->
  dex.orders st !! s = Some order ->
  dex.orders st' = delete s (dex.orders st) ->
  dex.orderSequence st' = dex.orderSequence st ->
  (forall a d, dex.lockedOf st' a d = dex.lockedOf st a d - lockOf a d order) ->
  (forall a d,
      a <> dex.ModuleName ->
      dex.balanceOf st' a d = dex.balanceOf st a d + reserveOf a d order) ->
  (forall d,
      dex.balanceOf st' dex.ModuleName d = dex.balanceOf st dex.ModuleName d - heldOf d order) ->
  solvent st' /\ conserves st st'.
Proof.
  intros [H1 H2 H3] Hopen Ho Hs Hlocked Hbank Hmodule.
  assert (Hsum : forall f, total f (dex.orders st) = f order + total f (dex.orders st')).
  { intros f. rewrite Ho. apply total_delete. exact Hopen. }
  split.
  - split.
    + intros s' order' Hopen'. rewrite Ho in Hopen'.
      apply lookup_delete_Some in Hopen' as [_ Hopen']. rewrite Hs. apply H1. exact Hopen'.
    + intros addr denom. specialize (H2 addr denom). unfold openLocked in *.
      rewrite Hsum in H2. rewrite Hlocked. lia.
    + intros denom. specialize (H3 denom). unfold heldReserve in *.
      rewrite Hsum in H3. rewrite Hmodule. lia.
  - split; [| split].
    + intros addr denom. unfold openLocked. rewrite (Hsum (lockOf addr denom)), Hlocked. lia.
    + intros addr denom Haddr. unfold openReserve.
      rewrite (Hsum (reserveOf addr denom)), Hbank by exact Haddr. lia.
    + intros denom. unfold heldReserve. rewrite (Hsum (heldOf denom)), Hmodule. lia.
Qed.

(** *** The handlers of the popped entries *)

Lemma filter_nil_all {A : Type} (P : A -> Prop) `{!forall x, Decision (P x)} (l : list A) :
  (forall x, x ∈ l -> ¬ P x) -> filter P l = [].
Proof.
  induction l as [| x l IH]; intros Hall; [reflexivity |].
  rewrite filter_cons_False by (apply Hall, elem_of_cons; left; reflexivity).
  apply IH. intros y Hy. apply Hall, elem_of_cons. right. exact Hy.
Qed.

Lemma filter_all {A : Type} (P : A -> Prop) `{!forall x, Decision (P x)} (l : list A) :
  (forall x, x ∈ l -> P x) -> filter P l = l.
Proof.
  induction l as [| x l IH]; intros Hall; [reflexivity |].
  rewrite filter_cons_True by (apply Hall, elem_of_cons; left; reflexivity).
  rewrite IH; [reflexivity |]. intros y Hy. apply Hall, elem_of_cons. right. exact Hy.
Qed.

(** The handlers of a list of cancel messages, each of an open order and
    no two of the same order, on a solvent book: they all succeed; the
    orders named are off the book and off both indexes, their ids are
    tombstoned, and nothing else changes but the refunds. *)
Lemma runHandlers_spec (due : list dex.CancelGoodTil) :
  forall st : dex.State,
    solvent st ->
    NoDup (dex.OrderSequence <$> due) ->
    (forall msg,
        msg ∈ due ->
        exists order,
          dex.orders st !! dex.OrderSequence msg = Some order
          /\ msg = cancelMsg (dex.OrderSequence msg) order) ->
    exists st',
      dex.runHandlers due st = Ok st'
      /\ solvent st'
      /\ conserves st st'
      /\ (forall s,
             dex.orders st' !! s
             = if bool_decide (s ∈ dex.OrderSequence <$> due) then None
               else dex.orders st !! s)
      /\ dex.goodTilByHeight st'
         = filter (fun entry => dex.OrderSequence entry.2 ∉ dex.OrderSequence <$> due)
             (dex.goodTilByHeight st)
      /\ dex.goodTilByTime st'
         = filter (fun entry => dex.OrderSequence entry.2 ∉ dex.OrderSequence <$> due)
             (dex.goodTilByTime st)
      /\ (forall creator id,
             (creator, id) ∈ dex.reservedOrderIDs st'
             <-> (creator, id) ∈ dex.reservedOrderIDs st
                 \/ exists msg order,
                      msg ∈ due
                      /\ dex.orders st !! dex.OrderSequence msg = Some order
                      /\ creator = dex.Creator order /\ id = dex.ID order)
      /\ dex.orderSequence st' = dex.orderSequence st
      /\ dex.orderReserve st' = dex.orderReserve st.
Proof.
  induction due as [| msg due IH]; intros st Hsolvent Hnodup Hopen.
  - exists st. split; [reflexivity |]. split; [exact Hsolvent |].
    split; [apply conserves_refl |].
    split.
    { intros s. case_bool_decide as Hin; [| reflexivity].
      apply not_elem_of_nil in Hin. contradiction. }
    split.
    { symmetry. apply filter_all. intros. apply not_elem_of_nil. }
    split.
    { symmetry. apply filter_all. intros. apply not_elem_of_nil. }
    split; [| split; reflexivity].
    intros creator id. split; [intros H; left; exact H |].
    intros [H | (msg & _ & Hin & _)]; [exact H |]. apply not_elem_of_nil in Hin. contradiction.
  - rewrite fmap_cons in Hnodup. apply NoDup_cons in Hnodup as [Hfresh Hnodup].
    destruct (Hopen msg) as (order & Horder & Hmsg); [apply elem_of_cons; left; reflexivity |].
    destruct (solvent_orders st Hsolvent _ order Horder) as (_ & Hcreator & _).
    destruct (CancelOrderBySequence_spec st _ order Hsolvent Horder)
      as (st1 & Hcancel & Ho1 & Hh1 & Ht1 & Hr1 & Hs1 & Hres1 & Hl1 & Hb1 & Hm1).
    destruct (CancelOrderBySequence_solvent st st1 _ order Hsolvent Horder Ho1 Hs1 Hl1 Hb1 Hm1)
      as [Hsolvent1 Hconserves1].
    destruct (IH st1 Hsolvent1 Hnodup) as
      (st' & Hrun & Hsolvent' & Hconserves' & Ho' & Hh' & Ht' & Hr' & Hs' & Hres').
    { intros msg' Hin. destruct (Hopen msg') as (order' & Horder' & Hmsg');
        [apply elem_of_cons; right; exact Hin |].
      exists order'. split; [| exact Hmsg'].
      rewrite Ho1, lookup_delete_ne; [exact Horder' |].
      intros Heq. apply Hfresh. rewrite Heq. apply list_elem_of_fmap. exists msg'.
      split; [reflexivity | exact Hin]. }
    exists st'. split.
    { simpl. unfold dex.AccAddressFromBech32.
      replace (dex.CancelCreator msg) with (dex.Creator order) by (rewrite Hmsg; reflexivity).
      rewrite bool_decide_false by exact Hcreator.
      rewrite Hcancel. simpl. exact Hrun. }
    split; [exact Hsolvent' |].
    split; [exact (conserves_trans _ _ _ Hconserves1 Hconserves') |].
    split.
    { intros s. rewrite Ho', Ho1, fmap_cons.
      destruct (decide (s = dex.OrderSequence msg)) as [-> | Hne].
      - rewrite lookup_delete_eq.
        rewrite (bool_decide_true (_ ∈ _ :: _)) by (apply elem_of_cons; left; reflexivity).
        case_bool_decide; reflexivity.
      - rewrite lookup_delete_ne by congruence.
        destruct (decide (s ∈ dex.OrderSequence <$> due)) as [Hin | Hout].
        + rewrite !bool_decide_true; [reflexivity | | exact Hin].
          apply elem_of_cons. right. exact Hin.
        + rewrite !bool_decide_false; [reflexivity | | exact Hout].
          intros Hin. apply elem_of_cons in Hin as [Heq | Hin]; [congruence | contradiction]. }
    split.
    { rewrite Hh', Hh1, list_filter_filter. apply list_filter_iff.
      intros entry. rewrite fmap_cons, not_elem_of_cons. tauto. }
    split.
    { rewrite Ht', Ht1, list_filter_filter. apply list_filter_iff.
      intros entry. rewrite fmap_cons, not_elem_of_cons. tauto. }
    split; [| split; congruence].
    intros creator id. rewrite Hr', Hr1. split.
    + intros [Hin | (msg' & order' & Hin & Horder' & Hc & Hi)].
      * apply elem_of_union in Hin as [Hin | Hin]; [| left; exact Hin].
        apply elem_of_singleton in Hin. injection Hin as -> ->.
        right. exists msg, order. split; [apply elem_of_cons; left; reflexivity |].
        split; [exact Horder |]. split; reflexivity.
      * right. exists msg', order'. split; [apply elem_of_cons; right; exact Hin |].
        split; [| split; assumption].
        rewrite Ho1 in Horder'. apply lookup_delete_Some in Horder' as [_ Horder'].
        exact Horder'.
    + intros [Hin | (msg' & order' & Hin & Horder' & Hc & Hi)].
      * left. apply elem_of_union. right. exact Hin.
      * apply elem_of_cons in Hin as [-> | Hin].
        -- left. apply elem_of_union. left. apply elem_of_singleton.
           rewrite Horder in Horder'. injection Horder' as <-. congruence.
        -- right. exists msg', order'. split; [exact Hin |]. split; [| split; assumption].
           rewrite Ho1, lookup_delete_ne; [exact Horder' |].
           intros Heq. apply Hfresh. rewrite Heq. apply list_elem_of_fmap. exists msg'.
           split; [reflexivity | exact Hin].
Qed.

(** *** The order of the popped entries *)

Lemma insertEntry_Permutation {D : Type} (ltb eqb : D -> D -> bool)
    (e : D * dex.CancelGoodTil) (l : list (D * dex.CancelGoodTil)) :
  dex.insertEntry ltb eqb e l ≡ₚ e :: l.
Proof.
  induction l as [| x l IH]; simpl; [reflexivity |].
  destruct (dex.entryLeb ltb eqb e x); [reflexivity |].
  rewrite IH. apply Permutation_swap.
Qed.

Lemma sortEntries_Permutation {D : Type} (ltb eqb : D -> D -> bool)
    (l : list (D * dex.CancelGoodTil)) :
  dex.sortEntries ltb eqb l ≡ₚ l.
Proof.
  induction l as [| x l IH]; simpl; [reflexivity |].
  unfold dex.sortEntries in *. simpl. rewrite insertEntry_Permutation, IH. reflexivity.
Qed.

Lemma sequences_sorted {D : Type} (ltb eqb : D -> D -> bool)
    (l : list (D * dex.CancelGoodTil)) :
  dex.OrderSequence <$> (dex.sortEntries ltb eqb l).*2 ≡ₚ sequencesOf l.
Proof.
  unfold sequencesOf. rewrite <- list_fmap_compose.
  apply fmap_Permutation, sortEntries_Permutation.
Qed.

Lemma elem_of_sorted {D : Type} (ltb eqb : D -> D -> bool)
    (l : list (D * dex.CancelGoodTil)) (msg : dex.CancelGoodTil) :
  msg ∈ (dex.sortEntries ltb eqb l).*2 <-> exists deadline, (deadline, msg) ∈ l.
Proof.
  rewrite (sortEntries_Permutation ltb eqb l), list_elem_of_fmap. split.
  - intros ([deadline msg'] & -> & Hin). exists deadline. exact Hin.
  - intros (deadline & Hin). exists (deadline, msg). split; [reflexivity | exact Hin].
Qed.

Lemma elem_of_sequencesOf {D : Type} (l : list (D * dex.CancelGoodTil)) (s : N) :
  s ∈ sequencesOf l <-> exists deadline msg, (deadline, msg) ∈ l /\ dex.OrderSequence msg = s.
Proof.
  unfold sequencesOf. rewrite list_elem_of_fmap. split.
  - intros ([deadline msg] & -> & Hin). exists deadline, msg. split; [exact Hin | reflexivity].
  - intros (deadline & msg & Hin & <-). exists (deadline, msg). split; [reflexivity | exact Hin].
Qed.

Lemma NoDup_sequencesOf_filter {D : Type} (P : D * dex.CancelGoodTil -> Prop)
    `{!forall x, Decision (P x)} (l : list (D * dex.CancelGoodTil)) :
  NoDup (sequencesOf l) -> NoDup (sequencesOf (filter P l)).
Proof.
  induction l as [| x l IH]; intros Hnodup; [exact Hnodup |].
  unfold sequencesOf in Hnodup. rewrite fmap_cons in Hnodup.
  apply NoDup_cons in Hnodup as [Hfresh Hnodup].
  destruct (decide (P x)) as [Hx | Hx].
  - rewrite filter_cons_True by exact Hx. unfold sequencesOf. rewrite fmap_cons.
    apply NoDup_cons. split; [| apply IH; exact Hnodup].
    intros Hin. apply Hfresh. apply elem_of_sequencesOf in Hin as (d & msg & Hin & Hs).
    apply elem_of_sequencesOf. exists d, msg. split; [| exact Hs].
    apply list_elem_of_filter in Hin as [_ Hin]. exact Hin.
  - rewrite filter_cons_False by exact Hx. apply IH. exact Hnodup.
Qed.

(** *** The begin of a block *)

(** the by-height entries that are due are those of the open orders
    whose good-til height has passed *)
Lemma due_by_height (st : dex.State) (height : N) (s : N) :
  wellFormed st ->
  s ∈ sequencesOf (filter (fun entry => (entry.1 <= height)%N) (dex.goodTilByHeight st))
  <-> exists order, dex.orders st !! s = Some order /\ heightExpired order height = true.
Proof.
  intros Hwf. rewrite elem_of_sequencesOf. split.
  - intros (deadline & msg & Hin & <-). apply list_elem_of_filter in Hin as [Hdue Hin].
    apply (wf_by_height st Hwf) in Hin as (order & goodTil & Hopen & _ & Hg & Hpos & ->).
    exists order. split; [exact Hopen |]. unfold heightExpired. rewrite Hg.
    simpl in Hdue. unfold dex.goodTilDeadline in Hdue.
    apply andb_true_intro. split; apply N.ltb_lt; lia.
  - intros (order & Hopen & Hexpired). unfold heightExpired in Hexpired.
    destruct (dex.OrderGoodTil order) as [goodTil |] eqn:Hg; [| discriminate].
    apply andb_prop in Hexpired as [Hpos Hlt].
    apply N.ltb_lt in Hpos. apply N.ltb_lt in Hlt.
    exists (dex.goodTilDeadline (dex.GoodTilBlockHeight goodTil)), (cancelMsg s order).
    split; [| reflexivity]. apply list_elem_of_filter. split.
    + simpl. unfold dex.goodTilDeadline. lia.
    + apply (wf_by_height st Hwf). exists order, goodTil.
      split; [exact Hopen |]. split; [reflexivity |]. split; [exact Hg |].
      split; [exact Hpos | reflexivity].
Qed.

(** the by-time entries that are due are those of the open orders whose
    good-til time is reached *)
Lemma due_by_time (st : dex.State) (blockTime : Z) (s : N) :
  wellFormed st ->
  s ∈ sequencesOf (filter (fun entry => entry.1 <= blockTime) (dex.goodTilByTime st))
  <-> exists order, dex.orders st !! s = Some order /\ timeExpired order blockTime = true.
Proof.
  intros Hwf. rewrite elem_of_sequencesOf. split.
  - intros (deadline & msg & Hin & <-). apply list_elem_of_filter in Hin as [Hdue Hin].
    apply (wf_by_time st Hwf) in Hin as (order & goodTil & Hopen & _ & Hg & Ht).
    exists order. split; [exact Hopen |]. unfold timeExpired. rewrite Hg, Ht.
    simpl in Hdue. apply Z.leb_le. exact Hdue.
  - intros (order & Hopen & Hexpired). unfold timeExpired in Hexpired.
    destruct (dex.OrderGoodTil order) as [goodTil |] eqn:Hg; [| discriminate].
    destruct (dex.GoodTilBlockTime goodTil) as [deadline |] eqn:Ht; [| discriminate].
    apply Z.leb_le in Hexpired.
    exists deadline, (cancelMsg s order).
    split; [| reflexivity]. apply list_elem_of_filter. split; [exact Hexpired |].
    apply (wf_by_time st Hwf). exists order, goodTil.
    split; [exact Hopen |]. split; [reflexivity |]. split; [exact Hg | exact Ht].
Qed.

(** The begin of a block on a well-formed book: it succeeds; the book
    that is left holds the open orders that did not expire, under either
    trigger; the ids of those that did are tombstoned; the invariants
    hold again, and no value is created or lost. *)
Lemma BeginBlock_spec (st : dex.State) (height : N) (blockTime : Z) :
  wellFormed st ->
  exists st',
    dex.BeginBlock height blockTime st = Ok st'
    /\ wellFormed st'
    /\ conserves st st'
    /\ dex.orders st' = unexpired st height blockTime
    /\ (forall creator id,
           (creator, id) ∈ dex.reservedOrderIDs st'
           <-> (creator, id) ∈ dex.reservedOrderIDs st
               \/ tombstonedAt st height blockTime creator id)
    /\ dex.orderSequence st' = dex.orderSequence st
    /\ dex.orderReserve st' = dex.orderReserve st.
Proof.
  intros Hwf. pose proof (wf_solvent st Hwf) as Hsolvent.
  unfold dex.BeginBlock. cbv zeta.
  set (dueH := filter (fun entry : N * dex.CancelGoodTil => (entry.1 <= height)%N)
                 (dex.goodTilByHeight st)).
  set (st1 := dex.withGoodTilByHeight _ st).
  assert (HseqH : forall s,
             s ∈ dex.OrderSequence <$> (dex.sortEntries N.ltb N.eqb dueH).*2
             <-> exists order,
                  dex.orders st !! s = Some order /\ heightExpired order height = true).
  { intros s. rewrite (sequences_sorted N.ltb N.eqb dueH). apply due_by_height. exact Hwf. }
  destruct (runHandlers_spec (dex.sortEntries N.ltb N.eqb dueH).*2 st1)
    as (st2 & Hrun1 & Hsolvent2 & Hconserves2 & Ho2 & Hh2 & Ht2 & Hr2 & Hs2 & Hres2).
  { apply (solvent_same st); try reflexivity. exact Hsolvent. }
  { rewrite (sequences_sorted N.ltb N.eqb dueH).
    apply NoDup_sequencesOf_filter, (wf_by_height_once st Hwf). }
  { intros msg Hin. apply elem_of_sorted in Hin as (deadline & Hin).
    apply list_elem_of_filter in Hin as [_ Hin].
    apply (wf_by_height st Hwf) in Hin as (order & _ & Hopen & Hmsg & _).
    exists order. split; [exact Hopen | exact Hmsg]. }
  rewrite Hrun1. cbv beta iota delta [bind].
  set (dueT := filter (fun entry : Z * dex.CancelGoodTil => entry.1 <= blockTime)
                 (dex.goodTilByTime st2)).
  set (st3 := dex.withGoodTilByTime _ st2).
  change (dex.orders st1) with (dex.orders st) in Ho2.
  change (dex.goodTilByTime st1) with (dex.goodTilByTime st) in Ht2.
  change (dex.reservedOrderIDs st1) with (dex.reservedOrderIDs st) in Hr2.
  change (dex.orders st1) with (dex.orders st) in Hr2.
  change (dex.orderSequence st1) with (dex.orderSequence st) in Hs2.
  change (dex.orderReserve st1) with (dex.orderReserve st) in Hres2.
  assert (HinT : forall deadline msg,
             (deadline, msg) ∈ dueT
             <-> (deadline, msg) ∈ dex.goodTilByTime st
                 /\ deadline <= blockTime
                 /\ dex.OrderSequence msg
                      ∉ dex.OrderSequence <$> (dex.sortEntries N.ltb N.eqb dueH).*2).
  { intros deadline msg. unfold dueT. rewrite Ht2, !list_elem_of_filter. simpl. tauto. }
  assert (HseqT : forall s,
             s ∈ dex.OrderSequence <$> (dex.sortEntries Z.ltb Z.eqb dueT).*2
             <-> exists order,
                  dex.orders st !! s = Some order
                  /\ heightExpired order height = false
                  /\ timeExpired order blockTime = true).
  { intros s. rewrite (sequences_sorted Z.ltb Z.eqb dueT), elem_of_sequencesOf. split.
    - intros (deadline & msg & Hin & <-). apply HinT in Hin as (Hin & Hdue & Hnot).
      assert (Hs : dex.OrderSequence msg
                     ∈ sequencesOf (filter (fun entry => entry.1 <= blockTime)
                                      (dex.goodTilByTime st))).
      { apply elem_of_sequencesOf. exists deadline, msg. split; [| reflexivity].
        apply list_elem_of_filter. split; [exact Hdue | exact Hin]. }
      apply (due_by_time st blockTime _ Hwf) in Hs as (order & Hopen & Hexpired).
      exists order. split; [exact Hopen |]. split; [| exact Hexpired].
      destruct (heightExpired order height) eqn:Hheight; [| reflexivity].
      exfalso. apply Hnot, HseqH. exists order. split; assumption.
    - intros (order & Hopen & Hheight & Htime).
      assert (Hs : s ∈ sequencesOf (filter (fun entry => entry.1 <= blockTime)
                                      (dex.goodTilByTime st))).
      { apply (due_by_time st blockTime s Hwf). exists order. split; assumption. }
      apply elem_of_sequencesOf in Hs as (deadline & msg & Hin & <-).
      apply list_elem_of_filter in Hin as [Hdue Hin].
      exists deadline, msg. split; [| reflexivity]. apply HinT.
      split; [exact Hin |]. split; [exact Hdue |].
      intros Hs. apply HseqH in Hs as (order' & Hopen' & Hheight').
      rewrite Hopen in Hopen'. injection Hopen' as <-. congruence. }
  destruct (runHandlers_spec (dex.sortEntries Z.ltb Z.eqb dueT).*2 st3)
    as (st4 & Hrun2 & Hsolvent4 & Hconserves4 & Ho4 & Hh4 & Ht4 & Hr4 & Hs4 & Hres4).
  { apply (solvent_same st2); try reflexivity. exact Hsolvent2. }
  { rewrite (sequences_sorted Z.ltb Z.eqb dueT). unfold dueT. rewrite Ht2.
    apply NoDup_sequencesOf_filter, NoDup_sequencesOf_filter, (wf_by_time_once st Hwf). }
  { intros msg Hin. apply elem_of_sorted in Hin as (deadline & Hin).
    apply HinT in Hin as (Hin & _ & Hnot).
    apply (wf_by_time st Hwf) in Hin as (order & _ & Hopen & Hmsg & _).
    exists order. split; [| exact Hmsg].
    change (dex.orders st3) with (dex.orders st2).
    rewrite Ho2, bool_decide_false by exact Hnot. exact Hopen. }
  change (dex.orders st3) with (dex.orders st2) in Ho4.
  change (dex.goodTilByHeight st3) with (dex.goodTilByHeight st2) in Hh4.
  change (dex.reservedOrderIDs st3) with (dex.reservedOrderIDs st2) in Hr4.
  change (dex.orderSequence st3) with (dex.orderSequence st2) in Hs4.
  change (dex.orderReserve st3) with (dex.orderReserve st2) in Hres4.
  assert (Hbook : forall s order,
             dex.orders st4 !! s = Some order
             <-> dex.orders st !! s = Some order
                 /\ expired order height blockTime = false).
  { intros s order. rewrite Ho4, Ho2. unfold expired. split.
    - intros Hopen.
      destruct (decide (s ∈ dex.OrderSequence <$> (dex.sortEntries Z.ltb Z.eqb dueT).*2))
        as [HT | HT]; [rewrite bool_decide_true in Hopen by exact HT; discriminate |].
      rewrite bool_decide_false in Hopen by exact HT.
      destruct (decide (s ∈ dex.OrderSequence <$> (dex.sortEntries N.ltb N.eqb dueH).*2))
        as [HH | HH]; [rewrite bool_decide_true in Hopen by exact HH; discriminate |].
      rewrite bool_decide_false in Hopen by exact HH.
      split; [exact Hopen |].
      destruct (heightExpired order height) eqn:Hheight.
      { exfalso. apply HH, HseqH. exists order. split; assumption. }
      destruct (timeExpired order blockTime) eqn:Htime; [| reflexivity].
      exfalso. apply HT, HseqT. exists order. split; [| split]; assumption.
    - intros [Hopen Hexpired]. apply orb_false_elim in Hexpired as [Hheight Htime].
      rewrite bool_decide_false.
      + rewrite bool_decide_false; [exact Hopen |].
        intros HH. apply HseqH in HH as (order' & Hopen' & Hheight').
        rewrite Hopen in Hopen'. injection Hopen' as <-. congruence.
      + intros HT. apply HseqT in HT as (order' & Hopen' & _ & Htime').
        rewrite Hopen in Hopen'. injection Hopen' as <-. congruence. }
  exists st4. split; [exact Hrun2 |].
  split; [| split; [| split; [| split; [| split; congruence]]]].
  - split.
    + exact Hsolvent4.
    + rewrite Hres4, Hres2. apply (wf_order_reserve st Hwf).
    + intros deadline msg. rewrite Hh4, Hh2. unfold st1 at 1. simpl.
      rewrite !list_elem_of_filter. simpl. split.
      * intros (HT & HH & Hdue & Hin).
        apply (wf_by_height st Hwf) in Hin as (order & goodTil & Hopen & Hmsg & Hrest).
        exists order, goodTil. split; [| split; [exact Hmsg | exact Hrest]].
        rewrite Ho4, Ho2, !bool_decide_false by assumption. exact Hopen.
      * intros (order & goodTil & Hopen & Hmsg & Hg & Hpos & Hdeadline).
        apply Hbook in Hopen as [Hopen Hexpired].
        apply orb_false_elim in Hexpired as [Hheight Htime].
        split; [| split; [| split]].
        -- intros HT. apply HseqT in HT as (order' & Hopen' & _ & Htime').
           rewrite Hopen in Hopen'. injection Hopen' as <-. congruence.
        -- intros HH. apply HseqH in HH as (order' & Hopen' & Hheight').
           rewrite Hopen in Hopen'. injection Hopen' as <-. congruence.
        -- intros Hdue. unfold heightExpired in Hheight. rewrite Hg in Hheight.
           apply andb_false_iff in Hheight as [Hheight | Hheight];
             apply N.ltb_ge in Hheight; unfold dex.goodTilDeadline in Hdeadline; lia.
        -- apply (wf_by_height st Hwf). exists order, goodTil.
           split; [exact Hopen |]. split; [exact Hmsg |]. split; [exact Hg |].
           split; [exact Hpos | exact Hdeadline].
    + intros deadline msg. rewrite Ht4. unfold st3 at 1. simpl.
      rewrite Ht2, !list_elem_of_filter. simpl. split.
      * intros (HT & Hdue & HH & Hin).
        apply (wf_by_time st Hwf) in Hin as (order & goodTil & Hopen & Hmsg & Hrest).
        exists order, goodTil. split; [| split; [exact Hmsg | exact Hrest]].
        rewrite Ho4, Ho2, !bool_decide_false by assumption. exact Hopen.
      * intros (order & goodTil & Hopen & Hmsg & Hg & Hdeadline).
        apply Hbook in Hopen as [Hopen Hexpired].
        apply orb_false_elim in Hexpired as [Hheight Htime].
        split; [| split; [| split]].
        -- intros HT. apply HseqT in HT as (order' & Hopen' & _ & Htime').
           rewrite Hopen in Hopen'. injection Hopen' as <-. congruence.
        -- intros Hdue. unfold timeExpired in Htime. rewrite Hg, Hdeadline in Htime.
           apply Z.leb_gt in Htime. lia.
        -- intros HH. apply HseqH in HH as (order' & Hopen' & Hheight').
           rewrite Hopen in Hopen'. injection Hopen' as <-. congruence.
        -- apply (wf_by_time st Hwf). exists order, goodTil.
           split; [exact Hopen |]. split; [exact Hmsg |]. split; [exact Hg | exact Hdeadline].
    + rewrite Hh4, Hh2. unfold st1 at 1. simpl.
      apply NoDup_sequencesOf_filter, NoDup_sequencesOf_filter, NoDup_sequencesOf_filter,
        (wf_by_height_once st Hwf).
    + rewrite Ht4. unfold st3 at 1. simpl. rewrite Ht2.
      apply NoDup_sequencesOf_filter, NoDup_sequencesOf_filter, NoDup_sequencesOf_filter,
        (wf_by_time_once st Hwf).
  - apply (conserves_trans st st1); [apply conserves_same; reflexivity |].
    apply (conserves_trans st1 st2); [exact Hconserves2 |].
    apply (conserves_trans st2 st3); [apply conserves_same; reflexivity |].
    exact Hconserves4.
  - apply map_eq. intros s. apply option_eq. intros order.
    rewrite Hbook. unfold unexpired. rewrite map_lookup_filter_Some. simpl. reflexivity.
  - intros creator id. rewrite Hr4, Hr2. unfold tombstonedAt, expired. split.
    + intros [[Hin | (msg & order & Hin & Hopen & Hc & Hi)]
             | (msg & order & Hin & Hopen & Hc & Hi)].
      * left. exact Hin.
      * right. exists (dex.OrderSequence msg), order. split; [exact Hopen |].
        split; [| split; assumption].
        assert (HH : dex.OrderSequence msg
                       ∈ dex.OrderSequence <$> (dex.sortEntries N.ltb N.eqb dueH).*2).
        { apply list_elem_of_fmap. exists msg. split; [reflexivity | exact Hin]. }
        apply HseqH in HH as (order' & Hopen' & Hheight').
        rewrite Hopen in Hopen'. injection Hopen' as <-. rewrite Hheight'. reflexivity.
      * assert (HT : dex.OrderSequence msg
                       ∈ dex.OrderSequence <$> (dex.sortEntries Z.ltb Z.eqb dueT).*2).
        { apply list_elem_of_fmap. exists msg. split; [reflexivity | exact Hin]. }
        apply HseqT in HT as (order' & Hopen' & Hheight' & Htime').
        change (dex.orders st3) with (dex.orders st2) in Hopen. rewrite Ho2 in Hopen.
        case_bool_decide; [discriminate |].
        rewrite Hopen in Hopen'. injection Hopen' as <-.
        right. exists (dex.OrderSequence msg), order. split; [exact Hopen |].
        split; [| split; assumption]. rewrite Htime'. apply orb_true_r.
    + intros [Hin | (s & order & Hopen & Hexpired & Hc & Hi)]; [left; left; exact Hin |].
      destruct (heightExpired order height) eqn:Hheight.
      * left. right.
        assert (HH : s ∈ dex.OrderSequence <$> (dex.sortEntries N.ltb N.eqb dueH).*2).
        { apply HseqH. exists order. split; assumption. }
        apply list_elem_of_fmap in HH as (msg & -> & Hin).
        exists msg, order. split; [exact Hin |]. split; [exact Hopen |]. split; assumption.
      * simpl in Hexpired. right.
        assert (HT : s ∈ dex.OrderSequence <$> (dex.sortEntries Z.ltb Z.eqb dueT).*2).
        { apply HseqT. exists order. split; [| split]; assumption. }
        apply list_elem_of_fmap in HT as (msg & -> & Hin).
        exists msg, order. split; [exact Hin |]. split; [| split; assumption].
        change (dex.orders st3) with (dex.orders st2). rewrite Ho2.
        rewrite bool_decide_false; [exact Hopen |].
        intros HH. apply HseqH in HH as (order' & Hopen' & Hheight').
        rewrite Hopen in Hopen'. injection Hopen' as <-. congruence.
Qed.

(** *** Placement *)

(** the entries of the indexes name sequences that were given out *)
Lemma by_height_given_out (st : dex.State) (entry : N * dex.CancelGoodTil) :
  wellFormed st ->
  entry ∈ dex.goodTilByHeight st ->
  (dex.OrderSequence entry.2 <= dex.orderSequence st)%N.
Proof.
  intros Hwf Hin. destruct entry as [deadline msg].
  apply (wf_by_height st Hwf) in Hin as (order & _ & Hopen & _).
  apply (solvent_orders st (wf_solvent st Hwf) _ order Hopen).
Qed.

Lemma by_time_given_out (st : dex.State) (entry : Z * dex.CancelGoodTil) :
  wellFormed st ->
  entry ∈ dex.goodTilByTime st ->
  (dex.OrderSequence entry.2 <= dex.orderSequence st)%N.
Proof.
  intros Hwf Hin. destruct entry as [deadline msg].
  apply (wf_by_time st Hwf) in Hin as (order & _ & Hopen & _).
  apply (solvent_orders st (wf_solvent st Hwf) _ order Hopen).
Qed.

(** the denom and the sign of the balance a limit order locks *)
Lemma ComputeLimitOrderLockedBalance_coin (order : dex.Order) (coin : sdk.Coin) :
  dex.ComputeLimitOrderLockedBalance order = Ok coin ->
  0 < dex.Quantity order ->
  (forall price, dex.OrderPrice order = Some price -> 0 <= dex.Mantissa price) ->
  sdk.Denom coin = dex.lockedDenom order /\ 0 <= sdk.Amount coin.
Proof.
  unfold dex.ComputeLimitOrderLockedBalance, dex.lockedDenom. intros Hcoin Hq Hprice.
  destruct (dex.OrderPrice order) as [price |]; [| discriminate].
  specialize (Hprice price eq_refl).
  destruct (dex.OrderSide order); injection Hcoin as <-; simpl.
  - split; [reflexivity |]. unfold dex.MultiplyToInteger.
    destruct (0 <=? dex.Exponent price) eqn:He; simpl.
    + apply Z.leb_le in He.
      assert (0 <= 10 ^ dex.Exponent price) by (apply Z.pow_nonneg; lia). nia.
    + apply Z.leb_gt in He.
      assert (0 < 10 ^ (- dex.Exponent price)) by (apply Z.pow_pos_nonneg; lia).
      assert ((- (dex.Mantissa price * dex.Quantity order)) / 10 ^ (- dex.Exponent price) <= 0);
        [| lia].
      apply Z.div_le_upper_bound; [assumption | nia].
  - split; [reflexivity | lia].
Qed.

(** A placement that succeeds on a well-formed book parks the order under
    the next sequence with its full quantity, its lock and the reserve,
    and keeps the invariants; the lock and the reserve it takes are those
    of the parked order, so that no value is created or lost. *)
Lemma PlaceOrder_spec (st st' : dex.State) (order : dex.Order) :
  wellFormed st ->
  dex.Creator order <> EmptyString ->
  dex.Creator order <> dex.ModuleName ->
  (forall price, dex.OrderPrice order = Some price -> 0 <= dex.Mantissa price) ->
  dex.PlaceOrder order st = Ok st' ->
  exists lockedBalance,
    dex.ComputeLimitOrderLockedBalance order = Ok lockedBalance
    /\ dex.orders st'
       = <[(dex.orderSequence st + 1)%N := parkedOrder st order (sdk.Amount lockedBalance)]>
           (dex.orders st)
    /\ dex.orders st !! (dex.orderSequence st + 1)%N = None
    /\ dex.orderSequence st' = (dex.orderSequence st + 1)%N
    /\ dex.reservedOrderIDs st' = dex.reservedOrderIDs st
    /\ dex.orderReserve st' = dex.orderReserve st
    /\ wellFormed st'
    /\ conserves st st'.
Proof.
  intros Hwf Hcreator Hmodule Hprice Hplace.
  pose proof (wf_solvent st Hwf) as Hsolvent.
  pose proof (wf_order_reserve st Hwf) as Hreserve.
  unfold dex.PlaceOrder in Hplace.
  destruct (bool_decide (dex.OrderTimeInForce order = dex.TIME_IN_FORCE_GTC));
    [| discriminate].
  destruct (dex.Quantity order <=? 0) eqn:Hq; [discriminate |]. apply Z.leb_gt in Hq.
  destruct (dex.orderIDInUse st (dex.Creator order) (dex.ID order)); [discriminate |].
  destruct (dex.ComputeLimitOrderLockedBalance order) as [lockedBalance | e] eqn:Hcoin;
    [| discriminate].
  destruct (ComputeLimitOrderLockedBalance_coin order lockedBalance Hcoin Hq Hprice)
    as [Hdenom Hamount].
  cbv beta iota zeta delta [bind failIf negb] in Hplace.
  destruct (Z.lt_ge_cases (dex.balanceOf st (dex.Creator order) (sdk.Denom (dex.orderReserve st)))
              (sdk.Amount (dex.orderReserve st))) as [Hpoor | Hrich].
  { unfold dex.SendCoins in Hplace. apply Z.ltb_lt in Hpoor. rewrite Hpoor in Hplace.
    discriminate. }
  destruct (dex_SendCoins_spec (dex.Creator order) dex.ModuleName (dex.orderReserve st) st
              Hrich Hmodule) as (m & Hsend & Hm).
  rewrite Hsend in Hplace. unfold dex.IncreaseDEXLocked in Hplace.
  cbv beta iota zeta delta [bind failIf] in Hplace.
  destruct (dex.balanceOf (dex.withBalances m st) (dex.Creator order) (sdk.Denom lockedBalance)
            - dex.lockedOf (dex.withBalances m st) (dex.Creator order) (sdk.Denom lockedBalance)
            <? sdk.Amount lockedBalance); [discriminate |].
  injection Hplace as <-. simpl.
  set (seq := (dex.orderSequence st + 1)%N).
  assert (Hfresh : dex.orders st !! seq = None).
  { destruct (dex.orders st !! seq) as [order' |] eqn:Hopen; [| reflexivity].
    destruct (solvent_orders st Hsolvent seq order' Hopen) as (Hle & _). unfold seq in Hle. lia. }
  exists lockedBalance. split; [reflexivity |]. split; [reflexivity |].
  split; [exact Hfresh |]. split; [reflexivity |]. split; [reflexivity |].
  split; [reflexivity |].
  set (parked := parkedOrder st order (sdk.Amount lockedBalance)).
  match goal with |- wellFormed ?s /\ _ => set (st' := s) end.
  assert (Hsum : forall f, total f (dex.orders st') = f parked + total f (dex.orders st)).
  { intros f. apply total_insert. exact Hfresh. }
  assert (Hlocked : forall a d, dex.lockedOf st' a d = dex.lockedOf st a d + lockOf a d parked).
  { intros a d. unfold dex.lockedOf at 1. simpl. unfold lockOf.
    change (dex.lockedDenom parked) with (dex.lockedDenom order).
    change (dex.Creator parked) with (dex.Creator order).
    change (dex.RemainingSpendableBalance parked) with (sdk.Amount lockedBalance).
    rewrite <- Hdenom.
    destruct (decide ((a, d) = (dex.Creator order, sdk.Denom lockedBalance))) as [Heq | Hne].
    - injection Heq as -> ->. rewrite lookup_insert_eq.
      rewrite bool_decide_true by (split; reflexivity). reflexivity.
    - rewrite lookup_insert_ne by congruence.
      rewrite bool_decide_false by (intros [<- <-]; apply Hne; reflexivity).
      unfold dex.lockedOf. simpl. lia. }
  assert (Hbank : forall a d,
             a <> dex.ModuleName ->
             dex.balanceOf st' a d = dex.balanceOf st a d - reserveOf a d parked).
  { intros a d Ha. unfold dex.balanceOf at 1. simpl. rewrite Hm. unfold reserveOf.
    change (dex.Creator parked) with (dex.Creator order).
    change (dex.Reserve parked) with (dex.orderReserve st).
    rewrite (bool_decide_false (_ = (dex.ModuleName, _))) by congruence.
    destruct (decide ((a, d) = (dex.Creator order, sdk.Denom (dex.orderReserve st))))
      as [Heq | Hne].
    - injection Heq as -> ->. rewrite !bool_decide_true by (try split; reflexivity). lia.
    - rewrite bool_decide_false by exact Hne.
      rewrite bool_decide_false by (intros [<- <-]; apply Hne; reflexivity). lia. }
  assert (Hheld : forall d,
             dex.balanceOf st' dex.ModuleName d
             = dex.balanceOf st dex.ModuleName d + heldOf d parked).
  { intros d. unfold dex.balanceOf at 1. simpl. rewrite Hm. unfold heldOf.
    change (dex.Reserve parked) with (dex.orderReserve st).
    rewrite (bool_decide_false (_ = (dex.Creator order, _))) by congruence.
    destruct (decide (d = sdk.Denom (dex.orderReserve st))) as [-> | Hne].
    - rewrite !bool_decide_true by reflexivity. lia.
    - rewrite bool_decide_false by congruence.
      rewrite bool_decide_false by congruence. lia. }
  assert (Hbook : forall s order',
             dex.orders st' !! s = Some order'
             <-> (s = seq /\ order' = parked) \/ (s <> seq /\ dex.orders st !! s = Some order')).
  { intros s order'. unfold st'. simpl. fold seq. fold parked.
    destruct (decide (s = seq)) as [-> | Hne].
    - rewrite lookup_insert_eq. split.
      + intros Heq. injection Heq as <-. left. split; reflexivity.
      + intros [[_ ->] | [Hne _]]; [reflexivity | contradiction].
    - rewrite lookup_insert_ne by congruence. split.
      + intros Hopen. right. split; assumption.
      + intros [[Heq _] | [_ Hopen]]; [contradiction | exact Hopen]. }
  split.
  - split.
    + split.
      * intros s order' Hopen. apply Hbook in Hopen as [[-> ->] | [_ Hopen]].
        -- split; [unfold st'; simpl; lia |]. split; [exact Hcreator |].
           split; [exact Hmodule |]. split; [exact Hamount | exact Hreserve].
        -- destruct (solvent_orders st Hsolvent s order' Hopen) as (Hle & Hrest).
           split; [unfold st'; simpl; lia | exact Hrest].
      * intros addr denom. pose proof (solvent_locked st Hsolvent addr denom) as Hcover.
        unfold openLocked in *. rewrite Hsum, Hlocked. lia.
      * intros denom. pose proof (solvent_reserve st Hsolvent denom) as Hcover.
        unfold heldReserve in *. rewrite Hsum, Hheld. lia.
    + exact Hreserve.
    + intros deadline msg. unfold st' at 1. simpl. fold seq. rewrite elem_of_app. split.
      * intros [Hin | Hin].
        -- pose proof (by_height_given_out st _ Hwf Hin) as Hle. simpl in Hle.
           apply (wf_by_height st Hwf) in Hin as (order' & goodTil & Hopen & Hrest).
           exists order', goodTil. split; [| exact Hrest].
           apply Hbook. right. split; [unfold seq; lia | exact Hopen].
        -- unfold dex.heightEntries in Hin.
           destruct (dex.OrderGoodTil order) as [goodTil |] eqn:Hg;
             [| apply not_elem_of_nil in Hin; contradiction].
           destruct (0 <? dex.GoodTilBlockHeight goodTil)%N eqn:Hpos;
             [| apply not_elem_of_nil in Hin; contradiction].
           apply list_elem_of_singleton in Hin. injection Hin as -> ->.
           exists parked, goodTil. simpl.
           split; [apply Hbook; left; split; reflexivity |].
           split; [reflexivity |]. split; [exact Hg |].
           split; [apply N.ltb_lt; exact Hpos | reflexivity].
      * intros (order' & goodTil & Hopen & Hmsg & Hg & Hpos & Hdeadline).
        apply Hbook in Hopen as [[Hs ->] | [_ Hopen]].
        -- right. change (dex.OrderGoodTil parked) with (dex.OrderGoodTil order) in Hg.
           unfold dex.heightEntries. rewrite Hg.
           replace (0 <? dex.GoodTilBlockHeight goodTil)%N with true
             by (symmetry; apply N.ltb_lt; exact Hpos).
           apply list_elem_of_singleton. rewrite Hdeadline, Hmsg, Hs. reflexivity.
        -- left. apply (wf_by_height st Hwf). exists order', goodTil.
           split; [exact Hopen |]. split; [exact Hmsg |]. split; [exact Hg |].
           split; [exact Hpos | exact Hdeadline].
    + intros deadline msg. unfold st' at 1. simpl. fold seq. rewrite elem_of_app. split.
      * intros [Hin | Hin].
        -- pose proof (by_time_given_out st _ Hwf Hin) as Hle. simpl in Hle.
           apply (wf_by_time st Hwf) in Hin as (order' & goodTil & Hopen & Hrest).
           exists order', goodTil. split; [| exact Hrest].
           apply Hbook. right. split; [unfold seq; lia | exact Hopen].
        -- unfold dex.timeEntries in Hin.
           destruct (dex.OrderGoodTil order) as [goodTil |] eqn:Hg;
             [| apply not_elem_of_nil in Hin; contradiction].
           destruct (dex.GoodTilBlockTime goodTil) as [deadline' |] eqn:Ht;
             [| apply not_elem_of_nil in Hin; contradiction].
           apply list_elem_of_singleton in Hin. injection Hin as -> ->.
           exists parked, goodTil. simpl.
           split; [apply Hbook; left; split; reflexivity |].
           split; [reflexivity |]. split; [exact Hg | exact Ht].
      * intros (order' & goodTil & Hopen & Hmsg & Hg & Ht).
        apply Hbook in Hopen as [[Hs ->] | [_ Hopen]].
        -- right. change (dex.OrderGoodTil parked) with (dex.OrderGoodTil order) in Hg.
           unfold dex.timeEntries. rewrite Hg, Ht.
           apply list_elem_of_singleton. rewrite Hmsg, Hs. reflexivity.
        -- left. apply (wf_by_time st Hwf). exists order', goodTil.
           split; [exact Hopen |]. split; [exact Hmsg |]. split; [exact Hg | exact Ht].
    + unfold st' at 1. simpl. fold seq. unfold sequencesOf. rewrite fmap_app.
      apply NoDup_app. split; [apply (wf_by_height_once st Hwf) |]. split.
      * intros s Hold Hnew. apply elem_of_sequencesOf in Hold as (d & msg & Hin & <-).
        pose proof (by_height_given_out st _ Hwf Hin) as Hle. simpl in Hle.
        unfold dex.heightEntries in Hnew.
        destruct (dex.OrderGoodTil order) as [goodTil |];
          [| apply not_elem_of_nil in Hnew; contradiction].
        destruct (0 <? dex.GoodTilBlockHeight goodTil)%N;
          [| apply not_elem_of_nil in Hnew; contradiction].
        apply list_elem_of_singleton in Hnew. simpl in Hnew. unfold seq in Hnew. lia.
      * unfold dex.heightEntries. destruct (dex.OrderGoodTil order) as [goodTil |];
          [| apply NoDup_nil_2].
        destruct (0 <? dex.GoodTilBlockHeight goodTil)%N;
          [apply NoDup_singleton | apply NoDup_nil_2].
    + unfold st' at 1. simpl. fold seq. unfold sequencesOf. rewrite fmap_app.
      apply NoDup_app. split; [apply (wf_by_time_once st Hwf) |]. split.
      * intros s Hold Hnew. apply elem_of_sequencesOf in Hold as (d & msg & Hin & <-).
        pose proof (by_time_given_out st _ Hwf Hin) as Hle. simpl in Hle.
        unfold dex.timeEntries in Hnew.
        destruct (dex.OrderGoodTil order) as [goodTil |];
          [| apply not_elem_of_nil in Hnew; contradiction].
        destruct (dex.GoodTilBlockTime goodTil);
          [| apply not_elem_of_nil in Hnew; contradiction].
        apply list_elem_of_singleton in Hnew. simpl in Hnew. unfold seq in Hnew. lia.
      * unfold dex.timeEntries. destruct (dex.OrderGoodTil order) as [goodTil |];
          [| apply NoDup_nil_2].
        destruct (dex.GoodTilBlockTime goodTil);
          [apply NoDup_singleton | apply NoDup_nil_2].
  - split; [| split].
    + intros addr denom. unfold openLocked. rewrite Hsum, Hlocked. lia.
    + intros addr denom Haddr. unfold openReserve. rewrite Hsum, Hbank by exact Haddr. lia.
    + intros denom. unfold heldReserve. rewrite Hsum, Hheld. lia.
Qed.

(** *** The good-til height of an order *)

(** a sum over the book is the sum over the orders that stay and the sum
    over the orders that expire *)
Lemma total_split (f : dex.Order -> Z) (g : N * dex.Order -> bool) (book : gmap N dex.Order) :
  total f book
  = total f (filter (fun entry => g entry = false) book)
    + total f (filter (fun entry => g entry = true) book).
Proof.
  induction book as [| s order book Hfresh IH] using map_ind.
  - rewrite !map_filter_empty, total_empty. reflexivity.
  - rewrite total_insert by exact Hfresh. rewrite !map_filter_insert.
    destruct (g (s, order)) eqn:Hg.
    + rewrite decide_False by discriminate. rewrite decide_True by reflexivity.
      rewrite delete_id by exact Hfresh.
      rewrite total_insert by (apply map_lookup_filter_None; left; exact Hfresh). lia.
    + rewrite decide_True by reflexivity. rewrite decide_False by discriminate.
      rewrite delete_id by exact Hfresh.
      rewrite total_insert by (apply map_lookup_filter_None; left; exact Hfresh). lia.
Qed.

(** when nothing is due the begin of a block changes nothing *)
Lemma BeginBlock_idle (st : dex.State) (height : N) (blockTime : Z) :
  (forall entry, entry ∈ dex.goodTilByHeight st -> (height < entry.1)%N) ->
  (forall entry, entry ∈ dex.goodTilByTime st -> blockTime < entry.1) ->
  dex.BeginBlock height blockTime st = Ok st.
Proof.
  intros Hheight Htime. unfold dex.BeginBlock. cbv zeta.
  assert (HdueH : filter (fun entry : N * dex.CancelGoodTil => (entry.1 <= height)%N)
                    (dex.goodTilByHeight st) = []).
  { apply filter_nil_all. intros entry Hin Hdue. apply Hheight in Hin. lia. }
  assert (HkeepH : filter (fun entry : N * dex.CancelGoodTil => ¬ (entry.1 <= height)%N)
                     (dex.goodTilByHeight st) = dex.goodTilByHeight st).
  { apply filter_all. intros entry Hin. apply Hheight in Hin. lia. }
  rewrite HdueH, HkeepH. simpl.
  assert (HdueT : filter (fun entry : Z * dex.CancelGoodTil => entry.1 <= blockTime)
                    (dex.goodTilByTime st) = []).
  { apply filter_nil_all. intros entry Hin Hdue. apply Htime in Hin. lia. }
  assert (HkeepT : filter (fun entry : Z * dex.CancelGoodTil => ¬ (entry.1 <= blockTime))
                     (dex.goodTilByTime st) = dex.goodTilByTime st).
  { apply filter_all. intros entry Hin. apply Htime in Hin. lia. }
  rewrite HdueT, HkeepT. simpl. destruct st. reflexivity.
Qed.

Lemma expired_by_height (order : dex.Order) (goodTil : dex.GoodTil)
    (height : N) (blockTime : Z) :
  dex.OrderGoodTil order = Some goodTil ->
  (0 < dex.GoodTilBlockHeight goodTil)%N ->
  (dex.GoodTilBlockHeight goodTil < height)%N ->
  expired order height blockTime = true.
Proof.
  intros Hg Hpos Hlt. unfold expired, heightExpired. rewrite Hg.
  apply orb_true_intro. left. apply andb_true_intro. split; apply N.ltb_lt; assumption.
Qed.

Lemma expired_by_time (order : dex.Order) (goodTil : dex.GoodTil)
    (height : N) (blockTime deadline : Z) :
  dex.OrderGoodTil order = Some goodTil ->
  dex.GoodTilBlockTime goodTil = Some deadline ->
  deadline <= blockTime ->
  expired order height blockTime = true.
Proof.
  intros Hg Ht Hle. unfold expired, timeExpired. rewrite Hg, Ht.
  apply orb_true_intro. right. apply Z.leb_le. exact Hle.
Qed.

Lemma not_expired (order : dex.Order) (goodTil : dex.GoodTil) (height : N) (blockTime : Z) :
  dex.OrderGoodTil order = Some goodTil ->
  (height <= dex.GoodTilBlockHeight goodTil)%N ->
  (forall deadline, dex.GoodTilBlockTime goodTil = Some deadline -> blockTime < deadline) ->
  expired order height blockTime = false.
Proof.
  intros Hg Hle Htime. unfold expired, heightExpired, timeExpired. rewrite Hg.
  apply orb_false_intro.
  - apply andb_false_intro2. apply N.ltb_ge. exact Hle.
  - destruct (dex.GoodTilBlockTime goodTil) as [deadline |]; [| reflexivity].
    apply Z.leb_gt. apply Htime. reflexivity.
Qed.

(** The begin of a block with its refunds spelled out: the lock of each
    account falls by what its expired orders locked, its balance rises by
    the reserves of its expired orders, and the module account pays these
    reserves. *)
Lemma BeginBlock_refunds (st : dex.State) (height : N) (blockTime : Z) :
  wellFormed st ->
  exists st',
    dex.BeginBlock height blockTime st = Ok st'
    /\ wellFormed st'
    /\ dex.orders st' = unexpired st height blockTime
    /\ (forall addr denom,
           dex.lockedOf st' addr denom
           = dex.lockedOf st addr denom
             - total (lockOf addr denom) (expiredOrders st height blockTime))
    /\ (forall addr denom,
           addr <> dex.ModuleName ->
           dex.balanceOf st' addr denom
           = dex.balanceOf st addr denom
             + total (reserveOf addr denom) (expiredOrders st height blockTime))
    /\ (forall denom,
           dex.balanceOf st' dex.ModuleName denom
           = dex.balanceOf st dex.ModuleName denom
             - total (heldOf denom) (expiredOrders st height blockTime))
    /\ (forall creator id,
           (creator, id) ∈ dex.reservedOrderIDs st'
           <-> (creator, id) ∈ dex.reservedOrderIDs st
               \/ tombstonedAt st height blockTime creator id).
Proof.
  intros Hwf.
  destruct (BeginBlock_spec st height blockTime Hwf)
    as (st' & Hrun & Hwf' & (Hlocked & Hbank & Hmodule) & Hbook & Htomb & _).
  assert (Hsplit : forall f,
             total f (dex.orders st)
             = total f (dex.orders st') + total f (expiredOrders st height blockTime)).
  { intros f. rewrite Hbook.
    apply (total_split f (fun entry => expired entry.2 height blockTime)). }
  exists st'. split; [exact Hrun |]. split; [exact Hwf' |]. split; [exact Hbook |].
  split; [| split; [| split; [| exact Htomb]]].
  - intros addr denom. specialize (Hlocked addr denom). unfold openLocked in Hlocked.
    rewrite (Hsplit (lockOf addr denom)) in Hlocked. lia.
  - intros addr denom Haddr. specialize (Hbank addr denom Haddr). unfold openReserve in Hbank.
    rewrite (Hsplit (reserveOf addr denom)) in Hbank. lia.
  - intros denom. specialize (Hmodule denom). unfold heldReserve in Hmodule.
    rewrite (Hsplit (heldOf denom)) in Hmodule. lia.
Qed.

(** an open order that has not expired is still open after the begin of
    the block, with the book well-formed *)
Lemma BeginBlock_keeps (st : dex.State) (s : N) (order : dex.Order)
    (height : N) (blockTime : Z) :
  wellFormed st ->
  dex.orders st !! s = Some order ->
  expired order height blockTime = false ->
  exists st',
    dex.BeginBlock height blockTime st = Ok st'
    /\ wellFormed st'
    /\ dex.orders st' !! s = Some order.
Proof.
  intros Hwf Hopen Hexpired.
  destruct (BeginBlock_spec st height blockTime Hwf) as (st' & Hrun & Hwf' & _ & Hbook & _).
  exists st'. split; [exact Hrun |]. split; [exact Hwf' |].
  rewrite Hbook. unfold unexpired. apply map_lookup_filter_Some. split; assumption.
Qed.

(** an open order that has expired is cancelled at the begin of the
    block: it is off the book and off both indexes, its id is tombstoned,
    its lock is released and its reserve returned *)
Lemma BeginBlock_cancels (st : dex.State) (s : N) (order : dex.Order)
    (height : N) (blockTime : Z) :
  wellFormed st ->
  dex.orders st !! s = Some order ->
  expired order height blockTime = true ->
  exists st',
    dex.BeginBlock height blockTime st = Ok st'
    /\ wellFormed st'
    /\ dex.orders st' !! s = None
    /\ (s ∉ sequencesOf (dex.goodTilByHeight st'))
    /\ (s ∉ sequencesOf (dex.goodTilByTime st'))
    /\ (dex.Creator order, dex.ID order) ∈ dex.reservedOrderIDs st'
    /\ dex.lockedOf st' (dex.Creator order) (dex.lockedDenom order)
       <= dex.lockedOf st (dex.Creator order) (dex.lockedDenom order)
          - dex.RemainingSpendableBalance order
    /\ dex.balanceOf st (dex.Creator order) (sdk.Denom (dex.Reserve order))
       + sdk.Amount (dex.Reserve order)
       <= dex.balanceOf st' (dex.Creator order) (sdk.Denom (dex.Reserve order)).
Proof.
  intros Hwf Hopen Hexpired.
  pose proof (wf_solvent st Hwf) as Hsolvent.
  destruct (solvent_orders st Hsolvent s order Hopen) as (_ & _ & Hmodule & _).
  destruct (BeginBlock_refunds st height blockTime Hwf)
    as (st' & Hrun & Hwf' & Hbook & Hlocked & Hbank & _ & Htomb).
  assert (Hgone : dex.orders st' !! s = None).
  { rewrite Hbook. unfold unexpired. apply map_lookup_filter_None. right.
    intros order' Hopen'. rewrite Hopen in Hopen'. injection Hopen' as <-. simpl. congruence. }
  assert (Hamong : expiredOrders st height blockTime !! s = Some order).
  { unfold expiredOrders. apply map_lookup_filter_Some. split; assumption. }
  assert (Hrest : forall s' order',
             delete s (expiredOrders st height blockTime) !! s' = Some order' ->
             0 <= dex.RemainingSpendableBalance order' /\ 0 <= sdk.Amount (dex.Reserve order')).
  { intros s' order' Hin. apply lookup_delete_Some in Hin as [_ Hin].
    unfold expiredOrders in Hin. apply map_lookup_filter_Some in Hin as [Hin _].
    destruct (solvent_orders st Hsolvent s' order' Hin) as (_ & _ & _ & H1 & H2).
    split; assumption. }
  exists st'. split; [exact Hrun |]. split; [exact Hwf' |]. split; [exact Hgone |].
  split.
  { intros Hin. apply elem_of_sequencesOf in Hin as (deadline & msg & Hin & <-).
    apply (wf_by_height st' Hwf') in Hin as (order' & _ & Hopen' & _). congruence. }
  split.
  { intros Hin. apply elem_of_sequencesOf in Hin as (deadline & msg & Hin & <-).
    apply (wf_by_time st' Hwf') in Hin as (order' & _ & Hopen' & _). congruence. }
  split.
  { apply Htomb. right. exists s, order. split; [exact Hopen |]. split; [exact Hexpired |].
    split; reflexivity. }
  split.
  - rewrite Hlocked, (total_delete _ _ s order Hamong).
    assert (0 <= total (lockOf (dex.Creator order) (dex.lockedDenom order))
                   (delete s (expiredOrders st height blockTime))).
    { apply total_non_negative. intros s' order' Hin. apply Hrest in Hin as [Hin _].
      unfold lockOf. case_bool_decide; lia. }
    unfold lockOf at 1. rewrite bool_decide_true by (split; reflexivity). lia.
  - rewrite Hbank by exact Hmodule. rewrite (total_delete _ _ s order Hamong).
    assert (0 <= total (reserveOf (dex.Creator order) (sdk.Denom (dex.Reserve order)))
                   (delete s (expiredOrders st height blockTime))).
    { apply total_non_negative. intros s' order' Hin. apply Hrest in Hin as [_ Hin].
      unfold reserveOf. case_bool_decide; lia. }
    unfold reserveOf at 1. rewrite bool_decide_true by (split; reflexivity). lia.
Qed.

(** through the blocks up to its good-til height, and before its good-til
    time, an open order stays in the book *)
Lemma runBlocks_keeps (s : N) (order : dex.Order) (goodTil : dex.GoodTil)
    (blockTimes : list Z) :
  forall (height : N) (st : dex.State),
    wellFormed st ->
    dex.orders st !! s = Some order ->
    dex.OrderGoodTil order = Some goodTil ->
    (height + N.of_nat (length blockTimes) <= dex.GoodTilBlockHeight goodTil)%N ->
    (forall blockTime deadline,
        blockTime ∈ blockTimes ->
        dex.GoodTilBlockTime goodTil = Some deadline ->
        blockTime < deadline) ->
    exists st',
      dex.runBlocks height blockTimes st = Ok st'
      /\ wellFormed st'
      /\ dex.orders st' !! s = Some order.
Proof.
  induction blockTimes as [| blockTime blockTimes IH];
    intros height st Hwf Hopen Hg Hheight Htime.
  - exists st. split; [reflexivity |]. split; assumption.
  - simpl in Hheight.
    destruct (BeginBlock_keeps st s order (height + 1)%N blockTime Hwf Hopen)
      as (st1 & Hrun1 & Hwf1 & Hopen1).
    { apply (not_expired order goodTil); [exact Hg | lia |].
      intros deadline. apply Htime. apply elem_of_cons. left. reflexivity. }
    destruct (IH (height + 1)%N st1 Hwf1 Hopen1 Hg) as (st' & Hrun & Hwf' & Hopen').
    { lia. }
    { intros t deadline Hin. apply Htime. apply elem_of_cons. right. exact Hin. }
    exists st'. split; [| split; assumption].
    simpl. rewrite Hrun1. simpl. exact Hrun.
Qed.

(** the indexes of an empty well-formed book are empty *)
Lemma empty_book_indexes (st : dex.State) :
  wellFormed st ->
  dex.orders st = ∅ ->
  dex.goodTilByHeight st = [] /\ dex.goodTilByTime st = [].
Proof.
  intros Hwf Hempty. split.
  - destruct (dex.goodTilByHeight st) as [| [deadline msg] l] eqn:Hl; [reflexivity |].
    assert (Hin : (deadline, msg) ∈ dex.goodTilByHeight st)
      by (rewrite Hl; apply elem_of_cons; left; reflexivity).
    apply (wf_by_height st Hwf) in Hin as (order & _ & Hopen & _).
    rewrite Hempty, lookup_empty in Hopen. discriminate.
  - destruct (dex.goodTilByTime st) as [| [deadline msg] l] eqn:Hl; [reflexivity |].
    assert (Hin : (deadline, msg) ∈ dex.goodTilByTime st)
      by (rewrite Hl; apply elem_of_cons; left; reflexivity).
    apply (wf_by_time st Hwf) in Hin as (order & _ & Hopen & _).
    rewrite Hempty, lookup_empty in Hopen. discriminate.
Qed.

(** an empty book with empty indexes is well-formed when no lock and no
    holding of the module account is negative *)
Lemma empty_book_wellFormed (st : dex.State) :
  dex.orders st = ∅ ->
  dex.goodTilByHeight st = [] ->
  dex.goodTilByTime st = [] ->
  0 <= sdk.Amount (dex.orderReserve st) ->
  (forall addr denom, 0 <= dex.lockedOf st addr denom) ->
  (forall denom, 0 <= dex.balanceOf st dex.ModuleName denom) ->
  wellFormed st.
Proof.
  intros Hempty Hheight Htime Hreserve Hlocked Hmodule. split.
  - split.
    + intros s order. rewrite Hempty, lookup_empty. discriminate.
    + intros addr denom. unfold openLocked. rewrite Hempty, total_empty. apply Hlocked.
    + intros denom. unfold heldReserve. rewrite Hempty, total_empty. apply Hmodule.
  - exact Hreserve.
  - intros deadline msg. rewrite Hheight, Hempty. split.
    + intros Hin. apply not_elem_of_nil in Hin. contradiction.
    + intros (order & _ & Hopen & _). rewrite lookup_empty in Hopen. discriminate.
  - intros deadline msg. rewrite Htime, Hempty. split.
    + intros Hin. apply not_elem_of_nil in Hin. contradiction.
    + intros (order & _ & Hopen & _). rewrite lookup_empty in Hopen. discriminate.
  - rewrite Hheight. apply NoDup_nil_2.
  - rewrite Htime. apply NoDup_nil_2.
Qed.

(** between two empty books nothing is locked by orders, so conservation
    is equality of the locks and of the balances *)
Lemma conserves_empty (st st' : dex.State) :
  conserves st st' ->
  dex.orders st = ∅ ->
  dex.orders st' = ∅ ->
  (forall addr denom, dex.lockedOf st' addr denom = dex.lockedOf st addr denom)
  /\ (forall addr denom, dex.balanceOf st' addr denom = dex.balanceOf st addr denom).
Proof.
  intros (Hlocked & Hbank & Hmodule) Hempty Hempty'.
  unfold openLocked, openReserve, heldReserve in *.
  rewrite Hempty, Hempty' in *. split.
  - intros addr denom. specialize (Hlocked addr denom). rewrite !total_empty in Hlocked. lia.
  - intros addr denom. destruct (decide (addr = dex.ModuleName)) as [-> | Haddr].
    + specialize (Hmodule denom). rewrite !total_empty in Hmodule. lia.
    + specialize (Hbank addr denom Haddr). rewrite !total_empty in Hbank. lia.
Qed.

(** the index entries a placement registers *)
Lemma PlaceOrder_indexes (st st' : dex.State) (order : dex.Order) :
  dex.PlaceOrder order st = Ok st' ->
  dex.goodTilByHeight st'
  = dex.goodTilByHeight st
    ++ dex.heightEntries (dex.OrderGoodTil order)
         {| dex.CancelCreator := dex.Creator order;
            dex.OrderSequence := (dex.orderSequence st + 1)%N |}
  /\ dex.goodTilByTime st'
     = dex.goodTilByTime st
       ++ dex.timeEntries (dex.OrderGoodTil order)
            {| dex.CancelCreator := dex.Creator order;
               dex.OrderSequence := (dex.orderSequence st + 1)%N |}.
Proof.
  unfold dex.PlaceOrder. intros Hplace.
  destruct (bool_decide (dex.OrderTimeInForce order = dex.TIME_IN_FORCE_GTC));
    [| discriminate].
  destruct (dex.Quantity order <=? 0); [discriminate |].
  destruct (dex.orderIDInUse st (dex.Creator order) (dex.ID order)); [discriminate |].
  destruct (dex.ComputeLimitOrderLockedBalance order) as [lockedBalance | e];
    [| discriminate].
  cbv beta iota zeta delta [bind failIf negb] in Hplace.
  unfold dex.SendCoins in Hplace.
  destruct (dex.balanceOf st (dex.Creator order) (sdk.Denom (dex.orderReserve st))
            <? sdk.Amount (dex.orderReserve st)); [discriminate |].
  cbv beta iota zeta delta [bind failIf] in Hplace.
  unfold dex.IncreaseDEXLocked in Hplace.
  cbv beta iota zeta delta [bind failIf] in Hplace.
  match type of Hplace with
  | context [if ?c then _ else _] => destruct c; [discriminate |]
  end.
  cbv beta iota zeta delta [bind failIf] in Hplace.
  injection Hplace as <-. split; reflexivity.
Qed.

Lemma total_singleton (f : dex.Order -> Z) (s : N) (order : dex.Order) :
  total f {[ s := order ]} = f order.
Proof.
  rewrite <- insert_empty, total_insert by apply lookup_empty. rewrite total_empty. lia.
Qed.

(** When a single order expires, the begin of the block leaves the book,
    the locks, the bank and the tombstones as the cancel of that order by
    its creator does. *)
Lemma BeginBlock_as_user_cancel (st : dex.State) (s : N) (order : dex.Order)
    (height : N) (blockTime : Z) :
  wellFormed st ->
  expiredOrders st height blockTime = {[ s := order ]} ->
  exists st' stCancelled,
    dex.BeginBlock height blockTime st = Ok st'
    /\ dex.CancelOrderBySequence (dex.Creator order) s st = Ok stCancelled
    /\ dex.orders st' = dex.orders stCancelled
    /\ (forall addr denom, dex.lockedOf st' addr denom = dex.lockedOf stCancelled addr denom)
    /\ (forall addr denom, dex.balanceOf st' addr denom = dex.balanceOf stCancelled addr denom)
    /\ (forall creator id,
           (creator, id) ∈ dex.reservedOrderIDs st'
           <-> (creator, id) ∈ dex.reservedOrderIDs stCancelled).
Proof.
  intros Hwf Hsingle.
  assert (Hamong : expiredOrders st height blockTime !! s = Some order)
    by (rewrite Hsingle; apply lookup_singleton_eq).
  unfold expiredOrders in Hamong. apply map_lookup_filter_Some in Hamong as [Hopen Hexpired].
  simpl in Hexpired.
  destruct (BeginBlock_refunds st height blockTime Hwf)
    as (st' & Hrun & _ & Hbook & Hlocked & Hbank & Hmodule & Htomb).
  destruct (CancelOrderBySequence_spec st s order (wf_solvent st Hwf) Hopen)
    as (stc & Hcancel & Ho & _ & _ & Hr & _ & _ & Hl & Hb & Hm).
  exists st', stc. split; [exact Hrun |]. split; [exact Hcancel |].
  split; [| split; [| split]].
  - rewrite Hbook, Ho. unfold unexpired. apply map_eq. intros s'. apply option_eq.
    intros order'. rewrite map_lookup_filter_Some, lookup_delete_Some. simpl. split.
    + intros [Hopen' Hexpired']. split; [| exact Hopen'].
      intros <-. rewrite Hopen in Hopen'. injection Hopen' as <-. congruence.
    + intros [Hne Hopen']. split; [exact Hopen' |].
      destruct (expired order' height blockTime) eqn:Hexpired'; [| reflexivity].
      exfalso. apply Hne.
      assert (Hin : expiredOrders st height blockTime !! s' = Some order')
        by (apply map_lookup_filter_Some; split; assumption).
      rewrite Hsingle in Hin. apply lookup_singleton_Some in Hin as [Heq _]. exact Heq.
  - intros addr denom. rewrite Hlocked, Hl, Hsingle, total_singleton. reflexivity.
  - intros addr denom. destruct (decide (addr = dex.ModuleName)) as [-> | Haddr].
    + rewrite Hmodule, Hm, Hsingle, total_singleton. reflexivity.
    + rewrite Hbank, Hb, Hsingle, total_singleton by exact Haddr. reflexivity.
  - intros creator id. rewrite Htomb, Hr, elem_of_union, elem_of_singleton.
    unfold tombstonedAt. split.
    + intros [Hin | (s' & order' & Hopen' & Hexpired' & -> & ->)]; [right; exact Hin |].
      left.
      assert (Hin : expiredOrders st height blockTime !! s' = Some order')
        by (apply map_lookup_filter_Some; split; assumption).
      rewrite Hsingle in Hin. apply lookup_singleton_Some in Hin as [_ <-]. reflexivity.
    + intros [Heq | Hin]; [| left; exact Hin].
      injection Heq as -> ->. right. exists s, order.
      split; [exact Hopen |]. split; [exact Hexpired |]. split; reflexivity.
Qed.

(** Scenario 5 for any order with a good-til height only that is alone in
    the book: the begin of the blocks up to the good-til height changes
    nothing, and the begin of the next block restores the locks and the
    balances of before the placement and leaves the book and the indexes
    empty. *)
Lemma good_til_lone_order (st0 st1 : dex.State) (order : dex.Order)
    (placedAt goodTilHeight : N) :
  wellFormed st0 ->
  dex.orders st0 = ∅ ->
  dex.Creator order <> EmptyString ->
  dex.Creator order <> dex.ModuleName ->
  (forall price, dex.OrderPrice order = Some price -> 0 <= dex.Mantissa price) ->
  dex.OrderGoodTil order
  = Some {| dex.GoodTilBlockHeight := goodTilHeight; dex.GoodTilBlockTime := None |} ->
  (0 < goodTilHeight)%N ->
  dex.PlaceOrder order st0 = Ok st1 ->
  (exists lockedBalance,
      dex.orders st1
      = {[ (dex.orderSequence st0 + 1)%N := parkedOrder st0 order lockedBalance ]})
  /\ (forall blockTimes : list Z,
         (placedAt + N.of_nat (length blockTimes) <= goodTilHeight)%N ->
         dex.runBlocks placedAt blockTimes st1 = Ok st1)
  /\ (forall blockTime : Z,
         exists st2,
           dex.BeginBlock (goodTilHeight + 1)%N blockTime st1 = Ok st2
           /\ dex.orders st2 = ∅
           /\ dex.goodTilByHeight st2 = []
           /\ dex.goodTilByTime st2 = []
           /\ (forall addr denom, dex.lockedOf st2 addr denom = dex.lockedOf st0 addr denom)
           /\ (forall addr denom, dex.balanceOf st2 addr denom = dex.balanceOf st0 addr denom)
           /\ (dex.Creator order, dex.ID order) ∈ dex.reservedOrderIDs st2).
Proof.
  intros Hwf0 Hempty Hcreator Hmodule Hprice Hg Hpos Hplace.
  destruct (PlaceOrder_spec st0 st1 order Hwf0 Hcreator Hmodule Hprice Hplace)
    as (lockedBalance & _ & Hbook1 & _ & _ & _ & _ & Hwf1 & Hconserves1).
  destruct (PlaceOrder_indexes st0 st1 order Hplace) as [Hheight1 Htime1].
  destruct (empty_book_indexes st0 Hwf0 Hempty) as [Hheight0 Htime0].
  rewrite Hheight0, Hg in Hheight1. rewrite Htime0, Hg in Htime1.
  unfold dex.heightEntries in Hheight1. simpl in Hheight1.
  replace (0 <? goodTilHeight)%N with true in Hheight1
    by (symmetry; apply N.ltb_lt; exact Hpos).
  simpl in Htime1.
  rewrite Hempty, insert_empty in Hbook1.
  split; [exists (sdk.Amount lockedBalance); exact Hbook1 |].
  split.
  - intros blockTimes. revert placedAt.
    induction blockTimes as [| blockTime blockTimes IH]; intros placedAt Hle; [reflexivity |].
    simpl in Hle. simpl. rewrite BeginBlock_idle.
    + simpl. apply IH. lia.
    + intros entry Hin. rewrite Hheight1 in Hin. apply list_elem_of_singleton in Hin as ->.
      simpl. unfold dex.goodTilDeadline. lia.
    + intros entry Hin. rewrite Htime1 in Hin. apply not_elem_of_nil in Hin. contradiction.
  - intros blockTime.
    destruct (BeginBlock_spec st1 (goodTilHeight + 1)%N blockTime Hwf1)
      as (st2 & Hrun & Hwf2 & Hconserves2 & Hbook2 & Htomb & _).
    assert (Hexpired :
              expired (parkedOrder st0 order (sdk.Amount lockedBalance))
                (goodTilHeight + 1)%N blockTime = true).
    { apply (expired_by_height _ _ _ _ Hg); simpl; lia. }
    assert (Hempty2 : dex.orders st2 = ∅).
    { rewrite Hbook2. unfold unexpired. rewrite Hbook1.
      apply map_filter_singleton_False. simpl. congruence. }
    destruct (empty_book_indexes st2 Hwf2 Hempty2) as [Hheight2 Htime2].
    destruct (conserves_empty st0 st2 (conserves_trans _ _ _ Hconserves1 Hconserves2)
                Hempty Hempty2) as [Hlocked Hbank].
    exists st2. split; [exact Hrun |]. split; [exact Hempty2 |].
    split; [exact Hheight2 |]. split; [exact Htime2 |].
    split; [exact Hlocked |]. split; [exact Hbank |].
    apply Htomb. right.
    exists (dex.orderSequence st0 + 1)%N, (parkedOrder st0 order (sdk.Amount lockedBalance)).
    split; [rewrite Hbook1; apply lookup_singleton_eq |].
    split; [exact Hexpired |]. split; reflexivity.
Qed.

(** C3, as the scheduler works. An unfilled good-till-cancelled order with
    [good_til.block_height = H] is registered in the by-height index under
    the deadline [H + 1], and, if it also has a good-til time, in the
    by-time index under that time. On any well-formed book, whatever other
    orders it holds:

    - a placement that succeeds parks the order and keeps the book
      well-formed, and takes the lock and the reserve of the order only;
    - the begin of every block succeeds; it leaves in the book the orders
      that did not expire, releases for each account the locks of its
      expired orders, pays back their reserves from the module account,
      and tombstones their ids;
    - the begin of a block of height at most [H], at a block time before
      the good-til time of the order if it has one, leaves the order in
      the book, and so does a run of such blocks;
    - the begin of a block of height above [H], of which block [H + 1] is
      the first, cancels the order: it is off the book and off both
      indexes, its id is tombstoned, its lock is released and its reserve
      is back with the creator;
    - either trigger is sufficient: an order whose good-til time is
      reached is cancelled whatever the height;
    - when a single order expires, the book, the locks, the bank and the
      tombstones are those the cancel by its creator leaves;
    - an order with a good-til height only that is alone in the book, as
      the one placed at block 101 with height 103: the begin of the
      blocks through [H] changes nothing, and the begin of block [H + 1]
      restores the locks and balances of before the placement and leaves
      the book and both indexes empty. *)
Theorem good_til_height_expiry :
  (forall (st st1 : dex.State) (order : dex.Order),
      wellFormed st ->
      dex.Creator order <> EmptyString ->
      dex.Creator order <> dex.ModuleName ->
      (forall price, dex.OrderPrice order = Some price -> 0 <= dex.Mantissa price) ->
      dex.PlaceOrder order st = Ok st1 ->
      wellFormed st1
      /\ conserves st st1
      /\ exists lockedBalance,
           dex.ComputeLimitOrderLockedBalance order = Ok lockedBalance
           /\ dex.orders st1
              = <[(dex.orderSequence st + 1)%N :=
                    parkedOrder st order (sdk.Amount lockedBalance)]> (dex.orders st))
  /\ (forall (st : dex.State) (height : N) (blockTime : Z),
         wellFormed st ->
         exists st',
           dex.BeginBlock height blockTime st = Ok st'
           /\ wellFormed st'
           /\ dex.orders st' = unexpired st height blockTime
           /\ (forall addr denom,
                  dex.lockedOf st' addr denom
                  = dex.lockedOf st addr denom
                    - total (lockOf addr denom) (expiredOrders st height blockTime))
           /\ (forall addr denom,
                  addr <> dex.ModuleName ->
                  dex.balanceOf st' addr denom
                  = dex.balanceOf st addr denom
                    + total (reserveOf addr denom) (expiredOrders st height blockTime))
           /\ (forall denom,
                  dex.balanceOf st' dex.ModuleName denom
                  = dex.balanceOf st dex.ModuleName denom
                    - total (heldOf denom) (expiredOrders st height blockTime))
           /\ (forall creator id,
                  (creator, id) ∈ dex.reservedOrderIDs st'
                  <-> (creator, id) ∈ dex.reservedOrderIDs st
                      \/ tombstonedAt st height blockTime creator id))
  /\ (forall (st : dex.State) (s : N) (order : dex.Order) (goodTil : dex.GoodTil)
         (height : N) (blockTime : Z),
         wellFormed st ->
         dex.orders st !! s = Some order ->
         dex.OrderGoodTil order = Some goodTil ->
         (height <= dex.GoodTilBlockHeight goodTil)%N ->
         (forall deadline,
             dex.GoodTilBlockTime goodTil = Some deadline -> blockTime < deadline) ->
         exists st',
           dex.BeginBlock height blockTime st = Ok st'
           /\ wellFormed st'
           /\ dex.orders st' !! s = Some order)
  /\ (forall (st : dex.State) (s : N) (order : dex.Order) (goodTil : dex.GoodTil)
         (height : N) (blockTimes : list Z),
         wellFormed st ->
         dex.orders st !! s = Some order ->
         dex.OrderGoodTil order = Some goodTil ->
         (height + N.of_nat (length blockTimes) <= dex.GoodTilBlockHeight goodTil)%N ->
         (forall blockTime deadline,
             blockTime ∈ blockTimes ->
             dex.GoodTilBlockTime goodTil = Some deadline ->
             blockTime < deadline) ->
         exists st',
           dex.runBlocks height blockTimes st = Ok st'
           /\ wellFormed st'
           /\ dex.orders st' !! s = Some order)
  /\ (forall (st : dex.State) (s : N) (order : dex.Order) (goodTil : dex.GoodTil)
         (height : N) (blockTime : Z),
         wellFormed st ->
         dex.orders st !! s = Some order ->
         dex.OrderGoodTil order = Some goodTil ->
         (0 < dex.GoodTilBlockHeight goodTil)%N ->
         (dex.GoodTilBlockHeight goodTil < height)%N ->
         exists st',
           dex.BeginBlock height blockTime st = Ok st'
           /\ wellFormed st'
           /\ dex.orders st' !! s = None
           /\ (s ∉ sequencesOf (dex.goodTilByHeight st'))
           /\ (s ∉ sequencesOf (dex.goodTilByTime st'))
           /\ (dex.Creator order, dex.ID order) ∈ dex.reservedOrderIDs st'
           /\ dex.lockedOf st' (dex.Creator order) (dex.lockedDenom order)
              <= dex.lockedOf st (dex.Creator order) (dex.lockedDenom order)
                 - dex.RemainingSpendableBalance order
           /\ dex.balanceOf st (dex.Creator order) (sdk.Denom (dex.Reserve order))
              + sdk.Amount (dex.Reserve order)
              <= dex.balanceOf st' (dex.Creator order) (sdk.Denom (dex.Reserve order)))
  /\ (forall (st : dex.State) (s : N) (order : dex.Order) (goodTil : dex.GoodTil)
         (deadline : Z) (height : N) (blockTime : Z),
         wellFormed st ->
         dex.orders st !! s = Some order ->
         dex.OrderGoodTil order = Some goodTil ->
         dex.GoodTilBlockTime goodTil = Some deadline ->
         deadline <= blockTime ->
         exists st',
           dex.BeginBlock height blockTime st = Ok st'
           /\ dex.orders st' !! s = None
           /\ (dex.Creator order, dex.ID order) ∈ dex.reservedOrderIDs st')
  /\ (forall (st : dex.State) (s : N) (order : dex.Order) (height : N) (blockTime : Z),
         wellFormed st ->
         expiredOrders st height blockTime = {[ s := order ]} ->
         exists st' stCancelled,
           dex.BeginBlock height blockTime st = Ok st'
           /\ dex.CancelOrderBySequence (dex.Creator order) s st = Ok stCancelled
           /\ dex.orders st' = dex.orders stCancelled
           /\ (forall addr denom,
                  dex.lockedOf st' addr denom = dex.lockedOf stCancelled addr denom)
           /\ (forall addr denom,
                  dex.balanceOf st' addr denom = dex.balanceOf stCancelled addr denom)
           /\ (forall creator id,
                  (creator, id) ∈ dex.reservedOrderIDs st'
                  <-> (creator, id) ∈ dex.reservedOrderIDs stCancelled))
  /\ (forall (st0 st1 : dex.State) (order : dex.Order) (placedAt goodTilHeight : N),
         wellFormed st0 ->
         dex.orders st0 = ∅ ->
         dex.Creator order <> EmptyString ->
         dex.Creator order <> dex.ModuleName ->
         (forall price, dex.OrderPrice order = Some price -> 0 <= dex.Mantissa price) ->
         dex.OrderGoodTil order
         = Some {| dex.GoodTilBlockHeight := goodTilHeight; dex.GoodTilBlockTime := None |} ->
         (0 < goodTilHeight)%N ->
         dex.PlaceOrder order st0 = Ok st1 ->
         (exists lockedBalance,
             dex.orders st1
             = {[ (dex.orderSequence st0 + 1)%N := parkedOrder st0 order lockedBalance ]})
         /\ (forall blockTimes : list Z,
                (placedAt + N.of_nat (length blockTimes) <= goodTilHeight)%N ->
                dex.runBlocks placedAt blockTimes st1 = Ok st1)
         /\ (forall blockTime : Z,
                exists st2,
                  dex.BeginBlock (goodTilHeight + 1)%N blockTime st1 = Ok st2
                  /\ dex.orders st2 = ∅
                  /\ dex.goodTilByHeight st2 = []
                  /\ dex.goodTilByTime st2 = []
                  /\ (forall addr denom,
                         dex.lockedOf st2 addr denom = dex.lockedOf st0 addr denom)
                  /\ (forall addr denom,
                         dex.balanceOf st2 addr denom = dex.balanceOf st0 addr denom)
                  /\ (dex.Creator order, dex.ID order) ∈ dex.reservedOrderIDs st2)).
Proof.
  split; [| split; [| split; [| split; [| split; [| split; [| split]]]]]].
  - intros st st1 order Hwf Hcreator Hmodule Hprice Hplace.
    destruct (PlaceOrder_spec st st1 order Hwf Hcreator Hmodule Hprice Hplace)
      as (lockedBalance & Hcoin & Hbook & _ & _ & _ & _ & Hwf1 & Hconserves).
    split; [exact Hwf1 |]. split; [exact Hconserves |].
    exists lockedBalance. split; [exact Hcoin | exact Hbook].
  - exact BeginBlock_refunds.
  - intros st s order goodTil height blockTime Hwf Hopen Hg Hheight Htime.
    apply BeginBlock_keeps; [exact Hwf | exact Hopen |].
    apply (not_expired order goodTil); assumption.
  - intros st s order goodTil height blockTimes Hwf Hopen Hg Hheight Htime.
    apply (runBlocks_keeps s order goodTil); assumption.
  - intros st s order goodTil height blockTime Hwf Hopen Hg Hpos Hlt.
    apply BeginBlock_cancels; [exact Hwf | exact Hopen |].
    apply (expired_by_height order goodTil); assumption.
  - intros st s order goodTil deadline height blockTime Hwf Hopen Hg Ht Hle.
    destruct (BeginBlock_cancels st s order height blockTime Hwf Hopen)
      as (st' & Hrun & _ & Hgone & _ & _ & Htomb & _).
    { apply (expired_by_time order goodTil _ _ deadline); assumption. }
    exists st'. split; [exact Hrun |]. split; [exact Hgone | exact Htomb].
  - exact BeginBlock_as_user_cancel.
  - exact good_til_lone_order.
Qed.

End GoodTil.

(** * The statements on the worked inputs *)

Import Examples.

Section Runs.

(** ** An instance of the types package *)

Lemma examplePkg_validators :
  @fieldValidatorsRejectWithInvalidInput examplePkg.
Proof.
  unfold fieldValidatorsRejectWithInvalidInput, rejectsWithInvalidInput.
  simpl. unfold nonEmpty, validRate.
  repeat split; intros a e He; try discriminate;
    apply failIf_Err in He; tauto.
Qed.

(** ** A token and a store *)

Example GetDefinition_ABC :
  @keeper.GetDefinition examplePkg stABC denomABC = Ok defABC.
Proof. vm_compute. reflexivity. Qed.

Example GetSpendableBalance_alice :
  @keeper.GetSpendableBalance examplePkg stABC "alice" denomABC
  = Ok (sdk.NewCoin denomABC 50).
Proof. vm_compute. reflexivity. Qed.

Example validateCoinSpendable_alice_51 :
  @keeper.validateCoinSpendable examplePkg (ctxOf PurposeNone) stABC "alice" defABC 51
  = Err ErrInsufficientFunds.
Proof. vm_compute. reflexivity. Qed.

(** ** The transfer validator on the example store *)

Lemma validateCoinSpendable_rule_order_witness :
  @keeper.validateCoinSpendable examplePkg (ctxOf PurposeAck) stABCFrozen "alice" defABC 1000
  = Ok tt
  /\ @keeper.validateCoinSpendable examplePkg (ctxOf PurposeNone) stABCFrozen "alice" defABC 1
     = Err ErrGloballyFrozen
  /\ @keeper.validateCoinSpendable examplePkg (ctxOf PurposeIn) stABC "alice" defABC 1000
     = Ok tt
  /\ @keeper.validateCoinSpendable examplePkg (ctxOf PurposeIn) stABCFrozen "alice" defABC 1
     = Err ErrGloballyFrozen.
Proof.
  split; [| split; [| split]].
  - apply (proj1 (@validateCoinSpendable_rule_order examplePkg
                    (ctxOf PurposeAck) stABCFrozen "alice" defABC 1000)).
    left. reflexivity.
  - apply (proj1 (proj2 (@validateCoinSpendable_rule_order examplePkg
                           (ctxOf PurposeNone) stABCFrozen "alice" defABC 1))).
    + discriminate.
    + discriminate.
    + reflexivity.
    + vm_compute. reflexivity.
    + reflexivity.
  - apply (proj1 (proj2 (proj2 (@validateCoinSpendable_rule_order examplePkg
                                  (ctxOf PurposeIn) stABC "alice" defABC 1000)))).
    + reflexivity.
    + vm_compute. reflexivity.
  - apply (proj2 (proj2 (proj2 (@validateCoinSpendable_rule_order examplePkg
                                  (ctxOf PurposeIn) stABCFrozen "alice" defABC 1)))).
    + reflexivity.
    + vm_compute. reflexivity.
Defined.

(** C2 as stated fails: [contract1] has no admin privileges, the token
    has the whitelisting feature, the purpose is none and the amount is
    within the whitelisted limit (0 + 0 + 30 ≤ 100), yet the transfer is
    rejected, because the token also blocks smart contracts. *)
Lemma validateCoinReceivable_whitelisting_counterexample :
  IsFeatureEnabled defABC Feature_whitelisting = true
  /\ HasAdminPrivileges defABC "contract1" = false
  /\ purpose ctxToContract = PurposeNone
  /\ withinWhitelistedLimit stABC "contract1" (Denom defABC) 30
  /\ keeper.validateCoinReceivable ctxToContract stABC "contract1" defABC 30
     = Err ErrUnauthorized
  /\ ~ (keeper.validateCoinReceivable ctxToContract stABC "contract1" defABC 30 = Ok tt
        <-> withinWhitelistedLimit stABC "contract1" (Denom defABC) 30).
Proof.
  assert (Hwithin : withinWhitelistedLimit stABC "contract1" (Denom defABC) 30)
    by (vm_compute; discriminate).
  assert (Hrun : keeper.validateCoinReceivable ctxToContract stABC "contract1" defABC 30
                 = Err ErrUnauthorized)
    by (vm_compute; reflexivity).
  repeat split; try reflexivity; try assumption.
  intros [_ Hback]. specialize (Hback Hwithin). rewrite Hrun in Hback. discriminate.
Qed.

Lemma validateCoinReceivable_whitelisting_witness :
  (keeper.validateCoinReceivable (ctxOf PurposeNone) stABC "bob" defABC 30 = Ok tt
   <-> withinWhitelistedLimit stABC "bob" (Denom defABC) 30
       /\ IsFeatureEnabled defABC Feature_block_smart_contracts
          && IsReceivingSmartContract (ctxOf PurposeNone) "bob" = false)
  /\ (keeper.validateCoinReceivable (ctxOf PurposeNone) stABC "bob" defABC 31
      = Err ErrWhitelistedLimitExceeded
      <-> ~ withinWhitelistedLimit stABC "bob" (Denom defABC) 31).
Proof.
  split.
  - apply (proj1 (proj2 (validateCoinReceivable_whitelisting
                           (ctxOf PurposeNone) stABC "bob" defABC 30
                           eq_refl eq_refl eq_refl))).
  - apply (proj1 (validateCoinReceivable_whitelisting
                    (ctxOf PurposeNone) stABC "bob" defABC 31
                    eq_refl eq_refl eq_refl)).
Defined.

Lemma admin_exemption_witness :
  @keeper.validateCoinSpendable examplePkg (ctxOf PurposeNone) stABCFrozen "issuer1" defABC 0
  = keeper.validateCoinIsNotLockedByDEXAndBank stABCFrozen "issuer1" (sdk.NewCoin denomABC 0)
  /\ keeper.validateCoinReceivable (ctxOf PurposeNone) stABCFrozen "issuer1" defABC 1000
     = Ok tt.
Proof.
  split.
  - apply (proj1 (@admin_exemption examplePkg (ctxOf PurposeNone) stABCFrozen
                    "issuer1" defABC 0 eq_refl eq_refl)).
  - apply (proj2 (proj2 (proj2 (@admin_exemption examplePkg (ctxOf PurposeNone) stABCFrozen
                                  "issuer1" defABC 1000 eq_refl eq_refl)))).
Defined.

(** ** Minting, issuing and administration on the example store *)

Lemma amount_above_cap_rejected_witness :
  @keeper.Mint examplePkg (ctxOf PurposeNone) "issuer1" "bob"
    (sdk.NewCoin "unknown-denom" (10 ^ 30 + 1)) stABC
  = (Err ErrInvalidInput, stABC)
  /\ @keeper.Issue examplePkg exampleCollaborators (ctxOf PurposeNone)
       (settingsABC "XYZ" "uxyz" (10 ^ 30 + 1)) stABC
     = (Err ErrInvalidInput, stABC).
Proof.
  split.
  - apply (proj1 (@amount_above_cap_rejected examplePkg exampleCollaborators)).
    vm_compute. reflexivity.
  - apply (proj2 (@amount_above_cap_rejected examplePkg exampleCollaborators)
             examplePkg_validators (ctxOf PurposeNone) stABC
             (settingsABC "XYZ" "uxyz" (10 ^ 30 + 1)) 1).
    vm_compute. reflexivity.
Defined.

Lemma ClearAdmin_clears_admin_witness :
  (exists st' def',
      @keeper.ClearAdmin examplePkg "issuer1" denomABC stABC = (Ok tt, st')
      /\ @keeper.GetDefinition examplePkg st' denomABC = Ok def'
      /\ Admin def' = EmptyString
      /\ SendCommissionRate def' = 0)
  /\ @keeper.ClearAdmin examplePkg "alice" denomABC stABC = (Err ErrUnauthorized, stABC).
Proof.
  assert (Hset : Admin defABC <> EmptyString) by discriminate.
  destruct (@ClearAdmin_clears_admin examplePkg stABC "issuer1" denomABC defABC
              GetDefinition_ABC Hset) as [Hadmin _].
  destruct (@ClearAdmin_clears_admin examplePkg stABC "alice" denomABC defABC
              GetDefinition_ABC Hset) as [_ Hother].
  split.
  - destruct (Hadmin eq_refl) as (st' & def' & Hrun & Hdef & Hcleared & Hzero & _).
    exists st', def'. repeat split; try assumption. apply Hzero. reflexivity.
  - apply Hother. reflexivity.
Defined.

Lemma global_freeze_idempotent_witness :
  exists stFrozen stUnfrozen,
    @keeper.GloballyFreeze examplePkg "issuer1" denomABC stABC = (Ok tt, stFrozen)
    /\ @keeper.GloballyFreeze examplePkg "issuer1" denomABC stFrozen = (Ok tt, stFrozen)
    /\ @keeper.GloballyUnfreeze examplePkg "issuer1" denomABC stFrozen = (Ok tt, stUnfrozen)
    /\ @keeper.GloballyUnfreeze examplePkg "issuer1" denomABC stUnfrozen
       = (Ok tt, stUnfrozen)
    /\ stUnfrozen = stABC.
Proof.
  destruct (@global_freeze_idempotent examplePkg stABC "issuer1" denomABC defABC
              GetDefinition_ABC eq_refl eq_refl)
    as (stFrozen & stUnfrozen & Hf & _ & _ & Hff & _ & _ & _ & Huu & Hfu & Hback).
  exists stFrozen, stUnfrozen.
  repeat split; try assumption. apply Hback. reflexivity.
Defined.

Lemma GetSpendableBalance_never_negative_witness :
  exists amount,
    @keeper.GetSpendableBalance examplePkg stABC "alice" denomABC
    = Ok (sdk.NewCoin denomABC amount)
    /\ 0 <= amount
    /\ amount = @spendableBalanceSpec examplePkg stABC "alice" denomABC.
Proof.
  destruct (@GetSpendableBalance_never_negative examplePkg stABC "alice" denomABC)
    as (amount & Hrun & Hnonneg & Hspec).
  exists amount. split; [exact Hrun |]. split; [exact Hnonneg |].
  assert (Hdex : 0 <= sdk.Amount (keeper.GetDEXLockedBalance stABC "alice" denomABC))
    by (vm_compute; discriminate).
  assert (Hvesting : 0 <= keeper.LockedCoinsAmountOf stABC "alice" denomABC)
    by (vm_compute; discriminate).
  exact (proj1 (Hspec Hdex Hvesting)).
Defined.

(** C9 as stated fails: the symbol [ABC] is stored for [issuer1], who holds
    no [ucore] to pay the issue fee of 10; issuing under that symbol is
    rejected by the fee step, with [ErrInsufficientFunds], before the
    symbol is looked up. *)
Lemma issue_rejects_reused_identifiers_counterexample :
  is_Some (keeper.symbols stABC
             !! ("issuer1"%string, @NormalizeSymbolForKey examplePkg "ABC"))
  /\ @keeper.IssueVersioned examplePkg exampleCollaborators (ctxOf PurposeNone)
       (settingsABC "ABC" "unew" 100) 1 stABC
     = (Err ErrInsufficientFunds, stABC).
Proof.
  split.
  - exists StoreTrue. vm_compute. reflexivity.
  - vm_compute. reflexivity.
Qed.

Lemma issue_rejects_reused_identifiers_witness :
  @keeper.IssueVersioned examplePkg exampleCollaborators (ctxOf PurposeNone)
    (settingsABC "NEW" "uabc" 100) 1 stABCRegistered
  = (Err ErrInvalidInput, stABCRegistered)
  /\ (exists e st',
         @keeper.IssueVersioned examplePkg exampleCollaborators (ctxOf PurposeNone)
           (settingsABC "ABC" "unew" 100) 1 stABC
         = (Err e, st')
         /\ keeper.definitions st' = keeper.definitions stABC).
Proof.
  destruct (@issue_rejects_reused_identifiers examplePkg exampleCollaborators
              examplePkg_validators (ctxOf PurposeNone) stABCRegistered
              (settingsABC "NEW" "uabc" 100) 1) as [Hsubunit _].
  destruct (@issue_rejects_reused_identifiers examplePkg exampleCollaborators
              examplePkg_validators (ctxOf PurposeNone) stABC
              (settingsABC "ABC" "unew" 100) 1) as [_ Hsymbol].
  split.
  - apply Hsubunit. eexists. vm_compute. reflexivity.
  - destruct Hsymbol as (e & st' & Hrun & Hdefs & _).
    + exists StoreTrue. vm_compute. reflexivity.
    + exists e, st'. split; assumption.
Defined.

(** ** The fee model on an example store *)

Example CalculateEdgeGasPriceAfterBlocks_51 :
  @feemodel.CalculateEdgeGasPriceAfterBlocks exampleFeeTypes stFee 51
  = feemodel.Failed ErrInvalidRequest.
Proof. vm_compute. reflexivity. Qed.

Example CalculateEdgeGasPriceAfterBlocks_3 :
  @feemodel.CalculateEdgeGasPriceAfterBlocks exampleFeeTypes stFee 3
  = feemodel.Returned (sdk.NewDecCoinFromDec "ucore" 44612,
                       sdk.NewDecCoinFromDec "ucore" 109152).
Proof. vm_compute. reflexivity. Qed.

Lemma CalculateEdgeGasPriceAfterBlocks_edges_witness :
  ((exists e, @feemodel.CalculateEdgeGasPriceAfterBlocks exampleFeeTypes stFee 51
              = feemodel.Failed e)
   <-> (50 < 51)%N)
  /\ (exists low high,
         @feemodel.CalculateEdgeGasPriceAfterBlocks exampleFeeTypes stFee 0
         = feemodel.Returned (sdk.NewDecCoinFromDec "ucore" low,
                              sdk.NewDecCoinFromDec "ucore" high)
         /\ low <= high
         /\ isMinimumOf low (@edgeCandidates exampleFeeTypes stFee 50)
         /\ isMaximumOf high (@edgeCandidates exampleFeeTypes stFee 50)).
Proof.
  split.
  - apply (proj1 (@CalculateEdgeGasPriceAfterBlocks_edges exampleFeeTypes stFee 51
                    (sdk.NewDecCoinFromDec "ucore" 50000) eq_refl)).
  - apply (proj2 (@CalculateEdgeGasPriceAfterBlocks_edges exampleFeeTypes stFee 0
                    (sdk.NewDecCoinFromDec "ucore" 50000) eq_refl)).
    vm_compute. discriminate.
Defined.

(** ** Scenario 5: good-til-height expiration *)

Example PlaceOrder_sell10 : dex.PlaceOrder sell10 stDex = Ok stDexPlaced.
Proof. vm_compute. reflexivity. Qed.

Lemma stDex_wellFormed : wellFormed stDex.
Proof.
  apply empty_book_wellFormed; try reflexivity.
  - vm_compute. discriminate.
  - intros denom.
    change (0 <= default 0
                   (({[ ("seller"%string, "base"%string) := 10;
                        ("seller"%string, "ucore"%string) := 5 ]}
                     : gmap (string * string) Z) !! ("dex"%string, denom))).
    rewrite lookup_insert_ne by discriminate.
    rewrite lookup_singleton_ne by discriminate. simpl. lia.
Qed.

(** ** The runs of [TestKeeper_GoodTil] *)

Lemma stFundedForThree_wellFormed : wellFormed stFundedForThree.
Proof.
  apply empty_book_wellFormed; try reflexivity.
  - vm_compute. discriminate.
  - intros denom.
    change (0 <= default 0
                   (({[ ("acc1"%string, "denom1"%string) := 20;
                        ("acc1"%string, "denom2"%string) := 10;
                        ("acc1"%string, "ucore"%string) := 15 ]}
                     : gmap (string * string) Z) !! ("dex"%string, denom))).
    rewrite !lookup_insert_ne by discriminate.
    rewrite lookup_singleton_ne by discriminate. simpl. lia.
Qed.

(** keep_to_max_height: the order with height 343 is in the book after
    block 343 *)
Example TestKeeper_GoodTil_keep_to_max_height :
  dex.TestKeeper_GoodTil initialBlockTime blockTime ordersKeepToMaxHeight 300 343 stGenesis
  = Ok stKeepToMaxHeight
  /\ dex.ID <$> dex.orders stKeepToMaxHeight = {[ 1%N := "id1"%string ]}.
Proof. split; vm_compute; reflexivity. Qed.

(** remove_from_max_height: after block 343 the three orders are in the
    book, after block 344 the two with height 343 are gone, their locks
    released and their reserves returned, and the one with height 345 is
    left *)
Example TestKeeper_GoodTil_remove_from_max_height :
  dex.TestKeeper_GoodTil initialBlockTime blockTime ordersRemoveFromMaxHeight 300 343 stGenesis
  = Ok stThree
  /\ dex.ID <$> dex.orders stThree
     = {[ 1%N := "id1"%string; 2%N := "id2"%string; 3%N := "id3"%string ]}
  /\ dex.TestKeeper_GoodTil initialBlockTime blockTime ordersRemoveFromMaxHeight 300 344
       stGenesis
     = Ok stRemoveFromMaxHeight
  /\ dex.ID <$> dex.orders stRemoveFromMaxHeight = {[ 3%N := "id3"%string ]}
  /\ dex.goodTilByHeight stRemoveFromMaxHeight
     = [(346%N, {| dex.CancelCreator := "acc1"; dex.OrderSequence := 3 |})]
  /\ dex.lockedOf stThree "acc1" "denom1" = 20
  /\ dex.lockedOf stRemoveFromMaxHeight "acc1" "denom1" = 10
  /\ dex.lockedOf stThree "acc1" "denom2" = 10
  /\ dex.lockedOf stRemoveFromMaxHeight "acc1" "denom2" = 0
  /\ dex.balanceOf stThree "acc1" "ucore" = 0
  /\ dex.balanceOf stRemoveFromMaxHeight "acc1" "ucore" = 10
  /\ dex.balanceOf stRemoveFromMaxHeight dex.ModuleName "ucore" = 5
  /\ dex.reservedOrderIDs stRemoveFromMaxHeight
     = {[ ("acc1"%string, "id1"%string); ("acc1"%string, "id2"%string) ]}.
Proof. repeat (split; [vm_compute; reflexivity |]). vm_compute. reflexivity. Qed.

(** remove_from_max_time: the two orders whose good-til time is the time
    of block 103 are gone after block 110, the one good for an hour is
    left *)
Example TestKeeper_GoodTil_remove_from_max_time :
  dex.TestKeeper_GoodTil initialBlockTime blockTime ordersRemoveFromMaxTime 100 110 stGenesis
  = Ok stRemoveFromMaxTime
  /\ dex.ID <$> dex.orders stRemoveFromMaxTime = {[ 3%N := "id3"%string ]}.
Proof. split; vm_compute; reflexivity. Qed.

(** time_and_height_remove_both: the book is empty after block 110 *)
Example TestKeeper_GoodTil_remove_both :
  dex.TestKeeper_GoodTil initialBlockTime blockTime ordersRemoveBoth 100 110 stGenesis
  = Ok stRemoveBoth
  /\ dex.orders stRemoveBoth = ∅
  /\ dex.goodTilByHeight stRemoveBoth = []
  /\ dex.goodTilByTime stRemoveBoth = [].
Proof. repeat (split; [vm_compute; reflexivity |]). vm_compute. reflexivity. Qed.

(** C3 as stated fails. Block 103 is the first block whose height
    satisfies [H ≤ current height] for [H = 103], and its begin leaves the
    order in the book, the lock in place and the reserve with the module;
    the order goes at the begin of block 104. And an order with height 103
    that also has a good-til time is cancelled at the begin of the block
    that reaches this time, here block 102, before its height. *)
Lemma good_til_height_expiry_counterexample :
  dex.PlaceOrder sell10 stDex = Ok stDexPlaced
  /\ (103 <= 103)%N
  /\ (forall now : Z, dex.BeginBlock 103 now stDexPlaced = Ok stDexPlaced)
  /\ is_Some (dex.orders stDexPlaced !! 1%N)
  /\ dex.lockedOf stDexPlaced "seller" "base" = 10
  /\ dex.balanceOf stDexPlaced "seller" "ucore" = 0
  /\ dex.BeginBlock 104 (initialBlockTime + blockTime * 4) stDexPlaced = Ok stDexAt104
  /\ dex.orders stDexAt104 = ∅
  /\ dex.placeOrders [orderHeightAndTime] stGenesis = Ok stHeightAndTime
  /\ dex.OrderGoodTil <$> dex.orders stHeightAndTime
     = {[ 1%N := Some {| dex.GoodTilBlockHeight := 103;
                         dex.GoodTilBlockTime := Some (initialBlockTime + blockTime * 2) |} ]}
  /\ (102 < 103)%N
  /\ dex.BeginBlock 102 (initialBlockTime + blockTime * 2) stHeightAndTime
     = Ok stHeightAndTimeAt102
  /\ dex.orders stHeightAndTimeAt102 = ∅.
Proof.
  split; [vm_compute; reflexivity |].
  split; [vm_compute; discriminate |].
  split.
  { intros now. apply BeginBlock_idle.
    - intros entry Hin.
      assert (Hentries :
                dex.goodTilByHeight stDexPlaced
                = [(104%N, {| dex.CancelCreator := "seller"; dex.OrderSequence := 1 |})])
        by (vm_compute; reflexivity).
      rewrite Hentries in Hin. apply list_elem_of_singleton in Hin as ->. simpl. lia.
    - intros entry Hin.
      assert (Hentries : dex.goodTilByTime stDexPlaced = []) by (vm_compute; reflexivity).
      rewrite Hentries in Hin. apply not_elem_of_nil in Hin. contradiction. }
  split; [vm_compute; eexists; reflexivity |].
  repeat (split; [vm_compute; reflexivity |]). vm_compute. reflexivity.
Qed.

Lemma good_til_height_expiry_witness :
  (dex.runBlocks 101 [initialBlockTime + blockTime * 2; initialBlockTime + blockTime * 3]
     stDexPlaced
   = Ok stDexPlaced
   /\ exists st2,
        dex.BeginBlock 104 (initialBlockTime + blockTime * 4) stDexPlaced = Ok st2
        /\ dex.orders st2 = ∅
        /\ dex.goodTilByHeight st2 = []
        /\ dex.goodTilByTime st2 = []
        /\ (forall addr denom, dex.lockedOf st2 addr denom = dex.lockedOf stDex addr denom)
        /\ (forall addr denom, dex.balanceOf st2 addr denom = dex.balanceOf stDex addr denom)
        /\ ("seller"%string, "id1"%string) ∈ dex.reservedOrderIDs st2)
  /\ wellFormed stThree
  /\ (exists st',
         dex.BeginBlock 343 (initialBlockTime + blockTime * 43) stThree = Ok st'
         /\ wellFormed st'
         /\ is_Some (dex.orders st' !! 1%N))
  /\ (exists st',
         dex.BeginBlock 344 (initialBlockTime + blockTime * 44) stThree = Ok st'
         /\ wellFormed st'
         /\ dex.orders st' !! 1%N = None
         /\ (1%N ∉ sequencesOf (dex.goodTilByHeight st'))
         /\ (1%N ∉ sequencesOf (dex.goodTilByTime st'))
         /\ ("acc1"%string, "id1"%string) ∈ dex.reservedOrderIDs st'
         /\ dex.lockedOf st' "acc1" "denom1" <= dex.lockedOf stThree "acc1" "denom1" - 10
         /\ dex.balanceOf stThree "acc1" "ucore" + 5 <= dex.balanceOf st' "acc1" "ucore")
  /\ (exists st',
         dex.BeginBlock 344 (initialBlockTime + blockTime * 44) stThree = Ok st'
         /\ wellFormed st'
         /\ dex.orders st' = unexpired stThree 344 (initialBlockTime + blockTime * 44)
         /\ (forall addr denom,
                dex.lockedOf st' addr denom
                = dex.lockedOf stThree addr denom
                  - total (lockOf addr denom)
                      (expiredOrders stThree 344 (initialBlockTime + blockTime * 44)))
         /\ (forall addr denom,
                addr <> dex.ModuleName ->
                dex.balanceOf st' addr denom
                = dex.balanceOf stThree addr denom
                  + total (reserveOf addr denom)
                      (expiredOrders stThree 344 (initialBlockTime + blockTime * 44)))
         /\ (forall denom,
                dex.balanceOf st' dex.ModuleName denom
                = dex.balanceOf stThree dex.ModuleName denom
                  - total (heldOf denom)
                      (expiredOrders stThree 344 (initialBlockTime + blockTime * 44)))
         /\ (forall creator id,
                (creator, id) ∈ dex.reservedOrderIDs st'
                <-> (creator, id) ∈ dex.reservedOrderIDs stThree
                    \/ tombstonedAt stThree 344 (initialBlockTime + blockTime * 44)
                         creator id)).
Proof.
  destruct good_til_height_expiry
    as (Hplace & Hbegin & Hkeep & _ & Hcancel & _ & _ & Halone).
  assert (Hprice : forall (id baseDenom quoteDenom : string) (goodTil : dex.GoodTil)
                     (price : dex.Price),
             dex.OrderPrice (testOrder id baseDenom quoteDenom goodTil) = Some price ->
             0 <= dex.Mantissa price).
  { intros id baseDenom quoteDenom goodTil price Heq. injection Heq as <-.
    simpl. lia. }
  assert (Hone : wellFormed stOne).
  { apply (Hplace stFundedForThree stOne (testOrder "id1" "denom1" "denom2" (onlyHeight 343))
             stFundedForThree_wellFormed); [discriminate | discriminate | apply Hprice |].
    vm_compute. reflexivity. }
  assert (Htwo : wellFormed stTwo).
  { apply (Hplace stOne stTwo (testOrder "id2" "denom2" "denom3" (onlyHeight 343)) Hone);
      [discriminate | discriminate | apply Hprice |].
    vm_compute. reflexivity. }
  assert (Hthree : wellFormed stThree).
  { apply (Hplace stTwo stThree (testOrder "id3" "denom1" "denom3" (onlyHeight 345)) Htwo);
      [discriminate | discriminate | apply Hprice |].
    vm_compute. reflexivity. }
  assert (Hopen :
            dex.orders stThree !! 1%N
            = Some (parkedOrder stFundedForThree
                      (testOrder "id1" "denom1" "denom2" (onlyHeight 343)) 10))
    by (vm_compute; reflexivity).
  split; [| split; [exact Hthree | split; [| split]]].
  - assert (Hsell : forall price, dex.OrderPrice sell10 = Some price -> 0 <= dex.Mantissa price).
    { intros price Heq. injection Heq as <-. simpl. lia. }
    destruct (Halone stDex stDexPlaced sell10 101%N 103%N stDex_wellFormed eq_refl)
      as (_ & Hrun & Hgone);
      [discriminate | discriminate | exact Hsell | reflexivity | reflexivity
      | exact PlaceOrder_sell10 |].
    split; [apply Hrun; vm_compute; discriminate |].
    exact (Hgone (initialBlockTime + blockTime * 4)).
  - destruct (Hkeep stThree 1%N _ (onlyHeight 343) 343%N (initialBlockTime + blockTime * 43)
                Hthree Hopen eq_refl)
      as (st' & Hrun & Hwf' & Hstill);
      [simpl; lia | intros deadline Heq; discriminate |].
    exists st'. split; [exact Hrun |]. split; [exact Hwf' |].
    eexists. exact Hstill.
  - exact (Hcancel stThree 1%N _ (onlyHeight 343) 344%N (initialBlockTime + blockTime * 44)
             Hthree Hopen eq_refl eq_refl eq_refl).
  - exact (Hbegin stThree 344%N (initialBlockTime + blockTime * 44) Hthree).
Defined.

End Runs.
